(** * tmdb_client_py: the resource bindings and their request assembly

    A shallow embedding of the resource classes of [tmdb_client_py]
    ([account.py], [discover.py], [genres.py], [movies.py], [search.py])
    and of the small base layer they share, followed by the properties
    the specification states about them.

    Layout: Python data and the string and dict operations the code
    uses; the error kinds and the state-and-error monad in which a
    method runs; the base layer; one module per resource class, one
    definition per method; the enumeration of all calls; theorems. *)

From Stdlib Require Import ZArith Ascii PrimFloat.
From stdpp Require Import base strings list gmap pretty.

Local Open Scope Z_scope.
Set Warnings "-register-all".

(** ** Python values *)

(** The values that travel through the client: arguments, JSON payloads,
    decoded JSON responses and attribute values.  A Python [dict] with
    string keys is an insertion-ordered association list holding one
    entry per key. *)
Inductive pyval : Type :=
| PyNone
| PyBool (b : bool)
| PyInt (n : Z)
| PyFloat (f : float)
| PyStr (s : string)
| PyList (items : list pyval)
| PyDict (entries : list (string * pyval)).

Abbreviation dict := (list (string * pyval)).

(** [v is None] *)
Definition is_None (v : pyval) : bool :=
  match v with PyNone => true | _ => false end.

(** [d.get(k)]: the value under [k], if any. *)
Fixpoint getitem (d : dict) (k : string) : option pyval :=
  match d with
  | [] => None
  | (k', v) :: d' => if String.eqb k' k then Some v else getitem d' k
  end.

(** [d[k] = v]: overwrite in place, or append a new entry. *)
Fixpoint setitem (d : dict) (k : string) (v : pyval) : dict :=
  match d with
  | [] => [(k, v)]
  | (k', v') :: d' =>
      if String.eqb k' k then (k', v) :: d' else (k', v') :: setitem d' k v
  end.

(** [del d[k]]: the mapping without its entry for [k]. *)
Fixpoint delitem (d : dict) (k : string) : dict :=
  match d with
  | [] => []
  | (k', v') :: d' =>
      if String.eqb k' k then delitem d' k else (k', v') :: delitem d' k
  end.

(** [list(d)]: the keys in insertion order. *)
Definition keys (d : dict) : list string := d.*1.

(** [d1 == d2] on dicts does not look at the order of insertion. *)
Definition dict_eq (d1 d2 : dict) : Prop :=
  ∀ k, getitem d1 k = getitem d2 k.

(** [if v is not None: kwargs[k] = v] *)
Definition put_if_set (k : string) (v : pyval) (kwargs : dict) : dict :=
  if is_None v then kwargs else setitem kwargs k v.

(** ** Python strings *)

(** [s.startswith(p)] *)
Fixpoint starts_with (p s : string) : bool :=
  match p, s with
  | EmptyString, _ => true
  | String _ _, EmptyString => false
  | String a p', String b s' => Ascii.eqb a b && starts_with p' s'
  end.

(** [sub in s] *)
Fixpoint str_in (sub s : string) : bool :=
  starts_with sub s ||
  match s with
  | EmptyString => false
  | String _ s' => str_in sub s'
  end.

(** [s.replace(old, new)] for a non-empty [old]: the occurrences of [old]
    are found from the left and do not overlap; [skip] counts the
    characters of a found occurrence that are still to be passed over. *)
Fixpoint replace_from (old new : string) (skip : nat) (s : string) : string :=
  match s with
  | EmptyString => EmptyString
  | String c s' =>
      match skip with
      | S n => replace_from old new n s'
      | O =>
          if starts_with old s
          then new +:+ replace_from old new (Nat.pred (String.length old)) s'
          else String c (replace_from old new 0 s')
      end
  end.

Definition str_replace (old new s : string) : string :=
  replace_from old new 0 s.

(** [s.lower()] on ASCII text. *)
Definition ascii_lower (c : Ascii.ascii) : Ascii.ascii :=
  let n := Ascii.nat_of_ascii c in
  if ((65 <=? n)%nat && (n <=? 90)%nat)%bool
  then Ascii.ascii_of_nat (n + 32) else c.

Fixpoint str_lower (s : string) : string :=
  match s with
  | EmptyString => EmptyString
  | String c s' => String (ascii_lower c) (str_lower s')
  end.

(** ** Errors *)

(** The exceptions a call can end in: those the interpreter raises inside
    the resource modules, and the four kinds of the error taxonomy. *)
Inductive error : Type :=
| AttributeError (name : string)
| KeyError (key : string)
| TypeError
| ValueError
| ConfigurationError (endpoint : string)
| TransportError
| RemoteError (status : Z)
| DecodeError.

Inductive outcome (A : Type) : Type :=
| Returned (a : A)
| Raised (e : error).
Arguments Returned {A} a.
Arguments Raised {A} e.

#[global] Instance outcome_ret : MRet outcome := λ A a, Returned a.

#[global] Instance outcome_bind : MBind outcome := λ A B f o,
  match o with
  | Returned a => f a
  | Raised e => Raised e
  end.

(** [template.format(name=text)] for a template made of literal text and
    plain [{field}] replacement fields, which is what the [URLS] tables
    hold.  [field] is [Some acc] while the scan is inside braces.  A field
    other than [name] is a [KeyError]; a lone brace is a [ValueError]. *)
Fixpoint format_scan (name text : string) (field : option string)
    (template : string) : outcome string :=
  match template with
  | EmptyString =>
      match field with
      | None => Returned EmptyString
      | Some _ => Raised ValueError
      end
  | String c rest =>
      match field with
      | Some acc =>
          if Ascii.eqb c "}"%char
          then if String.eqb acc name
               then out ← format_scan name text None rest;
                    Returned (text +:+ out)
               else Raised (KeyError acc)
          else format_scan name text (Some (acc +:+ String c EmptyString)) rest
      | None =>
          if Ascii.eqb c "{"%char
          then format_scan name text (Some EmptyString) rest
          else if Ascii.eqb c "}"%char then Raised ValueError
          else out ← format_scan name text None rest;
               Returned (String c out)
      end
  end.

Definition str_format (template name text : string) : outcome string :=
  format_scan name text None template.

(** [response[k]] on a decoded JSON value. *)
Definition subscript (v : pyval) (k : string) : outcome pyval :=
  match v with
  | PyDict d =>
      match getitem d k with
      | Some x => Returned x
      | None => Raised (KeyError k)
      end
  | _ => Raised TypeError
  end.

(** ** The monad of a method call *)

Inductive verb : Type := GET | POST | DELETE.

(** What a method hands to the dispatcher: the verb, the path below the
    API root, the query mapping and, for a call with a JSON body, the
    body. *)
Record request : Type := Request {
  r_verb : verb;
  r_path : string;
  r_params : dict;
  r_payload : option dict
}.

(** What the transport reports back: no answer at all, or a status code
    with the body decoded as JSON ([None] when it is not valid JSON). *)
Inductive reply : Type :=
| Unreachable
| Replied (status : Z) (body : option pyval).

(** The surroundings of a call: the remote service behind the transport,
    and the interpreter's text for floats and containers. *)
Record world : Type := World {
  service : request → reply;
  py_repr : pyval → string
}.

(** The instance attributes of the resource object, and the requests
    issued so far. *)
Record state : Type := State {
  attrs : gmap string pyval;
  sent : list request
}.

Definition M (A : Type) : Type := world → state → outcome A * state.

#[global] Instance M_ret : MRet M := λ A a _ st, (Returned a, st).

#[global] Instance M_bind : MBind M := λ A B f m w st,
  match m w st with
  | (Returned a, st') => f a w st'
  | (Raised e, st') => (Raised e, st')
  end.

Definition raise {A} (e : error) : M A := λ _ st, (Raised e, st).

Definition lift {A} (o : outcome A) : M A := λ _ st, (o, st).

(** [self.name] *)
Definition getattr (name : string) : M pyval := λ _ st,
  match attrs st !! name with
  | Some v => (Returned v, st)
  | None => (Raised (AttributeError name), st)
  end.

(** [self.name = v] *)
Definition setattr (name : string) (v : pyval) : M unit := λ _ st,
  (Returned (), State (<[name := v]> (attrs st)) (sent st)).

(** [str(v)], which is also what [str.format] puts for a field. *)
Definition py_str (v : pyval) : M string := λ w st,
  (Returned match v with
            | PyNone => "None"
            | PyBool true => "True"
            | PyBool false => "False"
            | PyInt n => pretty n
            | PyStr s => s
            | _ => py_repr w v
            end, st).

(** ** The base layer [TMDB] *)

(** A resource class: its [BASE_PATH] and its [URLS] table. *)
Record class : Type := Class {
  BASE_PATH : string;
  URLS : list (string * string)
}.

Fixpoint url_lookup (urls : list (string * string)) (key : string)
    : option string :=
  match urls with
  | [] => None
  | (k, t) :: urls' => if String.eqb k key then Some t else url_lookup urls' key
  end.

(** Modelled from the spec: [TMDB.__init__], which is in [base.py].  The
    resource object holds the identifiers supplied at construction; the
    base constructor contributes no attribute of its own. *)
Definition TMDB_init : gmap string pyval := ∅.

(** Modelled from the spec: [TMDB._get_path], which is in [base.py].  The
    path is the base path followed by the endpoint's template; an endpoint
    name that is not in the table is a configuration error. *)
Definition _get_path (cls : class) (key : string) : M string :=
  match url_lookup (URLS cls) key with
  | Some template => mret (BASE_PATH cls +:+ template)
  | None => raise (ConfigurationError key)
  end.

(** Modelled from the spec: [TMDB._get_id_path], which is in [base.py]; it
    substitutes the object's own identifier for the [{id}] placeholder, the
    way [GuestSessions._get_guest_session_id_path] does for its own. *)
Definition _get_id_path (cls : class) (key : string) : M string :=
  template ← _get_path cls key;
  id ← getattr "id";
  text ← py_str id;
  lift (str_format template "id" text).

(** Modelled from the spec: which status codes are a success. *)
Definition is_success (status : Z) : bool :=
  (200 <=? status) && (status <? 300).

(** Modelled from the spec: the dispatcher [TMDB._request], which is in
    [base.py].  One network call; a transport failure, a non-success
    status and a body that is not JSON are three distinct errors, and the
    status is looked at before the body. *)
Definition _request (v : verb) (p : string) (q : dict) (body : option dict)
    : M pyval := λ w st,
  let r := Request v p q body in
  let st' := State (attrs st) (sent st ++ [r]) in
  match service w r with
  | Unreachable => (Raised TransportError, st')
  | Replied status decoded =>
      if is_success status
      then match decoded with
           | Some json => (Returned json, st')
           | None => (Raised DecodeError, st')
           end
      else (Raised (RemoteError status), st')
  end.

(** Modelled from the spec: the three verbs of the dispatcher, [TMDB._GET],
    [TMDB._POST] and [TMDB._DELETE], which are in [base.py].  A read has no
    body; a method that passes no query mapping sends the empty one. *)
Definition _GET (p : string) (q : dict) : M pyval := _request GET p q None.

Definition _POST (p : string) (q : dict) (body : dict) : M pyval :=
  _request POST p q (Some body).

Definition _DELETE (p : string) (q : dict) (body : option dict) : M pyval :=
  _request DELETE p q body.

(** Modelled from the spec: the response mirror
    [TMDB._set_attrs_to_values], which is in [base.py].  Every top-level
    pair of a JSON object is copied onto the object; any other JSON value
    is skipped. *)
Definition mirror (d : dict) (a : gmap string pyval) : gmap string pyval :=
  foldl (λ acc k, match getitem d k with
                  | Some v => <[k := v]> acc
                  | None => acc
                  end) a (keys d).

Definition _set_attrs_to_values (response : pyval) : M unit := λ _ st,
  match response with
  | PyDict d => (Returned (), State (mirror d (attrs st)) (sent st))
  | _ => (Returned (), st)
  end.

(** ** [account.py] *)

Module Account.

Definition cls : class := Class "account"
  [("info", "");
   ("lists", "/{id}/lists");
   ("favorite_movies", "/{id}/favorite/movies");
   ("favorite_tv", "/{id}/favorite/tv");
   ("favorite", "/{id}/favorite");
   ("rated_movies", "/{id}/rated/movies");
   ("rated_tv", "/{id}/rated/tv");
   ("rated_tv_episodes", "/{id}/rated/tv/episodes");
   ("watchlist_movies", "/{id}/watchlist/movies");
   ("watchlist_tv", "/{id}/watchlist/tv");
   ("watchlist", "/{id}/watchlist")].

(** [Account(session_id)] *)
Definition __init__ (session_id : pyval) : gmap string pyval :=
  <["session_id" := session_id]> TMDB_init.

Definition info : M pyval :=
  path ← _get_path cls "info";
  response ← _GET path [];
  id ← lift (subscript response "id");
  setattr "id" id;;
  _set_attrs_to_values response;;
  mret response.

Definition lists (language page : pyval) : M pyval :=
  path ← _get_id_path cls "lists";
  let kwargs := [] in
  let kwargs := put_if_set "language" language kwargs in
  let kwargs := put_if_set "page" page kwargs in
  response ← _GET path kwargs;
  _set_attrs_to_values response;;
  mret response.

Definition favorite_movies (language sort_by page : pyval) : M pyval :=
  path ← _get_id_path cls "favorite_movies";
  let kwargs := [] in
  let kwargs := put_if_set "language" language kwargs in
  let kwargs := put_if_set "sort_by" sort_by kwargs in
  let kwargs := put_if_set "page" page kwargs in
  response ← _GET path kwargs;
  _set_attrs_to_values response;;
  mret response.

Definition favorite_tv (language sort_by page : pyval) : M pyval :=
  path ← _get_id_path cls "favorite_tv";
  let kwargs := [] in
  let kwargs := put_if_set "language" language kwargs in
  let kwargs := put_if_set "sort_by" sort_by kwargs in
  let kwargs := put_if_set "page" page kwargs in
  response ← _GET path kwargs;
  _set_attrs_to_values response;;
  mret response.

Definition favorite (media_type media_id favorite : pyval) : M pyval :=
  path ← _get_id_path cls "favorite";
  let payload := [("media_type", media_type); ("media_id", media_id);
      ("favorite", favorite)] in
  response ← _POST path [] payload;
  _set_attrs_to_values response;;
  mret response.

Definition rated_movies (language sort_by page : pyval) : M pyval :=
  path ← _get_id_path cls "rated_movies";
  let kwargs := [] in
  let kwargs := put_if_set "language" language kwargs in
  let kwargs := put_if_set "sort_by" sort_by kwargs in
  let kwargs := put_if_set "page" page kwargs in
  response ← _GET path kwargs;
  _set_attrs_to_values response;;
  mret response.

Definition rated_tv (language sort_by page : pyval) : M pyval :=
  path ← _get_id_path cls "rated_tv";
  self_session_id ← getattr "session_id";
  let kwargs := [("session_id", self_session_id)] in
  let kwargs := put_if_set "language" language kwargs in
  let kwargs := put_if_set "sort_by" sort_by kwargs in
  let kwargs := put_if_set "page" page kwargs in
  response ← _GET path kwargs;
  _set_attrs_to_values response;;
  mret response.

Definition rated_tv_episodes (language sort_by page : pyval) : M pyval :=
  path ← _get_id_path cls "rated_tv_episodes";
  self_session_id ← getattr "session_id";
  let kwargs := [("session_id", self_session_id)] in
  let kwargs := put_if_set "language" language kwargs in
  let kwargs := put_if_set "sort_by" sort_by kwargs in
  let kwargs := put_if_set "page" page kwargs in
  response ← _GET path kwargs;
  _set_attrs_to_values response;;
  mret response.

Definition watchlist_movies (language sort_by page : pyval) : M pyval :=
  path ← _get_id_path cls "watchlist_movies";
  self_session_id ← getattr "session_id";
  let kwargs := [("session_id", self_session_id)] in
  let kwargs := put_if_set "language" language kwargs in
  let kwargs := put_if_set "sort_by" sort_by kwargs in
  let kwargs := put_if_set "page" page kwargs in
  response ← _GET path kwargs;
  _set_attrs_to_values response;;
  mret response.

Definition watchlist_tv (language sort_by page : pyval) : M pyval :=
  path ← _get_id_path cls "watchlist_tv";
  self_session_id ← getattr "session_id";
  let kwargs := [("session_id", self_session_id)] in
  let kwargs := put_if_set "language" language kwargs in
  let kwargs := put_if_set "sort_by" sort_by kwargs in
  let kwargs := put_if_set "page" page kwargs in
  response ← _GET path kwargs;
  _set_attrs_to_values response;;
  mret response.

Definition watchlist (media_type media_id watchlist : pyval) : M pyval :=
  path ← _get_id_path cls "watchlist";
  self_session_id ← getattr "session_id";
  let kwargs := [("session_id", self_session_id)] in
  let payload := [("media_type", media_type); ("media_id", media_id);
      ("watchlist", watchlist)] in
  response ← _POST path kwargs payload;
  _set_attrs_to_values response;;
  mret response.

End Account.

Module Authentication.

Definition cls : class := Class "authentication"
  [("guest_session_new", "/guest_session/new");
   ("token_new", "/token/new");
   ("session_new", "/session/new");
   ("token_validate_with_login", "/token/validate_with_login");
   ("session_delete", "/session")].

Definition guest_session_new : M pyval :=
  path ← _get_path cls "guest_session_new";
  response ← _GET path [];
  _set_attrs_to_values response;;
  mret response.

Definition token_new : M pyval :=
  path ← _get_path cls "token_new";
  response ← _GET path [];
  _set_attrs_to_values response;;
  mret response.

Definition session_new (request_token : pyval) : M pyval :=
  path ← _get_path cls "session_new";
  let kwargs := [] in
  let kwargs := put_if_set "request_token" request_token kwargs in
  response ← _GET path kwargs;
  _set_attrs_to_values response;;
  mret response.

Definition token_validate_with_login (username password request_token : pyval)
    : M pyval :=
  path ← _get_path cls "token_validate_with_login";
  let kwargs := [("username", username); ("password", password);
      ("request_token", request_token)] in
  response ← _GET path kwargs;
  _set_attrs_to_values response;;
  mret response.

Definition session_delete (session_id : pyval) : M pyval :=
  path ← _get_path cls "session_delete";
  let payload := [("session_id", session_id)] in
  response ← _DELETE path [] (Some payload);
  _set_attrs_to_values response;;
  mret response.

End Authentication.

Module GuestSessions.

Definition cls : class := Class "guest_session"
  [("rated_movies", "/{guest_session_id}/rated/movies");
   ("rated_tv", "/{guest_session_id}/rated/tv");
   ("rated_tv_episodes", "/{guest_session_id}/rated/tv/episodes")].

(** [GuestSessions(guest_session_id)]; defaults: guest_session_id=0 *)
Definition __init__ (guest_session_id : pyval) : gmap string pyval :=
  <["guest_session_id" := guest_session_id]> TMDB_init.

Definition _get_guest_session_id_path (key : string) : M string :=
  template ← _get_path cls key;
  guest_session_id ← getattr "guest_session_id";
  text ← py_str guest_session_id;
  lift (str_format template "guest_session_id" text).

Definition rated_movies (language sort_by : pyval) : M pyval :=
  path ← _get_guest_session_id_path "rated_movies";
  let kwargs := [] in
  let kwargs := put_if_set "language" language kwargs in
  let kwargs := put_if_set "sort_by" sort_by kwargs in
  response ← _GET path kwargs;
  _set_attrs_to_values response;;
  mret response.

Definition rated_tv (language sort_by : pyval) : M pyval :=
  path ← _get_guest_session_id_path "rated_tv";
  let kwargs := [] in
  let kwargs := put_if_set "language" language kwargs in
  let kwargs := put_if_set "sort_by" sort_by kwargs in
  response ← _GET path kwargs;
  _set_attrs_to_values response;;
  mret response.

Definition rated_tv_episodes (language sort_by : pyval) : M pyval :=
  path ← _get_guest_session_id_path "rated_tv_episodes";
  let kwargs := [] in
  let kwargs := put_if_set "language" language kwargs in
  let kwargs := put_if_set "sort_by" sort_by kwargs in
  response ← _GET path kwargs;
  _set_attrs_to_values response;;
  mret response.

End GuestSessions.

Module Lists.

Definition cls : class := Class "list"
  [("info", "/{id}");
   ("item_status", "/{id}/item_status");
   ("list_create", "");
   ("add_item", "/{id}/add_item");
   ("remove_item", "/{id}/remove_item");
   ("list_clear", "/{id}/clear");
   ("list_delete", "/{id}")].

(** [Lists(id, session_id)]; defaults: id=0, session_id=0 *)
Definition __init__ (id session_id : pyval) : gmap string pyval :=
  <["list_id" := PyNone]>
    (<["session_id" := session_id]> (<["id" := id]> TMDB_init)).

Definition info (language : pyval) : M pyval :=
  path ← _get_id_path cls "info";
  let kwargs := [] in
  let kwargs := put_if_set "language" language kwargs in
  response ← _GET path kwargs;
  _set_attrs_to_values response;;
  mret response.

Definition item_status (movie_id : pyval) : M pyval :=
  path ← _get_id_path cls "item_status";
  let kwargs := [("movie_id", movie_id)] in
  response ← _GET path kwargs;
  _set_attrs_to_values response;;
  mret response.

Definition list_create (name description language : pyval) : M pyval :=
  path ← _get_path cls "list_create";
  self_session_id ← getattr "session_id";
  let kwargs := [("session_id", self_session_id)] in
  let payload := [("name", name); ("description", description); ("language",
      language)] in
  response ← _POST path kwargs payload;
  _set_attrs_to_values response;;
  list_id ← getattr "list_id";
  setattr "id" list_id;;
  mret response.

Definition add_item (media_id : pyval) : M pyval :=
  path ← _get_id_path cls "add_item";
  self_session_id ← getattr "session_id";
  let kwargs := [("session_id", self_session_id)] in
  let payload := [("media_id", media_id)] in
  response ← _POST path kwargs payload;
  _set_attrs_to_values response;;
  mret response.

Definition remove_item (media_id : pyval) : M pyval :=
  path ← _get_id_path cls "remove_item";
  self_session_id ← getattr "session_id";
  let kwargs := [("session_id", self_session_id)] in
  let payload := [("media_id", media_id)] in
  response ← _POST path kwargs payload;
  _set_attrs_to_values response;;
  mret response.

Definition list_clear (confirm : pyval) : M pyval :=
  path ← _get_id_path cls "list_clear";
  self_session_id ← getattr "session_id";
  text ← py_str confirm;
  let kwargs := [("session_id", self_session_id); ("confirm", PyStr (str_lower
      text))] in
  let payload := [] in
  response ← _POST path kwargs payload;
  _set_attrs_to_values response;;
  mret response.

Definition list_delete : M pyval :=
  path ← _get_id_path cls "list_delete";
  self_session_id ← getattr "session_id";
  let kwargs := [("session_id", self_session_id)] in
  response ← _DELETE path kwargs None;
  _set_attrs_to_values response;;
  mret response.

End Lists.

(** ** [discover.py] *)

Module Discover.

Definition cls : class := Class "discover"
  [("movie", "/movie");
   ("tv", "/tv")].

(** [kwargs.pop(param)] *)
Definition pop (kwargs : dict) (param : string) : outcome (pyval * dict) :=
  match getitem kwargs param with
  | Some v => Returned (v, delitem kwargs param)
  | None => Raised (KeyError param)
  end.

(** The body of the loop that closes the parameter assembly of both
    [movie] and [tv]:
      if "_lte" in param:
          kwargs[param.replace("_lte", ".lte")] = kwargs.pop(param)
      if "_gte" in param:
          kwargs[param.replace("_gte", ".gte")] = kwargs.pop(param)
    The right-hand side is evaluated first, so a missing [param] raises
    before anything is stored. *)
Definition rename_step (kwargs : dict) (param : string) : outcome dict :=
  kwargs ←
    (if str_in "_lte" param
     then '(v, kwargs) ← pop kwargs param;
          Returned (setitem kwargs (str_replace "_lte" ".lte" param) v)
     else Returned kwargs);
  if str_in "_gte" param
  then '(v, kwargs) ← pop kwargs param;
       Returned (setitem kwargs (str_replace "_gte" ".gte" param) v)
  else Returned kwargs.

(** [for param in dict(kwargs): ...], over the keys the mapping had when
    the loop was entered. *)
Fixpoint rename_loop (snapshot : list string) (kwargs : dict)
    : outcome dict :=
  match snapshot with
  | [] => Returned kwargs
  | param :: rest =>
      kwargs ← rename_step kwargs param;
      rename_loop rest kwargs
  end.

Definition rename_filters (kwargs : dict) : outcome dict :=
  rename_loop (keys kwargs) kwargs.

Definition movie (language region sort_by certification_country certification
    certification_lte certification_gte include_adult include_video page
    primary_release_year primary_release_date_gte primary_release_date_lte
    release_date_gte release_date_lte year vote_count_gte vote_count_lte
    vote_average_gte vote_average_lte with_cast with_crew with_people
    with_companies with_genres without_genres with_keywords without_keywords
    with_runtime_gte with_runtime_lte with_original_language : pyval) 
    (kwargs : dict) : M pyval :=
  let kwargs := put_if_set "language" language kwargs in
  let kwargs := put_if_set "region" region kwargs in
  let kwargs := put_if_set "sort_by" sort_by kwargs in
  let kwargs :=
    put_if_set "certification_country" certification_country kwargs in
  let kwargs := put_if_set "certification" certification kwargs in
  let kwargs := put_if_set "certification.lte" certification_lte kwargs in
  let kwargs := put_if_set "certification.gte" certification_gte kwargs in
  let kwargs := put_if_set "include_adult" include_adult kwargs in
  let kwargs := put_if_set "include_video" include_video kwargs in
  let kwargs := put_if_set "page" page kwargs in
  let kwargs := put_if_set "primary_release_year" primary_release_year kwargs in
  let kwargs :=
    put_if_set "primary_release_date.gte" primary_release_date_gte kwargs in
  let kwargs :=
    put_if_set "primary_release_date.lte" primary_release_date_lte kwargs in
  let kwargs := put_if_set "release_date.gte" release_date_gte kwargs in
  let kwargs := put_if_set "release_date.lte" release_date_lte kwargs in
  let kwargs := put_if_set "year" year kwargs in
  let kwargs := put_if_set "vote_count.gte" vote_count_gte kwargs in
  let kwargs := put_if_set "vote_count.lte" vote_count_lte kwargs in
  let kwargs := put_if_set "vote_average.gte" vote_average_gte kwargs in
  let kwargs := put_if_set "vote_average.lte" vote_average_lte kwargs in
  let kwargs := put_if_set "with_cast" with_cast kwargs in
  let kwargs := put_if_set "with_crew" with_crew kwargs in
  let kwargs := put_if_set "with_people" with_people kwargs in
  let kwargs := put_if_set "with_companies" with_companies kwargs in
  let kwargs := put_if_set "with_genres" with_genres kwargs in
  let kwargs := put_if_set "without_genres" without_genres kwargs in
  let kwargs := put_if_set "with_keywords" with_keywords kwargs in
  let kwargs := put_if_set "without_keywords" without_keywords kwargs in
  let kwargs := put_if_set "with_runtime.gte" with_runtime_gte kwargs in
  let kwargs := put_if_set "with_runtime.lte" with_runtime_lte kwargs in
  let kwargs :=
    put_if_set "with_original_language" with_original_language kwargs in
  kwargs ← lift (rename_filters kwargs);
  path ← _get_path cls "movie";
  response ← _GET path kwargs;
  _set_attrs_to_values response;;
  mret response.

Definition tv (language sort_by air_date_gte air_date_lte first_air_date_gte
    first_air_date_lte first_air_date_year page timezone vote_average_gte
    vote_count_gte with_genres with_networks without_genres with_runtime_gte
    with_runtime_lte include_null_first_air_dates with_original_language
    without_keywords screened_theatrically with_companies with_keywords :
    pyval) (kwargs : dict) : M pyval :=
  let kwargs := put_if_set "language" language kwargs in
  let kwargs := put_if_set "sort_by" sort_by kwargs in
  let kwargs := put_if_set "air_date.gte" air_date_gte kwargs in
  let kwargs := put_if_set "air_date.lte" air_date_lte kwargs in
  let kwargs := put_if_set "first_air_date.gte" first_air_date_gte kwargs in
  let kwargs := put_if_set "first_air_date.lte" first_air_date_lte kwargs in
  let kwargs := put_if_set "first_air_date_year" first_air_date_year kwargs in
  let kwargs := put_if_set "page" page kwargs in
  let kwargs := put_if_set "timezone" timezone kwargs in
  let kwargs := put_if_set "vote_average.gte" vote_average_gte kwargs in
  let kwargs := put_if_set "vote_count.gte" vote_count_gte kwargs in
  let kwargs := put_if_set "with_genres" with_genres kwargs in
  let kwargs := put_if_set "with_networks" with_networks kwargs in
  let kwargs := put_if_set "without_genres" without_genres kwargs in
  let kwargs := put_if_set "with_runtime.gte" with_runtime_gte kwargs in
  let kwargs := put_if_set "with_runtime.lte" with_runtime_lte kwargs in
  let kwargs := put_if_set "include_null_first_air_dates"
      include_null_first_air_dates kwargs in
  let kwargs :=
    put_if_set "with_original_language" with_original_language kwargs in
  let kwargs := put_if_set "without_keywords" without_keywords kwargs in
  let kwargs :=
    put_if_set "screened_theatrically" screened_theatrically kwargs in
  let kwargs := put_if_set "with_companies" with_companies kwargs in
  let kwargs := put_if_set "with_keywords" with_keywords kwargs in
  kwargs ← lift (rename_filters kwargs);
  path ← _get_path cls "tv";
  response ← _GET path kwargs;
  _set_attrs_to_values response;;
  mret response.

End Discover.

(** ** [genres.py] *)

Module Genres.

Definition cls : class := Class "genre"
  [("movie_list", "/movie/list");
   ("tv_list", "/tv/list");
   ("movies", "/{id}/movies")].

(** [Genres(id)]; defaults: id=0 *)
Definition __init__ (id : pyval) : gmap string pyval :=
  <["id" := id]> TMDB_init.

Definition movie_list (language : pyval) : M pyval :=
  path ← _get_path cls "movie_list";
  let kwargs := [] in
  let kwargs := put_if_set "language" language kwargs in
  response ← _GET path kwargs;
  _set_attrs_to_values response;;
  mret response.

Definition tv_list (language : pyval) : M pyval :=
  path ← _get_path cls "tv_list";
  let kwargs := [] in
  let kwargs := put_if_set "language" language kwargs in
  response ← _GET path kwargs;
  _set_attrs_to_values response;;
  mret response.

Definition movies (page language include_all_movies include_adult : pyval) : M
    pyval :=
  path ← _get_id_path cls "movies";
  let kwargs := [] in
  let kwargs := put_if_set "page" page kwargs in
  let kwargs := put_if_set "language" language kwargs in
  let kwargs := put_if_set "include_all_movies" include_all_movies kwargs in
  let kwargs := put_if_set "include_adult" include_adult kwargs in
  response ← _GET path kwargs;
  _set_attrs_to_values response;;
  mret response.

End Genres.

(** ** [movies.py] *)

Module Movies.

Definition cls : class := Class "movie"
  [("details", "/{id}");
   ("account_states", "/{id}/account_states");
   ("alternative_titles", "/{id}/alternative_titles");
   ("changes", "/{id}/changes");
   ("credits", "/{id}/credits");
   ("external_ids", "/{id}/external_ids");
   ("images", "/{id}/images");
   ("keywords", "/{id}/keywords");
   ("lists", "/{id}/lists");
   ("recommendations", "/{id}/recommendations");
   ("release_dates", "/{id}/release_dates");
   ("reviews", "/{id}/reviews");
   ("similar_movies", "/{id}/similar_movies");
   ("translations", "/{id}/translations");
   ("videos", "/{id}/videos");
   ("watch_providers", "/{id}/watch/providers");
   ("rating", "/{id}/rating");
   ("rating_delete", "/{id}/rating");
   ("latest", "/latest");
   ("now_playing", "/now_playing");
   ("popular", "/popular");
   ("top_rated", "/top_rated");
   ("upcoming", "/upcoming");
   ("releases", "/{id}/releases")].

(** [Movies(id)]; defaults: id=0 *)
Definition __init__ (id : pyval) : gmap string pyval :=
  <["id" := id]> TMDB_init.

Definition details (language append_to_response : pyval) : M pyval :=
  path ← _get_id_path cls "details";
  let kwargs := [] in
  let kwargs := put_if_set "language" language kwargs in
  let kwargs := put_if_set "append_to_response" append_to_response kwargs in
  response ← _GET path kwargs;
  _set_attrs_to_values response;;
  mret response.

Definition account_states (session_id guest_session_id : pyval) : M pyval :=
  path ← _get_id_path cls "account_states";
  let kwargs := [("session_id", session_id)] in
  let kwargs := put_if_set "guest_session_id" guest_session_id kwargs in
  response ← _GET path kwargs;
  _set_attrs_to_values response;;
  mret response.

Definition alternative_titles (country : pyval) : M pyval :=
  path ← _get_id_path cls "alternative_titles";
  let kwargs := [] in
  let kwargs := put_if_set "country" country kwargs in
  response ← _GET path kwargs;
  _set_attrs_to_values response;;
  mret response.

Definition changes (start_date end_date page : pyval) : M pyval :=
  path ← _get_id_path cls "changes";
  let kwargs := [] in
  let kwargs := put_if_set "start_date" start_date kwargs in
  let kwargs := put_if_set "end_date" end_date kwargs in
  let kwargs := put_if_set "page" page kwargs in
  response ← _GET path kwargs;
  _set_attrs_to_values response;;
  mret response.

Definition credits : M pyval :=
  path ← _get_id_path cls "credits";
  response ← _GET path [];
  _set_attrs_to_values response;;
  mret response.

Definition external_ids : M pyval :=
  path ← _get_id_path cls "external_ids";
  response ← _GET path [];
  _set_attrs_to_values response;;
  mret response.

Definition images (language include_image_language : pyval) : M pyval :=
  path ← _get_id_path cls "images";
  let kwargs := [] in
  let kwargs := put_if_set "language" language kwargs in
  let kwargs :=
    put_if_set "include_image_language" include_image_language kwargs in
  response ← _GET path kwargs;
  _set_attrs_to_values response;;
  mret response.

Definition keywords : M pyval :=
  path ← _get_id_path cls "keywords";
  response ← _GET path [];
  _set_attrs_to_values response;;
  mret response.

Definition lists (language page : pyval) : M pyval :=
  path ← _get_id_path cls "lists";
  let kwargs := [] in
  let kwargs := put_if_set "language" language kwargs in
  let kwargs := put_if_set "page" page kwargs in
  response ← _GET path kwargs;
  _set_attrs_to_values response;;
  mret response.

Definition recommendations (language page : pyval) : M pyval :=
  path ← _get_id_path cls "recommendations";
  let kwargs := [] in
  let kwargs := put_if_set "language" language kwargs in
  let kwargs := put_if_set "page" page kwargs in
  response ← _GET path kwargs;
  _set_attrs_to_values response;;
  mret response.

Definition release_dates : M pyval :=
  path ← _get_id_path cls "release_dates";
  response ← _GET path [];
  _set_attrs_to_values response;;
  mret response.

Definition reviews (language page : pyval) : M pyval :=
  path ← _get_id_path cls "reviews";
  let kwargs := [] in
  let kwargs := put_if_set "language" language kwargs in
  let kwargs := put_if_set "page" page kwargs in
  response ← _GET path kwargs;
  _set_attrs_to_values response;;
  mret response.

Definition similar_movies (language page : pyval) : M pyval :=
  path ← _get_id_path cls "similar_movies";
  let kwargs := [] in
  let kwargs := put_if_set "language" language kwargs in
  let kwargs := put_if_set "page" page kwargs in
  response ← _GET path kwargs;
  _set_attrs_to_values response;;
  mret response.

Definition translations : M pyval :=
  path ← _get_id_path cls "translations";
  response ← _GET path [];
  _set_attrs_to_values response;;
  mret response.

Definition videos (language : pyval) : M pyval :=
  path ← _get_id_path cls "videos";
  let kwargs := [] in
  let kwargs := put_if_set "language" language kwargs in
  response ← _GET path kwargs;
  _set_attrs_to_values response;;
  mret response.

Definition watch_providers : M pyval :=
  path ← _get_id_path cls "watch_providers";
  response ← _GET path [];
  _set_attrs_to_values response;;
  mret response.

Definition rating (value session_id guest_session_id : pyval) : M pyval :=
  path ← _get_id_path cls "rating";
  let kwargs := [] in
  let kwargs := put_if_set "session_id" session_id kwargs in
  let kwargs := put_if_set "guest_session_id" guest_session_id kwargs in
  let payload := [("value", value)] in
  response ← _POST path kwargs payload;
  _set_attrs_to_values response;;
  mret response.

Definition rating_delete (session_id guest_session_id : pyval) : M pyval :=
  path ← _get_id_path cls "rating_delete";
  let kwargs := [] in
  let kwargs := put_if_set "session_id" session_id kwargs in
  let kwargs := put_if_set "guest_session_id" guest_session_id kwargs in
  response ← _DELETE path kwargs None;
  _set_attrs_to_values response;;
  mret response.

Definition latest (language : pyval) : M pyval :=
  path ← _get_path cls "latest";
  let kwargs := [] in
  let kwargs := put_if_set "language" language kwargs in
  response ← _GET path kwargs;
  _set_attrs_to_values response;;
  mret response.

Definition now_playing (language page region : pyval) : M pyval :=
  path ← _get_path cls "now_playing";
  let kwargs := [] in
  let kwargs := put_if_set "language" language kwargs in
  let kwargs := put_if_set "page" page kwargs in
  let kwargs := put_if_set "region" region kwargs in
  response ← _GET path kwargs;
  _set_attrs_to_values response;;
  mret response.

Definition popular (language page region : pyval) : M pyval :=
  path ← _get_path cls "popular";
  let kwargs := [] in
  let kwargs := put_if_set "language" language kwargs in
  let kwargs := put_if_set "page" page kwargs in
  let kwargs := put_if_set "region" region kwargs in
  response ← _GET path kwargs;
  _set_attrs_to_values response;;
  mret response.

Definition top_rated (language page region : pyval) : M pyval :=
  path ← _get_path cls "top_rated";
  let kwargs := [] in
  let kwargs := put_if_set "language" language kwargs in
  let kwargs := put_if_set "page" page kwargs in
  let kwargs := put_if_set "region" region kwargs in
  response ← _GET path kwargs;
  _set_attrs_to_values response;;
  mret response.

Definition upcoming (language page region : pyval) : M pyval :=
  path ← _get_path cls "upcoming";
  let kwargs := [] in
  let kwargs := put_if_set "language" language kwargs in
  let kwargs := put_if_set "page" page kwargs in
  let kwargs := put_if_set "region" region kwargs in
  response ← _GET path kwargs;
  _set_attrs_to_values response;;
  mret response.

Definition releases : M pyval :=
  path ← _get_id_path cls "releases";
  response ← _GET path [];
  _set_attrs_to_values response;;
  mret response.

End Movies.

Module Collections.

Definition cls : class := Class "collection"
  [("info", "/{id}");
   ("images", "/{id}/images");
   ("translations", "/{id}/translations")].

(** [Collections(id)] *)
Definition __init__ (id : pyval) : gmap string pyval :=
  <["id" := id]> TMDB_init.

Definition info (language : pyval) : M pyval :=
  path ← _get_id_path cls "info";
  let kwargs := [] in
  let kwargs := put_if_set "language" language kwargs in
  response ← _GET path kwargs;
  _set_attrs_to_values response;;
  mret response.

Definition images (language : pyval) : M pyval :=
  path ← _get_id_path cls "images";
  let kwargs := [] in
  let kwargs := put_if_set "language" language kwargs in
  response ← _GET path kwargs;
  _set_attrs_to_values response;;
  mret response.

Definition translations (language : pyval) : M pyval :=
  path ← _get_id_path cls "translations";
  let kwargs := [] in
  let kwargs := put_if_set "language" language kwargs in
  response ← _GET path kwargs;
  _set_attrs_to_values response;;
  mret response.

End Collections.

Module Companies.

Definition cls : class := Class "company"
  [("info", "/{id}");
   ("alternative_names", "/{id}/alternative_names");
   ("images", "/{id}/images");
   ("movies", "/{id}/movies")].

(** [Companies(id)]; defaults: id=0 *)
Definition __init__ (id : pyval) : gmap string pyval :=
  <["id" := id]> TMDB_init.

Definition info : M pyval :=
  path ← _get_id_path cls "info";
  response ← _GET path [];
  _set_attrs_to_values response;;
  mret response.

Definition alternative_names : M pyval :=
  path ← _get_id_path cls "alternative_names";
  response ← _GET path [];
  _set_attrs_to_values response;;
  mret response.

Definition images : M pyval :=
  path ← _get_id_path cls "images";
  response ← _GET path [];
  _set_attrs_to_values response;;
  mret response.

Definition movies (language page : pyval) : M pyval :=
  path ← _get_id_path cls "movies";
  let kwargs := [] in
  let kwargs := put_if_set "language" language kwargs in
  let kwargs := put_if_set "page" page kwargs in
  response ← _GET path kwargs;
  _set_attrs_to_values response;;
  mret response.

End Companies.

Module Keywords.

Definition cls : class := Class "keyword"
  [("info", "/{id}");
   ("movies", "/{id}/movies")].

(** [Keywords(id)] *)
Definition __init__ (id : pyval) : gmap string pyval :=
  <["id" := id]> TMDB_init.

Definition info : M pyval :=
  path ← _get_id_path cls "info";
  response ← _GET path [];
  _set_attrs_to_values response;;
  mret response.

Definition movies (language include_adult : pyval) : M pyval :=
  path ← _get_id_path cls "movies";
  let kwargs := [] in
  let kwargs := put_if_set "language" language kwargs in
  let kwargs := put_if_set "include_adult" include_adult kwargs in
  response ← _GET path kwargs;
  _set_attrs_to_values response;;
  mret response.

End Keywords.

Module Reviews.

Definition cls : class := Class "review"
  [("info", "/{id}")].

(** [Reviews(id)] *)
Definition __init__ (id : pyval) : gmap string pyval :=
  <["id" := id]> TMDB_init.

Definition info : M pyval :=
  path ← _get_id_path cls "info";
  response ← _GET path [];
  _set_attrs_to_values response;;
  mret response.

End Reviews.

(** ** [search.py] *)

Module Search.

Definition cls : class := Class "search"
  [("company", "/company");
   ("collection", "/collection");
   ("keyword", "/keyword");
   ("movie", "/movie");
   ("multi", "/multi");
   ("person", "/person");
   ("tv", "/tv")].

Definition company (query page : pyval) : M pyval :=
  path ← _get_path cls "company";
  let kwargs := [("query", query)] in
  let kwargs := put_if_set "page" page kwargs in
  response ← _GET path kwargs;
  _set_attrs_to_values response;;
  mret response.

Definition collection (query language page : pyval) : M pyval :=
  path ← _get_path cls "collection";
  let kwargs := [("query", query)] in
  let kwargs := put_if_set "language" language kwargs in
  let kwargs := put_if_set "page" page kwargs in
  response ← _GET path kwargs;
  _set_attrs_to_values response;;
  mret response.

Definition keyword (query page : pyval) : M pyval :=
  path ← _get_path cls "keyword";
  let kwargs := [("query", query)] in
  let kwargs := put_if_set "page" page kwargs in
  response ← _GET path kwargs;
  _set_attrs_to_values response;;
  mret response.

Definition movie (query language page include_adult region year
    primary_release_year : pyval) : M pyval :=
  path ← _get_path cls "movie";
  let kwargs := [("query", query)] in
  let kwargs := put_if_set "language" language kwargs in
  let kwargs := put_if_set "page" page kwargs in
  let kwargs := put_if_set "include_adult" include_adult kwargs in
  let kwargs := put_if_set "region" region kwargs in
  let kwargs := put_if_set "year" year kwargs in
  let kwargs := put_if_set "primary_release_year" primary_release_year kwargs in
  response ← _GET path kwargs;
  _set_attrs_to_values response;;
  mret response.

Definition multi (query language page include_adult region : pyval) : M pyval
    :=
  path ← _get_path cls "multi";
  let kwargs := [("query", query)] in
  let kwargs := put_if_set "language" language kwargs in
  let kwargs := put_if_set "page" page kwargs in
  let kwargs := put_if_set "include_adult" include_adult kwargs in
  let kwargs := put_if_set "region" region kwargs in
  response ← _GET path kwargs;
  _set_attrs_to_values response;;
  mret response.

Definition person (query language page include_adult region : pyval) : M pyval
    :=
  path ← _get_path cls "person";
  let kwargs := [("query", query)] in
  let kwargs := put_if_set "language" language kwargs in
  let kwargs := put_if_set "page" page kwargs in
  let kwargs := put_if_set "include_adult" include_adult kwargs in
  let kwargs := put_if_set "region" region kwargs in
  response ← _GET path kwargs;
  _set_attrs_to_values response;;
  mret response.

Definition tv (query language page include_adult first_air_date_year : pyval)
    : M pyval :=
  path ← _get_path cls "tv";
  let kwargs := [("query", query)] in
  let kwargs := put_if_set "language" language kwargs in
  let kwargs := put_if_set "page" page kwargs in
  let kwargs := put_if_set "include_adult" include_adult kwargs in
  let kwargs := put_if_set "first_air_date_year" first_air_date_year kwargs in
  response ← _GET path kwargs;
  _set_attrs_to_values response;;
  mret response.

End Search.

(** ** All public calls *)

(** Where a parameter is placed in the request. *)
Inductive place : Type := Query | Body.

(** A declared parameter of a call: its name in the signature, where the
    method places it, the key under which the method sends it, and the
    argument the caller gave. *)
Record parameter : Type := Param {
  local : string;
  placed : place;
  wire : string;
  given : pyval
}.

(** One constructor per public method, carrying the arguments of the
    call; an argument the caller leaves out is [PyNone], its default. *)
Inductive call : Type :=
| Account_info
| Account_lists (language page : pyval)
| Account_favorite_movies (language sort_by page : pyval)
| Account_favorite_tv (language sort_by page : pyval)
| Account_favorite (media_type media_id favorite : pyval)
| Account_rated_movies (language sort_by page : pyval)
| Account_rated_tv (language sort_by page : pyval)
| Account_rated_tv_episodes (language sort_by page : pyval)
| Account_watchlist_movies (language sort_by page : pyval)
| Account_watchlist_tv (language sort_by page : pyval)
| Account_watchlist (media_type media_id watchlist : pyval)
| Authentication_guest_session_new
| Authentication_token_new
| Authentication_session_new (request_token : pyval)
| Authentication_token_validate_with_login (username password request_token :
    pyval)
| Authentication_session_delete (session_id : pyval)
| GuestSessions_rated_movies (language sort_by : pyval)
| GuestSessions_rated_tv (language sort_by : pyval)
| GuestSessions_rated_tv_episodes (language sort_by : pyval)
| Lists_info (language : pyval)
| Lists_item_status (movie_id : pyval)
| Lists_list_create (name description language : pyval)
| Lists_add_item (media_id : pyval)
| Lists_remove_item (media_id : pyval)
| Lists_list_clear (confirm : pyval)
| Lists_list_delete
| Discover_movie (language region sort_by certification_country certification
    certification_lte certification_gte include_adult include_video page
    primary_release_year primary_release_date_gte primary_release_date_lte
    release_date_gte release_date_lte year vote_count_gte vote_count_lte
    vote_average_gte vote_average_lte with_cast with_crew with_people
    with_companies with_genres without_genres with_keywords without_keywords
    with_runtime_gte with_runtime_lte with_original_language : pyval) 
    (kwargs : dict)
| Discover_tv (language sort_by air_date_gte air_date_lte first_air_date_gte
    first_air_date_lte first_air_date_year page timezone vote_average_gte
    vote_count_gte with_genres with_networks without_genres with_runtime_gte
    with_runtime_lte include_null_first_air_dates with_original_language
    without_keywords screened_theatrically with_companies with_keywords :
    pyval) (kwargs : dict)
| Genres_movie_list (language : pyval)
| Genres_tv_list (language : pyval)
| Genres_movies (page language include_all_movies include_adult : pyval)
| Movies_details (language append_to_response : pyval)
| Movies_account_states (session_id guest_session_id : pyval)
| Movies_alternative_titles (country : pyval)
| Movies_changes (start_date end_date page : pyval)
| Movies_credits
| Movies_external_ids
| Movies_images (language include_image_language : pyval)
| Movies_keywords
| Movies_lists (language page : pyval)
| Movies_recommendations (language page : pyval)
| Movies_release_dates
| Movies_reviews (language page : pyval)
| Movies_similar_movies (language page : pyval)
| Movies_translations
| Movies_videos (language : pyval)
| Movies_watch_providers
| Movies_rating (value session_id guest_session_id : pyval)
| Movies_rating_delete (session_id guest_session_id : pyval)
| Movies_latest (language : pyval)
| Movies_now_playing (language page region : pyval)
| Movies_popular (language page region : pyval)
| Movies_top_rated (language page region : pyval)
| Movies_upcoming (language page region : pyval)
| Movies_releases
| Collections_info (language : pyval)
| Collections_images (language : pyval)
| Collections_translations (language : pyval)
| Companies_info
| Companies_alternative_names
| Companies_images
| Companies_movies (language page : pyval)
| Keywords_info
| Keywords_movies (language include_adult : pyval)
| Reviews_info
| Search_company (query page : pyval)
| Search_collection (query language page : pyval)
| Search_keyword (query page : pyval)
| Search_movie (query language page include_adult region year
    primary_release_year : pyval)
| Search_multi (query language page include_adult region : pyval)
| Search_person (query language page include_adult region : pyval)
| Search_tv (query language page include_adult first_air_date_year : pyval).

(** The method a call runs. *)
Definition invoke (c : call) : M pyval :=
  match c with
  | Account_info =>
      Account.info 
  | Account_lists language page =>
      Account.lists language page
  | Account_favorite_movies language sort_by page =>
      Account.favorite_movies language sort_by page
  | Account_favorite_tv language sort_by page =>
      Account.favorite_tv language sort_by page
  | Account_favorite media_type media_id favorite =>
      Account.favorite media_type media_id favorite
  | Account_rated_movies language sort_by page =>
      Account.rated_movies language sort_by page
  | Account_rated_tv language sort_by page =>
      Account.rated_tv language sort_by page
  | Account_rated_tv_episodes language sort_by page =>
      Account.rated_tv_episodes language sort_by page
  | Account_watchlist_movies language sort_by page =>
      Account.watchlist_movies language sort_by page
  | Account_watchlist_tv language sort_by page =>
      Account.watchlist_tv language sort_by page
  | Account_watchlist media_type media_id watchlist =>
      Account.watchlist media_type media_id watchlist
  | Authentication_guest_session_new =>
      Authentication.guest_session_new 
  | Authentication_token_new =>
      Authentication.token_new 
  | Authentication_session_new request_token =>
      Authentication.session_new request_token
  | Authentication_token_validate_with_login username password request_token
      =>
      Authentication.token_validate_with_login username password request_token
  | Authentication_session_delete session_id =>
      Authentication.session_delete session_id
  | GuestSessions_rated_movies language sort_by =>
      GuestSessions.rated_movies language sort_by
  | GuestSessions_rated_tv language sort_by =>
      GuestSessions.rated_tv language sort_by
  | GuestSessions_rated_tv_episodes language sort_by =>
      GuestSessions.rated_tv_episodes language sort_by
  | Lists_info language =>
      Lists.info language
  | Lists_item_status movie_id =>
      Lists.item_status movie_id
  | Lists_list_create name description language =>
      Lists.list_create name description language
  | Lists_add_item media_id =>
      Lists.add_item media_id
  | Lists_remove_item media_id =>
      Lists.remove_item media_id
  | Lists_list_clear confirm =>
      Lists.list_clear confirm
  | Lists_list_delete =>
      Lists.list_delete 
  | Discover_movie language region sort_by certification_country certification
      certification_lte certification_gte include_adult include_video page
      primary_release_year primary_release_date_gte primary_release_date_lte
      release_date_gte release_date_lte year vote_count_gte vote_count_lte
      vote_average_gte vote_average_lte with_cast with_crew with_people
      with_companies with_genres without_genres with_keywords without_keywords
      with_runtime_gte with_runtime_lte with_original_language kwargs =>
      Discover.movie language region sort_by certification_country
        certification certification_lte certification_gte include_adult
        include_video page primary_release_year primary_release_date_gte
        primary_release_date_lte release_date_gte release_date_lte year
        vote_count_gte vote_count_lte vote_average_gte vote_average_lte
        with_cast with_crew with_people with_companies with_genres
        without_genres with_keywords without_keywords with_runtime_gte
        with_runtime_lte with_original_language kwargs
  | Discover_tv language sort_by air_date_gte air_date_lte first_air_date_gte
      first_air_date_lte first_air_date_year page timezone vote_average_gte
      vote_count_gte with_genres with_networks without_genres with_runtime_gte
      with_runtime_lte include_null_first_air_dates with_original_language
      without_keywords screened_theatrically with_companies with_keywords
      kwargs =>
      Discover.tv language sort_by air_date_gte air_date_lte
        first_air_date_gte first_air_date_lte first_air_date_year page
        timezone vote_average_gte vote_count_gte with_genres with_networks
        without_genres with_runtime_gte with_runtime_lte
        include_null_first_air_dates with_original_language without_keywords
        screened_theatrically with_companies with_keywords kwargs
  | Genres_movie_list language =>
      Genres.movie_list language
  | Genres_tv_list language =>
      Genres.tv_list language
  | Genres_movies page language include_all_movies include_adult =>
      Genres.movies page language include_all_movies include_adult
  | Movies_details language append_to_response =>
      Movies.details language append_to_response
  | Movies_account_states session_id guest_session_id =>
      Movies.account_states session_id guest_session_id
  | Movies_alternative_titles country =>
      Movies.alternative_titles country
  | Movies_changes start_date end_date page =>
      Movies.changes start_date end_date page
  | Movies_credits =>
      Movies.credits 
  | Movies_external_ids =>
      Movies.external_ids 
  | Movies_images language include_image_language =>
      Movies.images language include_image_language
  | Movies_keywords =>
      Movies.keywords 
  | Movies_lists language page =>
      Movies.lists language page
  | Movies_recommendations language page =>
      Movies.recommendations language page
  | Movies_release_dates =>
      Movies.release_dates 
  | Movies_reviews language page =>
      Movies.reviews language page
  | Movies_similar_movies language page =>
      Movies.similar_movies language page
  | Movies_translations =>
      Movies.translations 
  | Movies_videos language =>
      Movies.videos language
  | Movies_watch_providers =>
      Movies.watch_providers 
  | Movies_rating value session_id guest_session_id =>
      Movies.rating value session_id guest_session_id
  | Movies_rating_delete session_id guest_session_id =>
      Movies.rating_delete session_id guest_session_id
  | Movies_latest language =>
      Movies.latest language
  | Movies_now_playing language page region =>
      Movies.now_playing language page region
  | Movies_popular language page region =>
      Movies.popular language page region
  | Movies_top_rated language page region =>
      Movies.top_rated language page region
  | Movies_upcoming language page region =>
      Movies.upcoming language page region
  | Movies_releases =>
      Movies.releases 
  | Collections_info language =>
      Collections.info language
  | Collections_images language =>
      Collections.images language
  | Collections_translations language =>
      Collections.translations language
  | Companies_info =>
      Companies.info 
  | Companies_alternative_names =>
      Companies.alternative_names 
  | Companies_images =>
      Companies.images 
  | Companies_movies language page =>
      Companies.movies language page
  | Keywords_info =>
      Keywords.info 
  | Keywords_movies language include_adult =>
      Keywords.movies language include_adult
  | Reviews_info =>
      Reviews.info 
  | Search_company query page =>
      Search.company query page
  | Search_collection query language page =>
      Search.collection query language page
  | Search_keyword query page =>
      Search.keyword query page
  | Search_movie query language page include_adult region year
      primary_release_year =>
      Search.movie query language page include_adult region year
        primary_release_year
  | Search_multi query language page include_adult region =>
      Search.multi query language page include_adult region
  | Search_person query language page include_adult region =>
      Search.person query language page include_adult region
  | Search_tv query language page include_adult first_air_date_year =>
      Search.tv query language page include_adult first_air_date_year
  end.

(** The parameters of a call that the signature declares with the default
    [None]. *)
Definition optional_parameters (c : call) : list parameter :=
  match c with
  | Account_info =>
      []
  | Account_lists language page =>
      [Param "language" Query "language" language; Param "page" Query "page"
       page]
  | Account_favorite_movies language sort_by page =>
      [Param "language" Query "language" language; Param "sort_by" Query
       "sort_by" sort_by; Param "page" Query "page" page]
  | Account_favorite_tv language sort_by page =>
      [Param "language" Query "language" language; Param "sort_by" Query
       "sort_by" sort_by; Param "page" Query "page" page]
  | Account_favorite _ _ _ =>
      []
  | Account_rated_movies language sort_by page =>
      [Param "language" Query "language" language; Param "sort_by" Query
       "sort_by" sort_by; Param "page" Query "page" page]
  | Account_rated_tv language sort_by page =>
      [Param "language" Query "language" language; Param "sort_by" Query
       "sort_by" sort_by; Param "page" Query "page" page]
  | Account_rated_tv_episodes language sort_by page =>
      [Param "language" Query "language" language; Param "sort_by" Query
       "sort_by" sort_by; Param "page" Query "page" page]
  | Account_watchlist_movies language sort_by page =>
      [Param "language" Query "language" language; Param "sort_by" Query
       "sort_by" sort_by; Param "page" Query "page" page]
  | Account_watchlist_tv language sort_by page =>
      [Param "language" Query "language" language; Param "sort_by" Query
       "sort_by" sort_by; Param "page" Query "page" page]
  | Account_watchlist _ _ _ =>
      []
  | Authentication_guest_session_new =>
      []
  | Authentication_token_new =>
      []
  | Authentication_session_new request_token =>
      [Param "request_token" Query "request_token" request_token]
  | Authentication_token_validate_with_login _ _ _ =>
      []
  | Authentication_session_delete _ =>
      []
  | GuestSessions_rated_movies language sort_by =>
      [Param "language" Query "language" language; Param "sort_by" Query
       "sort_by" sort_by]
  | GuestSessions_rated_tv language sort_by =>
      [Param "language" Query "language" language; Param "sort_by" Query
       "sort_by" sort_by]
  | GuestSessions_rated_tv_episodes language sort_by =>
      [Param "language" Query "language" language; Param "sort_by" Query
       "sort_by" sort_by]
  | Lists_info language =>
      [Param "language" Query "language" language]
  | Lists_item_status _ =>
      []
  | Lists_list_create _ _ language =>
      [Param "language" Body "language" language]
  | Lists_add_item _ =>
      []
  | Lists_remove_item _ =>
      []
  | Lists_list_clear _ =>
      []
  | Lists_list_delete =>
      []
  | Discover_movie language region sort_by certification_country certification
      certification_lte certification_gte include_adult include_video page
      primary_release_year primary_release_date_gte primary_release_date_lte
      release_date_gte release_date_lte year vote_count_gte vote_count_lte
      vote_average_gte vote_average_lte with_cast with_crew with_people
      with_companies with_genres without_genres with_keywords without_keywords
      with_runtime_gte with_runtime_lte with_original_language _ =>
      [Param "language" Query "language" language; Param "region" Query
       "region" region; Param "sort_by" Query "sort_by" sort_by; Param
       "certification_country" Query "certification_country"
       certification_country; Param "certification" Query "certification"
       certification; Param "certification_lte" Query "certification.lte"
       certification_lte; Param "certification_gte" Query "certification.gte"
       certification_gte; Param "include_adult" Query "include_adult"
       include_adult; Param "include_video" Query "include_video"
       include_video; Param "page" Query "page" page; Param
       "primary_release_year" Query "primary_release_year"
       primary_release_year; Param "primary_release_date_gte" Query
       "primary_release_date.gte" primary_release_date_gte; Param
       "primary_release_date_lte" Query "primary_release_date.lte"
       primary_release_date_lte; Param "release_date_gte" Query
       "release_date.gte" release_date_gte; Param "release_date_lte" Query
       "release_date.lte" release_date_lte; Param "year" Query "year" year;
       Param "vote_count_gte" Query "vote_count.gte" vote_count_gte; Param
       "vote_count_lte" Query "vote_count.lte" vote_count_lte; Param
       "vote_average_gte" Query "vote_average.gte" vote_average_gte; Param
       "vote_average_lte" Query "vote_average.lte" vote_average_lte; Param
       "with_cast" Query "with_cast" with_cast; Param "with_crew" Query
       "with_crew" with_crew; Param "with_people" Query "with_people"
       with_people; Param "with_companies" Query "with_companies"
       with_companies; Param "with_genres" Query "with_genres" with_genres;
       Param "without_genres" Query "without_genres" without_genres; Param
       "with_keywords" Query "with_keywords" with_keywords; Param
       "without_keywords" Query "without_keywords" without_keywords; Param
       "with_runtime_gte" Query "with_runtime.gte" with_runtime_gte; Param
       "with_runtime_lte" Query "with_runtime.lte" with_runtime_lte; Param
       "with_original_language" Query "with_original_language"
       with_original_language]
  | Discover_tv language sort_by air_date_gte air_date_lte first_air_date_gte
      first_air_date_lte first_air_date_year page timezone vote_average_gte
      vote_count_gte with_genres with_networks without_genres with_runtime_gte
      with_runtime_lte include_null_first_air_dates with_original_language
      without_keywords screened_theatrically with_companies with_keywords _ =>
      [Param "language" Query "language" language; Param "sort_by" Query
       "sort_by" sort_by; Param "air_date_gte" Query "air_date.gte"
       air_date_gte; Param "air_date_lte" Query "air_date.lte" air_date_lte;
       Param "first_air_date_gte" Query "first_air_date.gte"
       first_air_date_gte; Param "first_air_date_lte" Query
       "first_air_date.lte" first_air_date_lte; Param "first_air_date_year"
       Query "first_air_date_year" first_air_date_year; Param "page" Query
       "page" page; Param "timezone" Query "timezone" timezone; Param
       "vote_average_gte" Query "vote_average.gte" vote_average_gte; Param
       "vote_count_gte" Query "vote_count.gte" vote_count_gte; Param
       "with_genres" Query "with_genres" with_genres; Param "with_networks"
       Query "with_networks" with_networks; Param "without_genres" Query
       "without_genres" without_genres; Param "with_runtime_gte" Query
       "with_runtime.gte" with_runtime_gte; Param "with_runtime_lte" Query
       "with_runtime.lte" with_runtime_lte; Param
       "include_null_first_air_dates" Query "include_null_first_air_dates"
       include_null_first_air_dates; Param "with_original_language" Query
       "with_original_language" with_original_language; Param
       "without_keywords" Query "without_keywords" without_keywords; Param
       "screened_theatrically" Query "screened_theatrically"
       screened_theatrically; Param "with_companies" Query "with_companies"
       with_companies; Param "with_keywords" Query "with_keywords"
       with_keywords]
  | Genres_movie_list language =>
      [Param "language" Query "language" language]
  | Genres_tv_list language =>
      [Param "language" Query "language" language]
  | Genres_movies page language include_all_movies include_adult =>
      [Param "page" Query "page" page; Param "language" Query "language"
       language; Param "include_all_movies" Query "include_all_movies"
       include_all_movies; Param "include_adult" Query "include_adult"
       include_adult]
  | Movies_details language append_to_response =>
      [Param "language" Query "language" language; Param "append_to_response"
       Query "append_to_response" append_to_response]
  | Movies_account_states _ guest_session_id =>
      [Param "guest_session_id" Query "guest_session_id" guest_session_id]
  | Movies_alternative_titles country =>
      [Param "country" Query "country" country]
  | Movies_changes start_date end_date page =>
      [Param "start_date" Query "start_date" start_date; Param "end_date"
       Query "end_date" end_date; Param "page" Query "page" page]
  | Movies_credits =>
      []
  | Movies_external_ids =>
      []
  | Movies_images language include_image_language =>
      [Param "language" Query "language" language; Param
       "include_image_language" Query "include_image_language"
       include_image_language]
  | Movies_keywords =>
      []
  | Movies_lists language page =>
      [Param "language" Query "language" language; Param "page" Query "page"
       page]
  | Movies_recommendations language page =>
      [Param "language" Query "language" language; Param "page" Query "page"
       page]
  | Movies_release_dates =>
      []
  | Movies_reviews language page =>
      [Param "language" Query "language" language; Param "page" Query "page"
       page]
  | Movies_similar_movies language page =>
      [Param "language" Query "language" language; Param "page" Query "page"
       page]
  | Movies_translations =>
      []
  | Movies_videos language =>
      [Param "language" Query "language" language]
  | Movies_watch_providers =>
      []
  | Movies_rating _ session_id guest_session_id =>
      [Param "session_id" Query "session_id" session_id; Param
       "guest_session_id" Query "guest_session_id" guest_session_id]
  | Movies_rating_delete session_id guest_session_id =>
      [Param "session_id" Query "session_id" session_id; Param
       "guest_session_id" Query "guest_session_id" guest_session_id]
  | Movies_latest language =>
      [Param "language" Query "language" language]
  | Movies_now_playing language page region =>
      [Param "language" Query "language" language; Param "page" Query "page"
       page; Param "region" Query "region" region]
  | Movies_popular language page region =>
      [Param "language" Query "language" language; Param "page" Query "page"
       page; Param "region" Query "region" region]
  | Movies_top_rated language page region =>
      [Param "language" Query "language" language; Param "page" Query "page"
       page; Param "region" Query "region" region]
  | Movies_upcoming language page region =>
      [Param "language" Query "language" language; Param "page" Query "page"
       page; Param "region" Query "region" region]
  | Movies_releases =>
      []
  | Collections_info language =>
      [Param "language" Query "language" language]
  | Collections_images language =>
      [Param "language" Query "language" language]
  | Collections_translations language =>
      [Param "language" Query "language" language]
  | Companies_info =>
      []
  | Companies_alternative_names =>
      []
  | Companies_images =>
      []
  | Companies_movies language page =>
      [Param "language" Query "language" language; Param "page" Query "page"
       page]
  | Keywords_info =>
      []
  | Keywords_movies language include_adult =>
      [Param "language" Query "language" language; Param "include_adult" Query
       "include_adult" include_adult]
  | Reviews_info =>
      []
  | Search_company _ page =>
      [Param "page" Query "page" page]
  | Search_collection _ language page =>
      [Param "language" Query "language" language; Param "page" Query "page"
       page]
  | Search_keyword _ page =>
      [Param "page" Query "page" page]
  | Search_movie _ language page include_adult region year
      primary_release_year =>
      [Param "language" Query "language" language; Param "page" Query "page"
       page; Param "include_adult" Query "include_adult" include_adult; Param
       "region" Query "region" region; Param "year" Query "year" year; Param
       "primary_release_year" Query "primary_release_year"
       primary_release_year]
  | Search_multi _ language page include_adult region =>
      [Param "language" Query "language" language; Param "page" Query "page"
       page; Param "include_adult" Query "include_adult" include_adult; Param
       "region" Query "region" region]
  | Search_person _ language page include_adult region =>
      [Param "language" Query "language" language; Param "page" Query "page"
       page; Param "include_adult" Query "include_adult" include_adult; Param
       "region" Query "region" region]
  | Search_tv _ language page include_adult first_air_date_year =>
      [Param "language" Query "language" language; Param "page" Query "page"
       page; Param "include_adult" Query "include_adult" include_adult; Param
       "first_air_date_year" Query "first_air_date_year" first_air_date_year]
  end.

(** ** Vocabulary of the statements *)

(** [s[n:]] *)
Fixpoint str_drop (n : nat) (s : string) : string :=
  match n, s with
  | O, _ => s
  | S _, EmptyString => EmptyString
  | S n', String _ s' => str_drop n' s'
  end.

(** A string without a period. *)
Fixpoint dotless (u : string) : bool :=
  match u with
  | EmptyString => true
  | String c u' => negb (Ascii.eqb c ".") && dotless u'
  end.

(** [undotted k r]: [r] is [k] with some of its underscores turned into
    periods, and nothing else changed. *)
Inductive undotted : string → string → Prop :=
| undotted_nil : undotted EmptyString EmptyString
| undotted_same c k r : undotted k r → undotted (String c k) (String c r)
| undotted_dot k r : undotted k r → undotted (String "_" k) (String "." r).

(** All the strings that [r] can come from in that way. *)
Fixpoint predots (r : string) : list string :=
  match r with
  | EmptyString => [EmptyString]
  | String c r' =>
      if Ascii.eqb c "."
      then (String "." <$> predots r') ++ (String "_" <$> predots r')
      else String c <$> predots r'
  end.

(** The name has something for the loop of [Discover] to rewrite. *)
Definition needs_rename (k : string) : bool :=
  str_in "_lte" k || str_in "_gte" k.

(** The name holds both substrings the loop looks for. *)
Definition has_both (k : string) : bool :=
  str_in "_lte" k && str_in "_gte" k.

(** The name with every ["_lte"] turned into [".lte"] and every ["_gte"]
    into [".gte"]. *)
Definition dotted (k : string) : string :=
  str_replace "_gte" ".gte" (str_replace "_lte" ".lte" k).

(** The requests a call issues: what it appends to the log. *)
Definition requests_of (c : call) (w : world) (st : state) : list request :=
  drop (length (sent st)) (sent (invoke c w st).2).

(** [wp m w st Q]: running [m] in [w] from [st] ends in an outcome and a
    state that satisfy [Q]. *)
Definition wp {A} (m : M A) (w : world) (st : state)
    (Q : outcome A → state → Prop) : Prop :=
  Q (m w st).1 (m w st).2.

(** The attributes after the response mirror has seen [response]. *)
Definition mirrored (response : pyval) (a : gmap string pyval)
    : gmap string pyval :=
  match response with
  | PyDict d => mirror d a
  | _ => a
  end.

(** The one call that assigns an attribute after the mirror has run. *)
Definition is_list_create (c : call) : bool :=
  match c with
  | Lists_list_create _ _ _ => true
  | _ => false
  end.

(** A world whose service gives every request the same answer. *)
Definition answering (status : Z) (body : option pyval) : world :=
  World (λ _, Replied status body) (λ _, EmptyString).

(** A fresh object: the attributes its constructor set, nothing sent. *)
Definition fresh (a : gmap string pyval) : state := State a [].

(** The methods of [Account] that build their path with [_get_id_path]. *)
Definition needs_account_id (c : call) : bool :=
  match c with
  | Account_lists _ _
  | Account_favorite_movies _ _ _
  | Account_favorite_tv _ _ _
  | Account_favorite _ _ _
  | Account_rated_movies _ _ _
  | Account_rated_tv _ _ _
  | Account_rated_tv_episodes _ _ _
  | Account_watchlist_movies _ _ _
  | Account_watchlist_tv _ _ _
  | Account_watchlist _ _ _ => true
  | _ => false
  end.

(** [Discover.movie(vote_average_gte=7.0,
    primary_release_date_lte="2020-01-01")] *)
Definition discover_scenario : call :=
  Discover_movie
    (* language *) PyNone (* region *) PyNone (* sort_by *) PyNone
    (* certification_country *) PyNone (* certification *) PyNone
    (* certification_lte *) PyNone (* certification_gte *) PyNone
    (* include_adult *) PyNone (* include_video *) PyNone (* page *) PyNone
    (* primary_release_year *) PyNone
    (* primary_release_date_gte *) PyNone
    (* primary_release_date_lte *) (PyStr "2020-01-01")
    (* release_date_gte *) PyNone (* release_date_lte *) PyNone
    (* year *) PyNone
    (* vote_count_gte *) PyNone (* vote_count_lte *) PyNone
    (* vote_average_gte *) (PyFloat 7.0) (* vote_average_lte *) PyNone
    (* with_cast *) PyNone (* with_crew *) PyNone (* with_people *) PyNone
    (* with_companies *) PyNone (* with_genres *) PyNone
    (* without_genres *) PyNone (* with_keywords *) PyNone
    (* without_keywords *) PyNone
    (* with_runtime_gte *) PyNone (* with_runtime_lte *) PyNone
    (* with_original_language *) PyNone
    (* **kwargs *) [].

(** [Lists.list_create("My List", "desc")] *)
Definition list_create_scenario : call :=
  Lists_list_create (PyStr "My List") (PyStr "desc") PyNone.

(** The extra keyword arguments of a call, for the two methods that take
    them. *)
Definition extra_keywords (c : call) : dict :=
  match c with
  | Discover_movie _ _ _ _ _ _ _ _ _ _ _ _ _ _ _ _ _ _ _ _ _ _ _ _ _ _ _ _ _ _
      _ kwargs => kwargs
  | Discover_tv _ _ _ _ _ _ _ _ _ _ _ _ _ _ _ _ _ _ _ _ _ _ kwargs => kwargs
  | _ => []
  end.

(** What the calling convention guarantees of the extra keyword
    arguments: their names are distinct, and none is the name of a
    declared parameter. *)
Definition keywords_wf (c : call) : Prop :=
  NoDup (keys (extra_keywords c))
  ∧ Forall (λ p, local p ∉ keys (extra_keywords c))
      (optional_parameters c).

(** The declared parameters put into a mapping, one after the other:
    [if given is not None: kwargs[wire] = given]. *)
Definition assemble (ps : list parameter) (kwargs : dict) : dict :=
  foldl (λ d p, put_if_set (wire p) (given p) d) kwargs ps.

(** What the statements about [Discover] need of a table of declared
    parameters: no key it sends has anything for the loop to rewrite, and
    the only name the loop could rewrite into the key of a parameter is the
    name of that parameter. *)
Definition table_ok (ps : list parameter) : bool :=
  bool_decide (NoDup (wire <$> ps))
  && forallb (λ p,
       negb (needs_rename (wire p))
       && forallb (λ k, negb (needs_rename k) || String.eqb k (local p))
            (predots (wire p))) ps.

(** The calls of [Discover]. *)
Definition is_discover (c : call) : bool :=
  match c with
  | Discover_movie _ _ _ _ _ _ _ _ _ _ _ _ _ _ _ _ _ _ _ _ _ _ _ _ _ _ _ _ _ _
      _ _ => true
  | Discover_tv _ _ _ _ _ _ _ _ _ _ _ _ _ _ _ _ _ _ _ _ _ _ _ => true
  | _ => false
  end.

Definition discover_path (c : call) : string :=
  match c with
  | Discover_tv _ _ _ _ _ _ _ _ _ _ _ _ _ _ _ _ _ _ _ _ _ _ _ => "discover/tv"
  | _ => "discover/movie"
  end.

(** [s.endswith(suffix)] *)
Fixpoint ends_with (suffix s : string) : bool :=
  String.eqb suffix s ||
  match s with
  | EmptyString => false
  | String _ s' => ends_with suffix s'
  end.

(** The name carries one of the two comparison suffixes. *)
Definition has_suffix (k : string) : bool :=
  ends_with "_gte" k || ends_with "_lte" k.

(** The name with its trailing ["_lte"] or ["_gte"], and only that, put in
    the dot-joined form. *)
Fixpoint dot_suffix (k : string) : string :=
  if String.eqb k "_lte" then ".lte"
  else if String.eqb k "_gte" then ".gte"
  else match k with
       | EmptyString => EmptyString
       | String c k' => String c (dot_suffix k')
       end.

(** No extra keyword holds both substrings the loop looks for. *)
Definition no_double_keyword (c : call) : Prop :=
  Forall (λ k, has_both k = false) (keys (extra_keywords c)).

(** The declared parameters with a comparison suffix are sent under the
    suffix-dotted name. *)
Definition suffix_table_ok (ps : list parameter) : bool :=
  forallb (λ p, negb (has_suffix (local p))
                || String.eqb (wire p) (dot_suffix (local p))) ps.

(** [s[:-1]] *)
Fixpoint str_init (s : string) : string :=
  match s with
  | EmptyString => EmptyString
  | String c s' =>
      match s' with
      | EmptyString => EmptyString
      | String _ _ => String c (str_init s')
      end
  end.

(** The comparison suffix is the only place where the name holds one of
    the two substrings. *)
Definition suffix_only (k : string) : bool :=
  has_suffix k && negb (needs_rename (str_init k)).

(** [Discover.tv] called with extra keyword arguments only. *)
Definition tv_with_keywords (kwargs : dict) : call :=
  Discover_tv PyNone PyNone PyNone PyNone PyNone PyNone PyNone PyNone PyNone
    PyNone PyNone PyNone PyNone PyNone PyNone PyNone PyNone PyNone PyNone
    PyNone PyNone PyNone kwargs.

#[global] Instance keywords_wf_dec c : Decision (keywords_wf c).
Proof. unfold keywords_wf. apply _. Defined.

#[global] Instance no_double_keyword_dec c : Decision (no_double_keyword c).
Proof. unfold no_double_keyword. apply _. Defined.

(** ** Vocabulary of the further statements *)

(** The parameters of a call that the signature declares without a
    default and that the method puts into the request as they are. *)
Definition required_parameters (c : call) : list parameter :=
  match c with
  | Account_favorite media_type media_id favorite =>
      [Param "media_type" Body "media_type" media_type; Param "media_id" Body
       "media_id" media_id; Param "favorite" Body "favorite" favorite]
  | Account_watchlist media_type media_id watchlist =>
      [Param "media_type" Body "media_type" media_type; Param "media_id" Body
       "media_id" media_id; Param "watchlist" Body "watchlist" watchlist]
  | Authentication_token_validate_with_login username password request_token
      =>
      [Param "username" Query "username" username; Param "password" Query
       "password" password; Param "request_token" Query "request_token"
       request_token]
  | Authentication_session_delete session_id =>
      [Param "session_id" Body "session_id" session_id]
  | Lists_item_status movie_id =>
      [Param "movie_id" Query "movie_id" movie_id]
  | Lists_list_create name description _ =>
      [Param "name" Body "name" name; Param "description" Body "description"
       description]
  | Lists_add_item media_id =>
      [Param "media_id" Body "media_id" media_id]
  | Lists_remove_item media_id =>
      [Param "media_id" Body "media_id" media_id]
  | Movies_account_states session_id _ =>
      [Param "session_id" Query "session_id" session_id]
  | Movies_rating value _ _ =>
      [Param "value" Body "value" value]
  | Search_company query _ =>
      [Param "query" Query "query" query]
  | Search_collection query _ _ =>
      [Param "query" Query "query" query]
  | Search_keyword query _ =>
      [Param "query" Query "query" query]
  | Search_movie query _ _ _ _ _ _ =>
      [Param "query" Query "query" query]
  | Search_multi query _ _ _ _ =>
      [Param "query" Query "query" query]
  | Search_person query _ _ _ _ =>
      [Param "query" Query "query" query]
  | Search_tv query _ _ _ _ =>
      [Param "query" Query "query" query]
  | _ => []
  end.

(** What a request holds under a key, in the place a parameter is put. *)
Definition sent_in (pl : place) (r : request) (k : string) : option pyval :=
  match pl with
  | Query => getitem (r_params r) k
  | Body =>
      match r_payload r with
      | Some b => getitem b k
      | None => None
      end
  end.

(** The methods that open their query mapping with
    [{"session_id": self.session_id}]. *)
Definition sends_own_session (c : call) : bool :=
  match c with
  | Account_rated_tv _ _ _
  | Account_rated_tv_episodes _ _ _
  | Account_watchlist_movies _ _ _
  | Account_watchlist_tv _ _ _
  | Account_watchlist _ _ _
  | Lists_list_create _ _ _
  | Lists_add_item _
  | Lists_remove_item _
  | Lists_list_clear _
  | Lists_list_delete => true
  | _ => false
  end.

(** The methods of [Account] whose query mapping starts empty. *)
Definition account_without_session (c : call) : bool :=
  match c with
  | Account_info
  | Account_lists _ _
  | Account_favorite_movies _ _ _
  | Account_favorite_tv _ _ _
  | Account_favorite _ _ _
  | Account_rated_movies _ _ _ => true
  | _ => false
  end.

Definition is_list_clear (c : call) : bool :=
  match c with
  | Lists_list_clear _ => true
  | _ => false
  end.

(** The text [py_str] returns, as a function of the value. *)
Definition str_of (w : world) (v : pyval) : string :=
  match v with
  | PyNone => "None"
  | PyBool true => "True"
  | PyBool false => "False"
  | PyInt n => pretty n
  | PyStr s => s
  | _ => py_repr w v
  end.

(** A text without a brace. *)
Fixpoint brace_free (s : string) : bool :=
  match s with
  | EmptyString => true
  | String c s' =>
      negb (Ascii.eqb c "{") && negb (Ascii.eqb c "}") && brace_free s'
  end.

(** The attributes a path builder can put into a path hold texts without
    braces. *)
Definition identifiers_brace_free (w : world) (st : state) : Prop :=
  ∀ name v, name = "id" ∨ name = "guest_session_id" →
    attrs st !! name = Some v → brace_free (str_of w v) = true.

(** The keys a method puts into its query mapping on its own account. *)
Definition own_keys (c : call) : list string :=
  (if sends_own_session c then ["session_id"] else [])
  ++ (if is_list_clear c then ["confirm"] else []).

(** The declared parameters the caller supplied, as the entries of a
    mapping. *)
Definition supplied (ps : list parameter) : dict :=
  (λ p, (wire p, given p)) <$> filter (λ p, is_None (given p) = false) ps.

(** The entries the declared parameters of a call can give to the query
    mapping, or to the JSON body: key and value of each parameter that the
    method puts in this place. *)
Definition entries (pl : place) (ps : list parameter) : dict :=
  omap (λ p,
    match pl, placed p with
    | Query, Query | Body, Body => Some (wire p, given p)
    | _, _ => None
    end) ps.

Definition declared_entries (pl : place) (c : call) : dict :=
  entries pl (required_parameters c ++ optional_parameters c).

(** The class and the endpoint name with which a method asks for its
    path. *)
Definition endpoint (c : call) : class * string :=
  match c with
  | Account_info => (Account.cls, "info")
  | Account_lists _ _ => (Account.cls, "lists")
  | Account_favorite_movies _ _ _ => (Account.cls, "favorite_movies")
  | Account_favorite_tv _ _ _ => (Account.cls, "favorite_tv")
  | Account_favorite _ _ _ => (Account.cls, "favorite")
  | Account_rated_movies _ _ _ => (Account.cls, "rated_movies")
  | Account_rated_tv _ _ _ => (Account.cls, "rated_tv")
  | Account_rated_tv_episodes _ _ _ => (Account.cls, "rated_tv_episodes")
  | Account_watchlist_movies _ _ _ => (Account.cls, "watchlist_movies")
  | Account_watchlist_tv _ _ _ => (Account.cls, "watchlist_tv")
  | Account_watchlist _ _ _ => (Account.cls, "watchlist")
  | Authentication_guest_session_new =>
      (Authentication.cls, "guest_session_new")
  | Authentication_token_new => (Authentication.cls, "token_new")
  | Authentication_session_new _ => (Authentication.cls, "session_new")
  | Authentication_token_validate_with_login _ _ _ =>
      (Authentication.cls, "token_validate_with_login")
  | Authentication_session_delete _ => (Authentication.cls, "session_delete")
  | GuestSessions_rated_movies _ _ => (GuestSessions.cls, "rated_movies")
  | GuestSessions_rated_tv _ _ => (GuestSessions.cls, "rated_tv")
  | GuestSessions_rated_tv_episodes _ _ =>
      (GuestSessions.cls, "rated_tv_episodes")
  | Lists_info _ => (Lists.cls, "info")
  | Lists_item_status _ => (Lists.cls, "item_status")
  | Lists_list_create _ _ _ => (Lists.cls, "list_create")
  | Lists_add_item _ => (Lists.cls, "add_item")
  | Lists_remove_item _ => (Lists.cls, "remove_item")
  | Lists_list_clear _ => (Lists.cls, "list_clear")
  | Lists_list_delete => (Lists.cls, "list_delete")
  | Discover_movie _ _ _ _ _ _ _ _ _ _ _ _ _ _ _ _ _ _ _ _ _ _ _ _ _ _ _ _
      _ _ _ _ =>
      (Discover.cls, "movie")
  | Discover_tv _ _ _ _ _ _ _ _ _ _ _ _ _ _ _ _ _ _ _ _ _ _ _ =>
      (Discover.cls, "tv")
  | Genres_movie_list _ => (Genres.cls, "movie_list")
  | Genres_tv_list _ => (Genres.cls, "tv_list")
  | Genres_movies _ _ _ _ => (Genres.cls, "movies")
  | Movies_details _ _ => (Movies.cls, "details")
  | Movies_account_states _ _ => (Movies.cls, "account_states")
  | Movies_alternative_titles _ => (Movies.cls, "alternative_titles")
  | Movies_changes _ _ _ => (Movies.cls, "changes")
  | Movies_credits => (Movies.cls, "credits")
  | Movies_external_ids => (Movies.cls, "external_ids")
  | Movies_images _ _ => (Movies.cls, "images")
  | Movies_keywords => (Movies.cls, "keywords")
  | Movies_lists _ _ => (Movies.cls, "lists")
  | Movies_recommendations _ _ => (Movies.cls, "recommendations")
  | Movies_release_dates => (Movies.cls, "release_dates")
  | Movies_reviews _ _ => (Movies.cls, "reviews")
  | Movies_similar_movies _ _ => (Movies.cls, "similar_movies")
  | Movies_translations => (Movies.cls, "translations")
  | Movies_videos _ => (Movies.cls, "videos")
  | Movies_watch_providers => (Movies.cls, "watch_providers")
  | Movies_rating _ _ _ => (Movies.cls, "rating")
  | Movies_rating_delete _ _ => (Movies.cls, "rating_delete")
  | Movies_latest _ => (Movies.cls, "latest")
  | Movies_now_playing _ _ _ => (Movies.cls, "now_playing")
  | Movies_popular _ _ _ => (Movies.cls, "popular")
  | Movies_top_rated _ _ _ => (Movies.cls, "top_rated")
  | Movies_upcoming _ _ _ => (Movies.cls, "upcoming")
  | Movies_releases => (Movies.cls, "releases")
  | Collections_info _ => (Collections.cls, "info")
  | Collections_images _ => (Collections.cls, "images")
  | Collections_translations _ => (Collections.cls, "translations")
  | Companies_info => (Companies.cls, "info")
  | Companies_alternative_names => (Companies.cls, "alternative_names")
  | Companies_images => (Companies.cls, "images")
  | Companies_movies _ _ => (Companies.cls, "movies")
  | Keywords_info => (Keywords.cls, "info")
  | Keywords_movies _ _ => (Keywords.cls, "movies")
  | Reviews_info => (Reviews.cls, "info")
  | Search_company _ _ => (Search.cls, "company")
  | Search_collection _ _ _ => (Search.cls, "collection")
  | Search_keyword _ _ => (Search.cls, "keyword")
  | Search_movie _ _ _ _ _ _ _ => (Search.cls, "movie")
  | Search_multi _ _ _ _ _ => (Search.cls, "multi")
  | Search_person _ _ _ _ _ => (Search.cls, "person")
  | Search_tv _ _ _ _ _ => (Search.cls, "tv")
  end.

(** The path for a template of a class, on an object: the base path and
    the template, with [{id}] replaced by the text of the attribute [id],
    or [{guest_session_id}] by the text of the attribute
    [guest_session_id]; no path when the attribute is not there. *)
Definition filled_path (w : world) (st : state) (cls : class)
    (template : string) : option string :=
  let path := BASE_PATH cls +:+ template in
  let fill name :=
    match attrs st !! name with
    | Some v =>
        Some (str_replace ("{" +:+ name +:+ "}") (str_of w v) path)
    | None => None
    end in
  if str_in "{id}" template then fill "id"
  else if str_in "{guest_session_id}" template then fill "guest_session_id"
  else Some path.

(** The methods of [Lists] that put the identifier of the list into their
    path. *)
Definition needs_list_id (c : call) : bool :=
  match c with
  | Lists_info _
  | Lists_item_status _
  | Lists_add_item _
  | Lists_remove_item _
  | Lists_list_clear _
  | Lists_list_delete => true
  | _ => false
  end.

(** * Properties *)

(** ** Examples *)

Example replace_every_occurrence :
  str_replace "_lte" ".lte" "a_lte_b_ltex_lt" = "a.lte_b.ltex_lt".
Proof. reflexivity. Qed.

Example format_identifier :
  str_format "movie/{id}/credits" "id" "550" = Returned "movie/550/credits".
Proof. reflexivity. Qed.

Example format_other_field :
  str_format "guest_session/{guest_session_id}/rated/tv" "id" "550"
  = Raised (KeyError "guest_session_id").
Proof. reflexivity. Qed.

Example lower_of_True : str_lower "True" = "true".
Proof. reflexivity. Qed.

Example rename_filters_rewrites :
  Discover.rename_filters
    [("with_runtime_gte", PyInt 90); ("b_lte_x_lte", PyInt 3);
     ("with_release_type", PyStr "2|3")]
  = Returned [("with_release_type", PyStr "2|3");
              ("with_runtime.gte", PyInt 90); ("b.lte_x.lte", PyInt 3)].
Proof. reflexivity. Qed.

(** [Movies(550).details()] asks for [movie/550] with an empty query
    mapping, whatever the service answers. *)
Example movie_details_request w :
  requests_of (Movies_details PyNone PyNone) w
    (fresh (Movies.__init__ (PyInt 550)))
  = [Request GET "movie/550" [] None].
Proof.
  unfold requests_of, invoke, Movies.details, fresh.
  unfold mbind at 1, M_bind at 1.
  change (_get_id_path Movies.cls "details" w _)
    with (Returned "movie/550", State (Movies.__init__ (PyInt 550)) []).
  cbv beta iota zeta.
  change (put_if_set _ _ _) with ([] : dict).
  unfold mbind at 1, M_bind at 1, _GET, _request.
  cbv zeta. destruct (service w _) as [|s [json|]]; [reflexivity|..];
    destruct (is_success s); try reflexivity.
  by destruct json.
Qed.
(** ** Facts about dicts *)

Section dict_facts.
Implicit Types (d : dict) (k : string) (v : pyval).

Lemma getitem_setitem d k v k' :
  getitem (setitem d k v) k' = if String.eqb k k' then Some v else getitem d k'.
Proof.
  induction d as [|[k0 v0] d IH]; simpl.
  - done.
  - destruct (String.eqb_spec k0 k) as [->|Hne]; simpl.
    + by destruct (String.eqb k k').
    + rewrite IH. destruct (String.eqb_spec k0 k') as [->|]; [|done].
      destruct (String.eqb_spec k k'); congruence.
Qed.

Lemma getitem_delitem d k k' :
  getitem (delitem d k) k' = if String.eqb k k' then None else getitem d k'.
Proof.
  induction d as [|[k0 v0] d IH]; simpl.
  - by destruct (String.eqb k k').
  - destruct (String.eqb_spec k0 k) as [->|Hne]; simpl.
    + rewrite IH. by destruct (String.eqb k k').
    + rewrite IH. destruct (String.eqb_spec k0 k') as [->|]; [|done].
      destruct (String.eqb_spec k k'); congruence.
Qed.

Lemma getitem_put_if_set d k v k' :
  getitem (put_if_set k v d) k'
  = if String.eqb k k' && negb (is_None v) then Some v else getitem d k'.
Proof.
  unfold put_if_set. destruct (is_None v); simpl.
  - by rewrite andb_false_r.
  - by rewrite getitem_setitem, andb_true_r.
Qed.

Lemma getitem_Some_keys d k v : getitem d k = Some v → k ∈ keys d.
Proof.
  unfold keys. induction d as [|[k0 v0] d IH]; simpl; [done|].
  destruct (String.eqb_spec k0 k) as [->|]; intros; [left|right; auto].
Qed.

Lemma getitem_None_keys d k : getitem d k = None ↔ k ∉ keys d.
Proof.
  unfold keys. induction d as [|[k0 v0] d IH]; simpl.
  - split; [intros _; apply not_elem_of_nil|done].
  - rewrite not_elem_of_cons.
    destruct (String.eqb_spec k0 k) as [->|Hne].
    + split; [done|]. by intros [? _].
    + rewrite IH. split; [by split|by intros [_ ?]].
Qed.

Lemma keys_getitem d k : k ∈ keys d ↔ is_Some (getitem d k).
Proof.
  destruct (getitem d k) as [v|] eqn:E.
  - split; [eauto|]. intros _. by eapply getitem_Some_keys.
  - apply getitem_None_keys in E. split; [done|]. by intros [? ?].
Qed.

Lemma keys_setitem d k v k' :
  k' ∈ keys (setitem d k v) ↔ k' = k ∨ k' ∈ keys d.
Proof.
  rewrite !keys_getitem, getitem_setitem.
  destruct (String.eqb_spec k k') as [->|]; [split; eauto|].
  split; [eauto|]. intros [->|]; done.
Qed.

Lemma keys_delitem d k k' :
  k' ∈ keys (delitem d k) ↔ k' ≠ k ∧ k' ∈ keys d.
Proof.
  rewrite !keys_getitem, getitem_delitem.
  destruct (String.eqb_spec k k') as [->|].
  - split; [by intros [? ?]|]. by intros [? _].
  - split; [by split|by intros [_ ?]].
Qed.

Lemma NoDup_keys_setitem d k v :
  NoDup (keys d) → NoDup (keys (setitem d k v)).
Proof.
  unfold keys. induction d as [|[k0 v0] d IH]; simpl; intros Hd.
  - apply NoDup_singleton.
  - apply NoDup_cons in Hd as [Hk0 Hd].
    destruct (String.eqb_spec k0 k) as [->|Hne]; simpl.
    + by apply NoDup_cons.
    + apply NoDup_cons. split; [|auto].
      intros Hin. apply (keys_setitem d k v k0) in Hin as [?|?]; done.
Qed.

Lemma NoDup_keys_put_if_set d k v :
  NoDup (keys d) → NoDup (keys (put_if_set k v d)).
Proof.
  unfold put_if_set. destruct (is_None v); auto using NoDup_keys_setitem.
Qed.

End dict_facts.

(** ** Facts about strings *)

Lemma starts_with_true p s :
  starts_with p s = true → s = p +:+ str_drop (String.length p) s.
Proof.
  revert s. induction p as [|a p IH]; intros s; simpl; [done|].
  destruct s as [|b s]; [done|]. intros [Hab Hp]%andb_true_iff.
  apply Ascii.eqb_eq in Hab as ->.
  change (String b s = String b (p +:+ str_drop (String.length p) s)).
  f_equal. auto.
Qed.

Lemma str_in_false_here sub s :
  str_in sub s = false → starts_with sub s = false.
Proof. destruct s; simpl; by intros [? ?]%orb_false_iff. Qed.

Lemma str_in_tail sub c s :
  str_in sub s = true → str_in sub (String c s) = true.
Proof. intros H. simpl. rewrite H. apply orb_true_r. Qed.

Section replace_facts.
Variables (body tail : string).
Local Abbreviation old := (String "_" body).
Local Abbreviation new := (String "." tail).

Lemma replace_nothing s : str_in old s = false → str_replace old new s = s.
Proof.
  unfold str_replace. induction s as [|c s IH]; [done|].
  intros H. pose proof (str_in_false_here _ _ H) as Hh.
  cbn [replace_from]. rewrite Hh. f_equal. apply IH.
  simpl in H. by apply orb_false_iff in H as [_ ?].
Qed.

(** What the replacement emits as a prefix is already in the source. *)
Lemma replace_prefix u s :
  dotless u = true →
  starts_with u (replace_from old new 0 s) = true → starts_with u s = true.
Proof.
  revert s. induction u as [|a u IH]; intros s Hu; [by destruct s|].
  simpl in Hu. apply andb_true_iff in Hu as [Ha Hu].
  destruct s as [|c s]; [done|]. cbn [replace_from].
  destruct (starts_with old (String c s)).
  - simpl. apply negb_true_iff in Ha. by rewrite Ha.
  - simpl. intros [-> ?]%andb_true_iff. simpl. auto.
Qed.

Section pattern.
Variable pat_body : string.
Local Abbreviation pat := (String "_" pat_body).
Hypothesis pat_dotless : dotless pat_body = true.
Hypothesis pat_skips_new : ∀ X, str_in pat (new +:+ X) = str_in pat X.

(** The replacement brings in no occurrence of a pattern. *)
Lemma replace_no_new_occurrence s n :
  str_in pat (replace_from old new n s) = true → str_in pat s = true.
Proof.
  revert n. induction s as [|c s IH]; intros n; [done|].
  destruct n as [|n]; cbn [replace_from].
  - destruct (starts_with old (String c s)) eqn:Hm.
    + rewrite pat_skips_new. intros H%IH. by apply str_in_tail.
    + cbn [str_in]. intros [H|H]%orb_true_iff.
      * cbn [starts_with] in H |- *.
        apply andb_true_iff in H as [-> H].
        by rewrite (replace_prefix pat_body s pat_dotless H).
      * apply IH in H. rewrite H. apply orb_true_r.
  - intros H%IH. by apply str_in_tail.
Qed.
End pattern.

Hypothesis old_dotless : dotless body = true.
Hypothesis old_skips_new : ∀ X, str_in old (new +:+ X) = str_in old X.

(** After the replacement no occurrence is left. *)
Lemma replace_gone s n : str_in old (replace_from old new n s) = false.
Proof.
  revert n. induction s as [|c s IH]; intros n; [done|].
  destruct n as [|n]; cbn [replace_from]; [|done].
  destruct (starts_with old (String c s)) eqn:Hm.
  - by rewrite old_skips_new.
  - cbn [str_in]. rewrite IH, orb_false_r.
    destruct (starts_with old (String c (replace_from old new 0 s)))
      eqn:H; [|done].
    cbn [starts_with] in H, Hm.
    apply andb_true_iff in H as [Hc H].
    rewrite Hc in Hm. simpl in Hm.
    by rewrite (replace_prefix body s old_dotless H) in Hm.
Qed.
End replace_facts.

Lemma lte_gone k : str_in "_lte" (str_replace "_lte" ".lte" k) = false.
Proof. by apply (replace_gone "lte" "lte"). Qed.

Lemma gte_gone k : str_in "_gte" (str_replace "_gte" ".gte" k) = false.
Proof. by apply (replace_gone "gte" "gte"). Qed.

Lemma lte_brings_no_gte k :
  str_in "_gte" k = false →
  str_in "_gte" (str_replace "_lte" ".lte" k) = false.
Proof.
  intros H. apply not_true_is_false. intros H'.
  apply (replace_no_new_occurrence "lte" "lte" "gte") in H';
    [congruence|done..].
Qed.

Lemma gte_brings_no_lte k :
  str_in "_lte" k = false →
  str_in "_lte" (str_replace "_gte" ".gte" k) = false.
Proof.
  intros H. apply not_true_is_false. intros H'.
  apply (replace_no_new_occurrence "gte" "gte" "lte") in H';
    [congruence|done..].
Qed.

Lemma str_drop_app u t : str_drop (String.length u) (u +:+ t) = t.
Proof. induction u as [|a u IH]; [by destruct t|done]. Qed.

Lemma undotted_app u k r : undotted k r → undotted (u +:+ k) (u +:+ r).
Proof. intros H. induction u as [|a u IH]; [done|]. by constructor. Qed.

Lemma replace_undotted body s n :
  undotted (str_drop n s)
    (replace_from (String "_" body) (String "." body) n s).
Proof.
  revert n. induction s as [|c s IH]; intros n.
  - destruct n; constructor.
  - destruct n as [|n]; cbn [replace_from str_drop]; [|apply IH].
    destruct (starts_with _ (String c s)) eqn:Hm.
    + apply starts_with_true in Hm. cbn [String.length str_drop] in Hm.
      change (String "_" body +:+ ?t) with (String "_" (body +:+ t)) in Hm.
      injection Hm as -> Hs.
      cbn [String.length Nat.pred].
      specialize (IH (String.length body)).
      rewrite Hs in IH at 1. rewrite str_drop_app in IH.
      rewrite Hs at 1.
      change (undotted (String "_" (body +:+ str_drop (String.length body) s))
        (String "." (body +:+ replace_from (String "_" body) (String "." body)
                                  (String.length body) s))).
      constructor. by apply undotted_app.
    + constructor. apply (IH 0%nat).
Qed.

Lemma undotted_predots k r : undotted k r → k ∈ predots r.
Proof.
  induction 1 as [|c k r _ IH|k r _ IH]; simpl.
  - by apply list_elem_of_singleton.
  - destruct (Ascii.eqb_spec c ".") as [->|_].
    + apply elem_of_app. left. by apply list_elem_of_fmap_2.
    + by apply list_elem_of_fmap_2.
  - apply elem_of_app. right. by apply list_elem_of_fmap_2.
Qed.

Lemma dotted_lte k :
  str_in "_gte" k = false → dotted k = str_replace "_lte" ".lte" k.
Proof.
  intros H. unfold dotted.
  apply (replace_nothing "gte" "gte"). by apply lte_brings_no_gte.
Qed.

Lemma dotted_gte k :
  str_in "_lte" k = false → dotted k = str_replace "_gte" ".gte" k.
Proof.
  intros H. unfold dotted. by rewrite (replace_nothing "lte" "lte").
Qed.

Lemma dotted_plain k : needs_rename k = false → dotted k = k.
Proof.
  intros [H1 H2]%orb_false_iff. rewrite dotted_gte by done.
  by apply (replace_nothing "gte" "gte").
Qed.

Lemma dotted_needs_nothing k : needs_rename (dotted k) = false.
Proof.
  unfold needs_rename, dotted. rewrite gte_gone, orb_false_r.
  apply gte_brings_no_lte, lte_gone.
Qed.

Lemma dotted_undotted k : undotted k (dotted k).
Proof.
  unfold dotted, str_replace.
  pose proof (replace_undotted "lte" k 0) as H1.
  pose proof (replace_undotted "gte" (replace_from "_lte" ".lte" 0 k) 0) as H2.
  cbn [str_drop] in H1, H2.
  revert H1 H2. generalize (replace_from "_lte" ".lte" 0 k) as r1.
  intros r1. generalize (replace_from "_gte" ".gte" 0 r1) as r2.
  intros r2 H1. revert r2.
  induction H1 as [|c k r _ IH|k r _ IH]; intros r2 H2; inversion H2; subst;
    try (constructor; auto).
Qed.

Lemma dotted_predots k : k ∈ predots (dotted k).
Proof. apply undotted_predots, dotted_undotted. Qed.

(** ** The renaming loop of [Discover] *)

Lemma rename_step_both d k :
  has_both k = true → Discover.rename_step d k = Raised (KeyError k).
Proof.
  intros [Hl Hg]%andb_true_iff. unfold Discover.rename_step, Discover.pop.
  rewrite Hl, Hg. destruct (getitem d k) as [v|] eqn:E; [|done].
  cbn. rewrite getitem_setitem, getitem_delitem, String.eqb_refl.
  destruct (String.eqb_spec (str_replace "_lte" ".lte" k) k) as [E'|_]; [|done].
  pose proof (lte_gone k) as H. rewrite E' in H. congruence.
Qed.

Lemma rename_step_one d k v :
  has_both k = false → getitem d k = Some v →
  Discover.rename_step d k
  = Returned (if needs_rename k then setitem (delitem d k) (dotted k) v else d).
Proof.
  intros Hb Hk. unfold has_both in Hb.
  unfold Discover.rename_step, Discover.pop, needs_rename.
  destruct (str_in "_lte" k) eqn:Hl; destruct (str_in "_gte" k) eqn:Hg;
    try done; cbn; rewrite ?Hk; cbn.
  - by rewrite dotted_lte.
  - by rewrite dotted_gte.
Qed.

Lemma getitem_rename_step d k v x :
  getitem (if needs_rename k then setitem (delitem d k) (dotted k) v else d) x
  = if needs_rename k
    then if String.eqb (dotted k) x then Some v
         else if String.eqb k x then None else getitem d x
    else getitem d x.
Proof.
  destruct (needs_rename k); [|done].
  by rewrite getitem_setitem, getitem_delitem.
Qed.

(** What the loop needs of the snapshot and the mapping it works on. *)
Definition loop_ready (ks : list string) (d : dict) : Prop :=
  NoDup ks ∧ (∀ k, k ∈ ks → is_Some (getitem d k))
  ∧ (∀ k, k ∈ ks → has_both k = false).

Lemma loop_ready_step k ks d v :
  loop_ready (k :: ks) d → getitem d k = Some v →
  loop_ready ks
    (if needs_rename k then setitem (delitem d k) (dotted k) v else d).
Proof.
  intros (Hnd & Hin & Hb) Hk. apply NoDup_cons in Hnd as [Hk' Hnd].
  split; [done|]. split.
  - intros k' Hk1. rewrite getitem_rename_step.
    destruct (needs_rename k); [|by apply Hin; right].
    destruct (String.eqb (dotted k) k'); [eauto|].
    destruct (String.eqb_spec k k') as [->|_]; [done|]. apply Hin. by right.
  - intros k' ?. apply Hb. by right.
Qed.

Lemma rename_loop_returns ks d :
  loop_ready ks d → ∃ d', Discover.rename_loop ks d = Returned d'.
Proof.
  revert d. induction ks as [|k ks IH]; intros d Hr; [by eexists|].
  pose proof Hr as (_ & Hin & Hb).
  destruct (Hin k) as [v Hk]; [left|].
  cbn [Discover.rename_loop].
  rewrite (rename_step_one d k v) by first [eassumption | apply Hb; left]. cbn.
  apply IH. by apply loop_ready_step.
Qed.

(** A key with nothing to rewrite keeps its entry, unless some snapshot key
    is rewritten into it. *)
Lemma rename_loop_untouched ks d d' x :
  loop_ready ks d → Discover.rename_loop ks d = Returned d' →
  needs_rename x = false →
  (∀ k, k ∈ ks → needs_rename k = true → dotted k ≠ x) →
  getitem d' x = getitem d x.
Proof.
  revert d. induction ks as [|k ks IH]; intros d Hr Hrun Hx Hfresh.
  - cbn in Hrun. by injection Hrun as ->.
  - pose proof Hr as (_ & Hin & Hb).
    destruct (Hin k) as [v Hk]; [left|].
    cbn [Discover.rename_loop] in Hrun.
    rewrite (rename_step_one d k v) in Hrun
      by first [eassumption | apply Hb; left].
    cbn in Hrun. erewrite IH; [| by eapply loop_ready_step | done | done |].
    + rewrite getitem_rename_step.
      destruct (needs_rename k) eqn:Hn; [|done].
      destruct (String.eqb_spec (dotted k) x) as [E|_].
      { exfalso. by apply (Hfresh k); [left|..]. }
      destruct (String.eqb_spec k x) as [->|_]; [congruence|done].
    + intros k' ? ?. apply Hfresh; [by right|done].
Qed.

(** A snapshot key that is rewritten hands its value to the rewritten key,
    when no other snapshot key is rewritten into the same one. *)
Lemma rename_loop_renamed ks d d' k0 v0 :
  loop_ready ks d → Discover.rename_loop ks d = Returned d' →
  k0 ∈ ks → needs_rename k0 = true → getitem d k0 = Some v0 →
  (∀ k, k ∈ ks → k ≠ k0 → needs_rename k = true → dotted k ≠ dotted k0) →
  getitem d' (dotted k0) = Some v0.
Proof.
  revert d. induction ks as [|k ks IH]; intros d Hr Hrun Hk0 Hn0 Hv0 Huniq.
  - by apply elem_of_nil in Hk0.
  - pose proof Hr as (Hnd & Hin & Hb).
    apply NoDup_cons in Hnd as [Hk Hnd].
    destruct (Hin k) as [v Hv]; [left|].
    cbn [Discover.rename_loop] in Hrun.
    rewrite (rename_step_one d k v) in Hrun
      by first [eassumption | apply Hb; left].
    cbn in Hrun.
    pose proof (loop_ready_step _ _ _ _ Hr Hv) as Hr'.
    destruct (decide (k = k0)) as [->|Hne].
    + rewrite Hn0 in Hrun, Hr'.
      rewrite (rename_loop_untouched _ _ _ (dotted k0) Hr' Hrun).
      * rewrite getitem_setitem, String.eqb_refl. congruence.
      * apply dotted_needs_nothing.
      * intros k' Hk' Hn'. apply Huniq; [by right| |done]. by intros ->.
    + apply elem_of_cons in Hk0 as [->|Hk0]; [done|].
      eapply IH; [exact Hr'|exact Hrun|done|done| |].
      * rewrite getitem_rename_step.
        destruct (needs_rename k) eqn:Hn; [|done].
        destruct (String.eqb_spec (dotted k) k0) as [E|_].
        { pose proof (dotted_needs_nothing k) as H. rewrite E in H.
          congruence. }
        destruct (String.eqb_spec k k0); [done|done].
      * intros k' ? ? ?. apply Huniq; [by right|done..].
Qed.

(** When the loop is over, no key is left for it to rewrite. *)
Lemma rename_loop_keys ks d d' x :
  loop_ready ks d → Discover.rename_loop ks d = Returned d' →
  (∀ k, k ∈ keys d → needs_rename k = true → k ∈ ks) →
  x ∈ keys d' → needs_rename x = false.
Proof.
  revert d. induction ks as [|k ks IH]; intros d Hr Hrun Hcover Hx.
  - cbn in Hrun. injection Hrun as <-.
    apply not_true_is_false. intros Hn. by apply Hcover, elem_of_nil in Hn.
  - pose proof Hr as (Hnd & Hin & Hb).
    apply NoDup_cons in Hnd as [Hk Hnd].
    destruct (Hin k) as [v Hv]; [left|].
    cbn [Discover.rename_loop] in Hrun.
    rewrite (rename_step_one d k v) in Hrun
      by first [eassumption | apply Hb; left].
    cbn in Hrun.
    eapply IH; [by eapply loop_ready_step|exact Hrun| |done].
    intros k' Hk' Hn'. apply keys_getitem in Hk'.
    rewrite getitem_rename_step in Hk'.
    destruct (needs_rename k) eqn:Hn.
    + destruct (String.eqb_spec (dotted k) k') as [E|_].
      { pose proof (dotted_needs_nothing k) as H. rewrite E in H. congruence. }
      destruct (String.eqb_spec k k') as [->|Hne]; [by destruct Hk'|].
      apply keys_getitem in Hk'. apply Hcover in Hk'; [|done].
      apply elem_of_cons in Hk' as [->|]; done.
    + apply keys_getitem in Hk'. apply Hcover in Hk'; [|done].
      apply elem_of_cons in Hk' as [->|]; [congruence|done].
Qed.

(** The loop stops at the first snapshot key that holds both substrings. *)
Lemma rename_loop_raises ks1 k ks2 d :
  loop_ready ks1 d → NoDup (ks1 ++ k :: ks2) → has_both k = true →
  Discover.rename_loop (ks1 ++ k :: ks2) d = Raised (KeyError k).
Proof.
  revert d. induction ks1 as [|k1 ks1 IH]; intros d Hr Hnd Hk.
  - cbn. by rewrite rename_step_both.
  - pose proof Hr as (_ & Hin & Hb).
    destruct (Hin k1) as [v Hv]; [left|].
    cbn [Discover.rename_loop app].
    rewrite (rename_step_one d k1 v)
      by first [eassumption | apply Hb; left].
    cbn.
    apply IH; [by apply loop_ready_step| |done].
    by apply NoDup_cons in Hnd as [_ ?].
Qed.

(** ** Rules for running a method *)

Lemma wp_bind {A B} (m : M A) (f : A → M B) w st Q :
  wp m w st (λ o st',
    match o with
    | Returned a => wp (f a) w st' Q
    | Raised e => Q (Raised e) st'
    end) →
  wp (m ≫= f) w st Q.
Proof.
  unfold wp, mbind, M_bind. by destruct (m w st) as [[a|e] st'].
Qed.

Lemma wp_ret {A} (a : A) w st (Q : outcome A → state → Prop) :
  Q (Returned a) st → wp (mret a) w st Q.
Proof. done. Qed.

Lemma wp_lift {A} (o : outcome A) w st (Q : outcome A → state → Prop) :
  Q o st → wp (lift o) w st Q.
Proof. done. Qed.

Lemma wp_getattr name w st (Q : outcome pyval → state → Prop) :
  match attrs st !! name with
  | Some v => Q (Returned v) st
  | None => Q (Raised (AttributeError name)) st
  end →
  wp (getattr name) w st Q.
Proof. unfold wp, getattr. by destruct (attrs st !! name). Qed.

Lemma wp_setattr name v w st (Q : outcome unit → state → Prop) :
  Q (Returned ()) (State (<[name := v]> (attrs st)) (sent st)) →
  wp (setattr name v) w st Q.
Proof. done. Qed.

Lemma wp_py_str v w st (Q : outcome string → state → Prop) :
  (∀ text, Q (Returned text) st) → wp (py_str v) w st Q.
Proof. intros H. apply H. Qed.

Lemma wp_get_path cls key w st (Q : outcome string → state → Prop) :
  match url_lookup (URLS cls) key with
  | Some template => Q (Returned (BASE_PATH cls +:+ template)) st
  | None => Q (Raised (ConfigurationError key)) st
  end →
  wp (_get_path cls key) w st Q.
Proof. unfold wp, _get_path. by destruct (url_lookup (URLS cls) key). Qed.

(** A path builder reads the object and changes nothing. *)
Lemma wp_get_id_path cls key w st (Q : outcome string → state → Prop) :
  (∀ o, Q o st) → wp (_get_id_path cls key) w st Q.
Proof.
  intros H. unfold _get_id_path.
  apply wp_bind, wp_get_path. destruct (url_lookup _ _); [|done].
  apply wp_bind, wp_getattr. destruct (attrs st !! "id"); [|done].
  apply wp_bind, wp_py_str. intros text. by apply wp_lift.
Qed.

Lemma wp_get_guest_session_id_path key w st
    (Q : outcome string → state → Prop) :
  (∀ o, Q o st) → wp (GuestSessions._get_guest_session_id_path key) w st Q.
Proof.
  intros H. unfold GuestSessions._get_guest_session_id_path.
  apply wp_bind, wp_get_path. destruct (url_lookup _ _); [|done].
  apply wp_bind, wp_getattr. destruct (attrs st !! _); [|done].
  apply wp_bind, wp_py_str. intros text. by apply wp_lift.
Qed.

Lemma wp_request v p q body w st (Q : outcome pyval → state → Prop) :
  (let r := Request v p q body in
   let st' := State (attrs st) (sent st ++ [r]) in
   match service w r with
   | Unreachable => Q (Raised TransportError) st'
   | Replied status decoded =>
       if is_success status
       then match decoded with
            | Some json => Q (Returned json) st'
            | None => Q (Raised DecodeError) st'
            end
       else Q (Raised (RemoteError status)) st'
   end) →
  wp (_request v p q body) w st Q.
Proof.
  unfold wp, _request. cbv zeta.
  destruct (service w _) as [|status [json|]]; [done|..];
    by destruct (is_success status).
Qed.

Lemma wp_set_attrs_to_values response w a l
    (Q : outcome unit → state → Prop) :
  Q (Returned ()) (State (mirrored response a) l) →
  wp (_set_attrs_to_values response) w (State a l) Q.
Proof. unfold wp, _set_attrs_to_values. by destruct response. Qed.

(** One step of a method body. *)
Ltac wp_step :=
  lazymatch goal with
  | |- wp (mbind _ _) _ _ _ => apply wp_bind
  | |- wp (mret _) _ _ _ => apply wp_ret
  | |- wp (lift _) _ _ _ => apply wp_lift
  | |- wp (getattr _) _ _ _ => apply wp_getattr
  | |- wp (setattr _ _) _ _ _ => apply wp_setattr
  | |- wp (py_str _) _ _ _ => apply wp_py_str; intros ?
  | |- wp (_get_path ?cls ?key) _ _ _ =>
      apply wp_get_path;
      let t := eval vm_compute in (url_lookup (URLS cls) key) in
      change (url_lookup (URLS cls) key) with t;
      cbv beta iota;
      try lazymatch goal with
          | |- context [BASE_PATH ?c +:+ ?t] =>
              let p := eval vm_compute in (BASE_PATH c +:+ t) in
              change (BASE_PATH c +:+ t) with p
          end
  | |- wp (_get_id_path _ _) _ _ _ => apply wp_get_id_path; intros [?|?]
  | |- wp (GuestSessions._get_guest_session_id_path _) _ _ _ =>
      apply wp_get_guest_session_id_path; intros [?|?]
  | |- wp (_GET _ _) _ _ _ => apply wp_request
  | |- wp (_POST _ _ _) _ _ _ => apply wp_request
  | |- wp (_DELETE _ _ _) _ _ _ => apply wp_request
  | |- wp (_set_attrs_to_values _) _ _ _ => apply wp_set_attrs_to_values
  | |- match ?x with _ => _ end => destruct x eqn:?
  end.

Ltac wp_run :=
  repeat (first [ progress cbv beta iota zeta
                | progress cbn [attrs sent]
                | wp_step ]).

Ltac head_of t :=
  lazymatch t with
  | ?f _ => head_of f
  | _ => t
  end.

(** Unfold the method a call runs. *)
Ltac unfold_method :=
  cbn [invoke];
  lazymatch goal with
  | |- wp ?m _ _ _ => let h := head_of m in unfold h
  end.

(** What a run appended to the log. *)
Lemma issued_none (l : list request) : drop (length l) l = [].
Proof. apply drop_all. Qed.

Lemma issued_one (l : list request) r : drop (length l) (l ++ [r]) = [r].
Proof. apply drop_app_length. Qed.

Ltac issued :=
  rewrite ?issued_none, ?issued_one;
  rewrite ?elem_of_nil, ?list_elem_of_singleton.

(** ** Remote errors *)

(** C8. A call whose request the service answers with a non-success
    status ends in the remote error that carries this status; it returns
    nothing and leaves the attributes of the object as they were. *)
Theorem remote_error_carries_status c w st r s body :
  r ∈ requests_of c w st → service w r = Replied s body →
  is_success s = false →
  (invoke c w st).1 = Raised (RemoteError s)
  ∧ attrs (invoke c w st).2 = attrs st.
Proof.
  unfold requests_of.
  change (wp (invoke c) w st (λ o st',
    r ∈ drop (length (sent st)) (sent st') → service w r = Replied s body →
    is_success s = false → o = Raised (RemoteError s) ∧ attrs st' = attrs st)).
  destruct st as [a l].
  destruct c; unfold_method; wp_run; issued; try done;
    intros -> Hs Hf; split; congruence.
Qed.

(** ** The response mirror *)

Lemma mirror_fold_lookup (d : dict) ks (a : gmap string pyval) k :
  foldl (λ acc k, match getitem d k with
                  | Some v => <[k := v]> acc
                  | None => acc
                  end) a ks !! k
  = if decide (k ∈ ks)
    then match getitem d k with Some v => Some v | None => a !! k end
    else a !! k.
Proof.
  revert a. induction ks as [|k0 ks IH]; intros a; cbn [foldl].
  - destruct (decide (k ∈ [])) as [H|]; [by apply elem_of_nil in H|done].
  - rewrite IH. clear IH.
    destruct (decide (k ∈ ks)) as [Hin|Hin];
      destruct (decide (k ∈ k0 :: ks)) as [Hin'|Hin'].
    + destruct (getitem d k) eqn:E'; [done|].
      destruct (getitem d k0) eqn:E; [|done].
      rewrite lookup_insert_ne; [done|]. intros ->. congruence.
    + exfalso. apply Hin'. by right.
    + apply elem_of_cons in Hin' as [->|?]; [|done].
      destruct (getitem d k0); [by rewrite lookup_insert_eq|done].
    + destruct (getitem d k0); [|done].
      rewrite lookup_insert_ne; [done|]. intros ->. apply Hin'. by left.
Qed.

Lemma mirror_lookup d (a : gmap string pyval) k :
  mirror d a !! k
  = match getitem d k with Some v => Some v | None => a !! k end.
Proof.
  unfold mirror. rewrite mirror_fold_lookup.
  destruct (decide (k ∈ keys d)) as [|Hn]; [done|].
  apply getitem_None_keys in Hn. by rewrite Hn.
Qed.

(** C4, amended. After a call that returns a JSON object, every attribute
    but one is what the response holds under its name, or, when the
    response has no such key, what it was before.  The exception is the
    attribute [id] after [Lists.list_create]: it holds the value of the
    attribute [list_id]. *)
Theorem response_object_is_mirrored c w st d :
  (invoke c w st).1 = Returned (PyDict d) →
  (∀ k, (is_list_create c = true → k ≠ "id") →
     attrs (invoke c w st).2 !! k
     = match getitem d k with Some v => Some v | None => attrs st !! k end)
  ∧ (is_list_create c = true →
     attrs (invoke c w st).2 !! "id" = attrs (invoke c w st).2 !! "list_id").
Proof.
  change (wp (invoke c) w st (λ o st',
    o = Returned (PyDict d) →
    (∀ k, (is_list_create c = true → k ≠ "id") →
       attrs st' !! k
       = match getitem d k with Some v => Some v | None => attrs st !! k end)
    ∧ (is_list_create c = true → attrs st' !! "id" = attrs st' !! "list_id"))).
  destruct st as [a l].
  destruct c; unfold_method; wp_run; try discriminate;
    intros [= ->]; cbn [is_list_create mirrored attrs];
    (split; [intros k Hk|try discriminate]); rewrite ?mirror_lookup;
    try done.
  - (* Account.info: the key [id] is in the response *)
    destruct (getitem d k) eqn:E; [done|].
    rewrite lookup_insert_ne; [done|]. intros <-.
    cbn [subscript] in *. by rewrite E in *.
  - (* Lists.list_create, an attribute other than [id] *)
    rewrite lookup_insert_ne by (intros <-; by apply Hk).
    by rewrite mirror_lookup.
  - (* Lists.list_create, the attribute [id] *)
    intros _. rewrite lookup_insert_eq, lookup_insert_ne by done.
    cbn [mirrored attrs] in *. congruence.
Qed.

Lemma response_object_is_mirrored_witness :
  let c := Movies_details PyNone PyNone in
  let w := answering 200 (Some (PyDict [("title", PyStr "Fight Club")])) in
  let st := fresh (Movies.__init__ (PyInt 550)) in
  (∀ k, (is_list_create c = true → k ≠ "id") →
     attrs (invoke c w st).2 !! k
     = match getitem [("title", PyStr "Fight Club")] k with
       | Some v => Some v
       | None => attrs st !! k
       end)
  ∧ (is_list_create c = true →
     attrs (invoke c w st).2 !! "id" = attrs (invoke c w st).2 !! "list_id").
Proof.
  intros c w st.
  apply (response_object_is_mirrored c w st [("title", PyStr "Fight Club")]).
  reflexivity.
Defined.

(** C4, as stated, fails for [Lists.list_create]: the response
    [{"list_id": 7}] has no key [id], and yet the attribute [id] of a list
    object built with [id=0] is 7 after the call. *)
Lemma list_create_changes_unnamed_attribute :
  ¬ (∀ c w st d,
       (invoke c w st).1 = Returned (PyDict d) →
       (∀ k v, getitem d k = Some v →
          attrs (invoke c w st).2 !! k = Some v)
       ∧ (∀ k, getitem d k = None →
          attrs (invoke c w st).2 !! k = attrs st !! k)).
Proof.
  intros H.
  destruct (H (Lists_list_create (PyStr "My List") (PyStr "desc") PyNone)
              (answering 200 (Some (PyDict [("list_id", PyInt 7)])))
              (fresh (Lists.__init__ (PyInt 0) (PyStr "s")))
              [("list_id", PyInt 7)] eq_refl) as [_ H2].
  specialize (H2 "id" eq_refl). vm_compute in H2. discriminate H2.
Qed.

(** C5, amended. After a call that returns a JSON array the attributes
    are exactly as before, except that [Lists.list_create] has set [id] to
    the value of [list_id]. *)
Theorem response_array_leaves_attributes c w st items :
  (invoke c w st).1 = Returned (PyList items) →
  (is_list_create c = false → attrs (invoke c w st).2 = attrs st)
  ∧ (is_list_create c = true →
     ∃ v, attrs st !! "list_id" = Some v
          ∧ attrs (invoke c w st).2 = <["id" := v]> (attrs st)).
Proof.
  change (wp (invoke c) w st (λ o st',
    o = Returned (PyList items) →
    (is_list_create c = false → attrs st' = attrs st)
    ∧ (is_list_create c = true →
       ∃ v, attrs st !! "list_id" = Some v
            ∧ attrs st' = <["id" := v]> (attrs st)))).
  destruct st as [a l].
  destruct c; unfold_method; wp_run; try discriminate;
    intros [= ->]; cbn [is_list_create mirrored attrs subscript] in *;
    try discriminate; (split; [try done|try done]).
  intros _. eauto.
Qed.

Lemma response_array_leaves_attributes_witness :
  let c := Movies_details PyNone PyNone in
  let w := answering 200 (Some (PyList [PyInt 1; PyInt 2])) in
  let st := fresh (Movies.__init__ (PyInt 550)) in
  (is_list_create c = false → attrs (invoke c w st).2 = attrs st)
  ∧ (is_list_create c = true →
     ∃ v, attrs st !! "list_id" = Some v
          ∧ attrs (invoke c w st).2 = <["id" := v]> (attrs st)).
Proof.
  intros c w st.
  apply (response_array_leaves_attributes c w st [PyInt 1; PyInt 2]).
  reflexivity.
Defined.

(** C5, as stated, fails for [Lists.list_create]: with the response [[]]
    the attribute [id] of a list object built with [id=5] is [None] after
    the call, the value of [list_id]. *)
Lemma list_create_changes_id_on_array :
  ¬ (∀ c w st items,
       (invoke c w st).1 = Returned (PyList items) →
       attrs (invoke c w st).2 = attrs st).
Proof.
  intros H.
  pose proof (H (Lists_list_create (PyStr "My List") (PyStr "desc") PyNone)
                (answering 200 (Some (PyList [])))
                (fresh (Lists.__init__ (PyInt 5) (PyStr "s")))
                [] eq_refl) as H1.
  apply (f_equal (λ m : gmap string pyval, m !! "id")) in H1.
  vm_compute in H1. discriminate H1.
Qed.

Lemma remote_error_carries_status_witness :
  let c := Movies_details PyNone PyNone in
  let w := answering 404 None in
  let st := fresh (Movies.__init__ (PyInt 550)) in
  (invoke c w st).1 = Raised (RemoteError 404)
  ∧ attrs (invoke c w st).2 = attrs st.
Proof.
  intros c w st.
  apply (remote_error_carries_status c w st
           (Request GET "movie/550" [] None) 404 None).
  - vm_compute. left.
  - reflexivity.
  - reflexivity.
Defined.

(** ** The end-to-end scenarios *)

(** C3. [Discover.movie] called with only [vote_average_gte=7.0] and
    [primary_release_date_lte="2020-01-01"] issues one GET whose query
    mapping is [{"vote_average.gte": 7.0,
    "primary_release_date.lte": "2020-01-01"}]: these two keys and no
    other. *)
Theorem discover_scenario_query w st :
  ∃ q,
    requests_of discover_scenario w st
    = [Request GET "discover/movie" q None]
    ∧ dict_eq q [("vote_average.gte", PyFloat 7.0);
                 ("primary_release_date.lte", PyStr "2020-01-01")]
    ∧ keys q = ["primary_release_date.lte"; "vote_average.gte"].
Proof.
  exists [("primary_release_date.lte", PyStr "2020-01-01");
          ("vote_average.gte", PyFloat 7.0)].
  split; [|split; [|done]].
  - unfold requests_of.
    change (wp (invoke discover_scenario) w st (λ _ st',
      drop (length (sent st)) (sent st')
      = [Request GET "discover/movie"
           [("primary_release_date.lte", PyStr "2020-01-01");
            ("vote_average.gte", PyFloat 7.0)] None])).
    destruct st as [a l]. unfold discover_scenario, invoke, Discover.movie.
    cbv zeta. apply wp_bind.
    change (lift (Discover.rename_filters _))
      with (lift (A := dict) (Returned
        [("primary_release_date.lte", PyStr "2020-01-01");
         ("vote_average.gte", PyFloat 7.0)])).
    wp_run; by issued.
  - intros k. cbn [getitem].
    destruct (String.eqb_spec "vote_average.gte" k) as [E1|];
      destruct (String.eqb_spec "primary_release_date.lte" k) as [E2|];
      try done.
    congruence.
Qed.

(** C6. [Lists.list_create("My List", "desc")] issues one POST to the
    list endpoint whose query mapping holds the session identifier of the
    object and whose JSON body is [{"name": "My List",
    "description": "desc", "language": null}]; when the service answers
    with an object that holds [list_id], the attribute [id] is that
    identifier afterwards. *)
Theorem list_create_scenario_request w st sid s d lid :
  attrs st !! "session_id" = Some sid →
  let r := Request POST "list" [("session_id", sid)]
             (Some [("name", PyStr "My List");
                    ("description", PyStr "desc");
                    ("language", PyNone)]) in
  service w r = Replied s (Some (PyDict d)) →
  is_success s = true →
  getitem d "list_id" = Some lid →
  requests_of list_create_scenario w st = [r]
  ∧ (invoke list_create_scenario w st).1 = Returned (PyDict d)
  ∧ attrs (invoke list_create_scenario w st).2 !! "id" = Some lid.
Proof.
  intros Hsid r Hr Hs Hlid. unfold requests_of.
  change (wp (invoke list_create_scenario) w st (λ o st',
    drop (length (sent st)) (sent st') = [r]
    ∧ o = Returned (PyDict d) ∧ attrs st' !! "id" = Some lid)).
  destruct st as [a l]. cbn [attrs] in Hsid.
  unfold list_create_scenario, invoke, Lists.list_create.
  do 2 wp_step.
  apply wp_bind, wp_getattr. cbn [attrs]. rewrite Hsid.
  apply wp_bind, wp_request. cbv zeta. fold r. rewrite Hr, Hs.
  apply wp_bind, wp_set_attrs_to_values.
  apply wp_bind, wp_getattr. cbn [attrs mirrored].
  rewrite mirror_lookup, Hlid.
  apply wp_bind, wp_setattr, wp_ret. cbn [attrs sent].
  split; [by issued|]. split; [done|]. by rewrite lookup_insert_eq.
Qed.

Lemma list_create_scenario_request_witness :
  let w := answering 201 (Some (PyDict [("list_id", PyInt 7)])) in
  let st := fresh (Lists.__init__ (PyInt 0) (PyStr "abc")) in
  requests_of list_create_scenario w st
  = [Request POST "list" [("session_id", PyStr "abc")]
       (Some [("name", PyStr "My List");
              ("description", PyStr "desc");
              ("language", PyNone)])]
  ∧ (invoke list_create_scenario w st).1
    = Returned (PyDict [("list_id", PyInt 7)])
  ∧ attrs (invoke list_create_scenario w st).2 !! "id" = Some (PyInt 7).
Proof.
  intros w st.
  apply (list_create_scenario_request w st (PyStr "abc") 201
           [("list_id", PyInt 7)] (PyInt 7)); reflexivity.
Defined.

(** ** Unknown endpoints *)

(** C7. Asking a class for the path of an endpoint name that its table
    does not hold ends in a configuration error, whichever path builder is
    used; nothing is sent and the object is not touched. *)
Theorem unknown_endpoint_is_configuration_error cls key w st :
  url_lookup (URLS cls) key = None →
  _get_path cls key w st = (Raised (ConfigurationError key), st)
  ∧ _get_id_path cls key w st = (Raised (ConfigurationError key), st)
  ∧ (cls = GuestSessions.cls →
     GuestSessions._get_guest_session_id_path key w st
     = (Raised (ConfigurationError key), st)).
Proof.
  intros H.
  assert (_get_path cls key w st = (Raised (ConfigurationError key), st))
    as Hp by (unfold _get_path; by rewrite H).
  split; [done|]. split.
  - unfold _get_id_path, mbind, M_bind. by rewrite Hp.
  - intros ->. unfold GuestSessions._get_guest_session_id_path, mbind, M_bind.
    by rewrite Hp.
Qed.

Lemma unknown_endpoint_is_configuration_error_witness :
  let st := fresh (Movies.__init__ (PyInt 550)) in
  let w := answering 200 None in
  _get_path Movies.cls "cast" w st = (Raised (ConfigurationError "cast"), st)
  ∧ _get_id_path Movies.cls "cast" w st
    = (Raised (ConfigurationError "cast"), st)
  ∧ (Movies.cls = GuestSessions.cls →
     GuestSessions._get_guest_session_id_path "cast" w st
     = (Raised (ConfigurationError "cast"), st)).
Proof.
  intros st w.
  apply (unknown_endpoint_is_configuration_error Movies.cls "cast" w st).
  reflexivity.
Defined.

(** ** The identifier of an account *)

(** C9. The constructor of [Account] sets [session_id] and nothing else.
    On an object without the attribute [id], every method that puts the
    identifier into its path ends in an attribute error before anything is
    sent.  [info] takes [id] from the key ["id"] of the response, and ends
    in a key error when the response has no such key. *)
Theorem account_id_comes_from_info sid c w st s d :
  needs_account_id c = true →
  attrs st !! "id" = None →
  service w (Request GET "account" [] None) = Replied s (Some (PyDict d)) →
  is_success s = true →
  Account.__init__ sid = {["session_id" := sid]}
  ∧ invoke c w st = (Raised (AttributeError "id"), st)
  ∧ match getitem d "id" with
    | Some v =>
        (invoke Account_info w st).1 = Returned (PyDict d)
        ∧ attrs (invoke Account_info w st).2 !! "id" = Some v
    | None => (invoke Account_info w st).1 = Raised (KeyError "id")
    end.
Proof.
  intros Hc Hid Hr Hs. split; [done|]. split.
  - destruct c; try discriminate Hc; cbn [invoke];
      lazymatch goal with
      | |- ?m _ _ = _ => let h := head_of m in unfold h
      end;
      unfold _get_id_path, _get_path, getattr, mbind, M_bind, mret, M_ret;
      cbn [url_lookup URLS Account.cls String.eqb Ascii.eqb Bool.eqb];
      by rewrite Hid.
  - change (wp (invoke Account_info) w st (λ o st',
      match getitem d "id" with
      | Some v => o = Returned (PyDict d) ∧ attrs st' !! "id" = Some v
      | None => o = Raised (KeyError "id")
      end)).
    destruct st as [a l]. unfold invoke, Account.info.
    do 2 wp_step.
    apply wp_bind, wp_request. cbv zeta. rewrite Hr, Hs.
    apply wp_bind, wp_lift. cbn [subscript].
    destruct (getitem d "id") as [v|] eqn:E; [|done].
    apply wp_bind, wp_setattr.
    apply wp_bind, wp_set_attrs_to_values, wp_ret.
    cbn [attrs mirrored]. by rewrite mirror_lookup, E.
Qed.

Lemma account_id_comes_from_info_witness :
  let w := answering 200 (Some (PyDict [("id", PyInt 42)])) in
  let st := fresh (Account.__init__ (PyStr "abc")) in
  let c := Account_lists PyNone PyNone in
  Account.__init__ (PyStr "abc") = {["session_id" := PyStr "abc"]}
  ∧ invoke c w st = (Raised (AttributeError "id"), st)
  ∧ match getitem [("id", PyInt 42)] "id" with
    | Some v =>
        (invoke Account_info w st).1 = Returned (PyDict [("id", PyInt 42)])
        ∧ attrs (invoke Account_info w st).2 !! "id" = Some v
    | None => (invoke Account_info w st).1 = Raised (KeyError "id")
    end.
Proof.
  intros w st c.
  apply (account_id_comes_from_info (PyStr "abc") c w st 200
           [("id", PyInt 42)]); reflexivity.
Defined.

(** ** Assembling the declared parameters *)

Lemma keys_put_if_set d k v k' :
  k' ∈ keys (put_if_set k v d) ↔ (k' = k ∧ is_None v = false) ∨ k' ∈ keys d.
Proof.
  unfold put_if_set. destruct (is_None v).
  - split; [by right|]. by intros [[_ ?]|?].
  - rewrite keys_setitem. split; intros [?|?]; eauto. left. by destruct H.
Qed.

Lemma keys_assemble ps d k :
  k ∈ keys (assemble ps d) →
  k ∈ keys d ∨ ∃ p, p ∈ ps ∧ wire p = k ∧ is_None (given p) = false.
Proof.
  unfold assemble. revert d. induction ps as [|p ps IH]; intros d; [by left|].
  cbn [foldl]. intros [Hk|(p' & ? & ? & ?)]%IH.
  - apply keys_put_if_set in Hk as [[-> ?]|?]; [|by left].
    right. exists p. split; [left|done].
  - right. exists p'. split; [by right|done].
Qed.

Lemma NoDup_keys_assemble ps d : NoDup (keys d) → NoDup (keys (assemble ps d)).
Proof.
  unfold assemble. revert d. induction ps as [|p ps IH]; intros d Hd; [done|].
  cbn [foldl]. by apply IH, NoDup_keys_put_if_set.
Qed.

Lemma getitem_assemble_other ps d k :
  (∀ p, p ∈ ps → wire p = k → is_None (given p) = true) →
  getitem (assemble ps d) k = getitem d k.
Proof.
  unfold assemble. revert d. induction ps as [|p ps IH]; intros d H; [done|].
  cbn [foldl]. rewrite IH by (intros; apply H; [by right|done]).
  rewrite getitem_put_if_set.
  destruct (String.eqb_spec (wire p) k) as [E|]; [|done].
  rewrite (H p); [by rewrite andb_false_r|by left|done].
Qed.

Lemma getitem_assemble_supplied ps d p :
  NoDup (wire <$> ps) → p ∈ ps → is_None (given p) = false →
  getitem (assemble ps d) (wire p) = Some (given p).
Proof.
  unfold assemble. revert d. induction ps as [|p0 ps IH]; intros d Hnd Hp Hg.
  - by apply elem_of_nil in Hp.
  - cbn [fmap list_fmap] in Hnd. apply NoDup_cons in Hnd as [Hp0 Hnd].
    cbn [foldl]. apply elem_of_cons in Hp as [->|Hp].
    + fold (assemble ps (put_if_set (wire p0) (given p0) d)).
      rewrite getitem_assemble_other.
      * by rewrite getitem_put_if_set, String.eqb_refl, Hg.
      * intros p' Hp' E. exfalso. apply Hp0. rewrite <- E.
        by apply list_elem_of_fmap_2.
    + by apply IH.
Qed.

(** ** The query of a [Discover] call *)

Lemma NoDup_fmap_inj {A B} (f : A → B) (l : list A) x y :
  NoDup (f <$> l) → x ∈ l → y ∈ l → f x = f y → x = y.
Proof.
  induction l as [|a l IH]; intros Hnd Hx Hy E; [by apply elem_of_nil in Hx|].
  cbn [fmap list_fmap] in Hnd. apply NoDup_cons in Hnd as [Ha Hnd].
  apply elem_of_cons in Hx as [->|Hx]; apply elem_of_cons in Hy as [->|Hy];
    [done| | |by apply IH].
  - exfalso. apply Ha. rewrite E. by apply list_elem_of_fmap_2.
  - exfalso. apply Ha. rewrite <- E. by apply list_elem_of_fmap_2.
Qed.

Lemma table_ok_spec ps :
  table_ok ps = true →
  NoDup (wire <$> ps)
  ∧ (∀ p, p ∈ ps → needs_rename (wire p) = false)
  ∧ (∀ p k, p ∈ ps → k ∈ predots (wire p) → needs_rename k = true →
       k = local p).
Proof.
  unfold table_ok. intros [Hnd Hall]%andb_true_iff.
  apply bool_decide_eq_true in Hnd. split; [done|].
  rewrite forallb_forall in Hall. split.
  - intros p Hp%list_elem_of_In. apply Hall in Hp.
    apply andb_true_iff in Hp as [Hp _]. by apply negb_true_iff.
  - intros p k Hp%list_elem_of_In Hk%list_elem_of_In Hn. apply Hall in Hp.
    apply andb_true_iff in Hp as [_ Hp]. rewrite forallb_forall in Hp.
    apply Hp in Hk. rewrite Hn in Hk. by apply String.eqb_eq in Hk.
Qed.

(** A loop that comes to its end has met no key with both substrings. *)
Lemma rename_loop_returned ks d q :
  NoDup ks → (∀ k, k ∈ ks → is_Some (getitem d k)) →
  Discover.rename_loop ks d = Returned q →
  ∀ k, k ∈ ks → has_both k = false.
Proof.
  revert d. induction ks as [|k0 ks IH]; intros d Hnd Hin Hrun k Hk.
  - by apply elem_of_nil in Hk.
  - destruct (has_both k0) eqn:Hb0.
    { cbn [Discover.rename_loop] in Hrun.
      by rewrite rename_step_both in Hrun. }
    destruct (Hin k0) as [v Hv]; [left|].
    cbn [Discover.rename_loop] in Hrun.
    rewrite (rename_step_one d k0 v) in Hrun by done. cbn in Hrun.
    apply elem_of_cons in Hk as [->|Hk]; [done|].
    pose proof Hnd as [Hk0 Hnd']%NoDup_cons.
    eapply IH; [done| |exact Hrun|done].
    intros k' Hk'. rewrite getitem_rename_step.
    destruct (needs_rename k0); [|by apply Hin; right].
    destruct (String.eqb (dotted k0) k'); [eauto|].
    destruct (String.eqb_spec k0 k') as [->|_]; [done|]. apply Hin. by right.
Qed.

Section discover_query.
Variables (ps : list parameter) (extras q : dict).
Hypothesis table : table_ok ps = true.
Hypothesis distinct : NoDup (keys extras).
Hypothesis not_declared : ∀ p, p ∈ ps → local p ∉ keys extras.
Hypothesis run : Discover.rename_filters (assemble ps extras) = Returned q.

Lemma assembled_ready :
  loop_ready (keys (assemble ps extras)) (assemble ps extras).
Proof.
  assert (NoDup (keys (assemble ps extras))) as Hnd
    by by apply NoDup_keys_assemble.
  assert (∀ k, k ∈ keys (assemble ps extras) →
               is_Some (getitem (assemble ps extras) k)) as Hin
    by (intros k; by rewrite keys_getitem).
  split; [done|]. split; [done|].
  by apply (rename_loop_returned _ (assemble ps extras) q).
Qed.

Lemma renamed_key_is_extra k :
  k ∈ keys (assemble ps extras) → needs_rename k = true → k ∈ keys extras.
Proof.
  destruct (table_ok_spec ps table) as (_ & Hplain & _).
  intros [?|(p & Hp & <- & _)]%keys_assemble Hn; [done|].
  rewrite Hplain in Hn by done. discriminate.
Qed.

Lemma nothing_renamed_into_declared p k :
  p ∈ ps → k ∈ keys (assemble ps extras) → needs_rename k = true →
  dotted k ≠ wire p.
Proof.
  destruct (table_ok_spec ps table) as (_ & _ & Hpre).
  intros Hp Hk Hn E. apply (not_declared p Hp).
  rewrite <- (Hpre p k Hp); [by apply renamed_key_is_extra| |done].
  rewrite <- E. apply dotted_predots.
Qed.

Lemma declared_key_untouched p :
  p ∈ ps → getitem q (wire p) = getitem (assemble ps extras) (wire p).
Proof.
  destruct (table_ok_spec ps table) as (_ & Hplain & _).
  intros Hp. eapply rename_loop_untouched;
    [apply assembled_ready|exact run|by apply Hplain|].
  intros k Hk Hn. by apply nothing_renamed_into_declared.
Qed.

(** A declared parameter left unset, and not passed under its key as an
    extra keyword either, has no entry in the query. *)
Lemma query_declared_unset p :
  p ∈ ps → is_None (given p) = true → wire p ∉ keys extras →
  getitem q (wire p) = None.
Proof.
  destruct (table_ok_spec ps table) as (Hnd & _ & _).
  intros Hp Hg Hx. rewrite declared_key_untouched by done.
  rewrite getitem_assemble_other; [by apply getitem_None_keys|].
  intros p' Hp' E. by rewrite (NoDup_fmap_inj wire ps p' p).
Qed.

(** A declared parameter that is supplied is in the query under its
    key. *)
Lemma query_declared_supplied p :
  p ∈ ps → is_None (given p) = false →
  getitem q (wire p) = Some (given p).
Proof.
  destruct (table_ok_spec ps table) as (Hnd & _ & _).
  intros Hp Hg. rewrite declared_key_untouched by done.
  by apply getitem_assemble_supplied.
Qed.

(** No key of the query has anything left to rewrite. *)
Lemma query_keys_dotted k : k ∈ keys q → needs_rename k = false.
Proof.
  intros Hk. eapply rename_loop_keys;
    [apply assembled_ready|exact run|done|exact Hk].
Qed.

(** An extra keyword is in the query under its rewritten name, when no
    other supplied parameter is sent under that name. *)
Lemma query_extra k v :
  getitem extras k = Some v →
  (∀ p, p ∈ ps → is_None (given p) = false → wire p ≠ dotted k) →
  (∀ k', k' ∈ keys extras → k' ≠ k → dotted k' ≠ dotted k) →
  getitem q (dotted k) = Some v.
Proof.
  destruct (table_ok_spec ps table) as (_ & Hplain & _).
  intros Hk Hdecl Hextra.
  assert (getitem (assemble ps extras) k = Some v) as Hd.
  { rewrite getitem_assemble_other; [done|].
    intros p Hp E. apply not_false_is_true. intros Hg.
    destruct (needs_rename k) eqn:Hn.
    - rewrite <- E, Hplain in Hn by done. discriminate.
    - apply (Hdecl p Hp Hg). by rewrite dotted_plain. }
  destruct (needs_rename k) eqn:Hn.
  - eapply rename_loop_renamed;
      [apply assembled_ready|exact run| |done|done|].
    + by eapply getitem_Some_keys.
    + intros k' Hk' Hne Hn'. apply Hextra; [|done].
      by apply renamed_key_is_extra.
  - rewrite dotted_plain by done. rewrite <- Hd.
    eapply rename_loop_untouched;
      [apply assembled_ready|exact run|done|].
    intros k' Hk' Hn'. rewrite <- (dotted_plain k) by done.
    apply Hextra; [by apply renamed_key_is_extra|]. intros ->. congruence.
Qed.
End discover_query.

(** With no key holding both substrings among the extra keywords, the
    loop comes to its end. *)
Lemma rename_filters_returns ps extras :
  table_ok ps = true → NoDup (keys extras) →
  (∀ k, k ∈ keys extras → has_both k = false) →
  ∃ q, Discover.rename_filters (assemble ps extras) = Returned q.
Proof.
  intros Ht Hnd Hb. destruct (table_ok_spec ps Ht) as (_ & Hplain & _).
  apply rename_loop_returns. split; [by apply NoDup_keys_assemble|].
  split; [intros k; by rewrite keys_getitem|].
  intros k [?|(p & Hp & <- & _)]%keys_assemble; [by apply Hb|].
  apply Hplain in Hp. unfold needs_rename, has_both in *.
  apply orb_false_iff in Hp as [-> _]. done.
Qed.

Lemma discover_table_ok c :
  is_discover c = true → table_ok (optional_parameters c) = true.
Proof. destruct c; try discriminate; intros _; by vm_compute. Qed.

Lemma discover_suffix_table_ok c :
  is_discover c = true → suffix_table_ok (optional_parameters c) = true.
Proof. destruct c; try discriminate; intros _; by vm_compute. Qed.

(** A call of [Discover] is the loop over the assembled mapping, then one
    GET with the mapping the loop leaves. *)
Lemma discover_run c w st :
  is_discover c = true →
  match Discover.rename_filters
          (assemble (optional_parameters c) (extra_keywords c)) with
  | Returned q =>
      requests_of c w st = [Request GET (discover_path c) q None]
  | Raised e => invoke c w st = (Raised e, st)
  end.
Proof.
  intros Hc. destruct st as [a l].
  destruct c; try discriminate Hc; clear Hc;
    unfold requests_of, assemble;
    cbn [invoke optional_parameters extra_keywords discover_path
         foldl wire given];
    unfold Discover.movie, Discover.tv; cbv zeta;
    lazymatch goal with
    | |- context [Discover.rename_filters ?d] =>
        destruct (Discover.rename_filters d) as [q|e]
    end;
    [|reflexivity| |reflexivity];
    lazymatch goal with
    | |- drop _ (sent (?m _ _).2) = ?rhs =>
        change (wp m w (State a l) (λ _ st',
          drop (length (sent (State a l))) (sent st') = rhs))
    end; wp_run; by issued.
Qed.

Lemma discover_placed c p :
  is_discover c = true → p ∈ optional_parameters c → placed p = Query.
Proof.
  intros Hc Hp. destruct c; try discriminate Hc;
    cbn [optional_parameters] in Hp;
    repeat (apply elem_of_cons in Hp as [->|Hp]; [reflexivity|]);
    by apply elem_of_nil in Hp.
Qed.

(** ** Unset parameters *)

(** C1, amended. A parameter with the default [None] that the method
    places in the query mapping, left unset by the caller (and, where the
    method takes extra keyword arguments, not passed under its key as one
    of them), has no entry in the request, neither in the query mapping nor
    in the JSON body.  The one such parameter that is placed in a JSON
    body, [language] of [Lists.list_create], is in the body with the value
    [None]. *)
Theorem unset_parameter_is_not_sent c w st p r :
  keywords_wf c →
  p ∈ optional_parameters c →
  given p = PyNone →
  wire p ∉ keys (extra_keywords c) →
  r ∈ requests_of c w st →
  match placed p with
  | Query =>
      getitem (r_params r) (wire p) = None
      ∧ ∀ b, r_payload r = Some b → getitem b (wire p) = None
  | Body => ∃ b, r_payload r = Some b ∧ getitem b (wire p) = Some PyNone
  end.
Proof.
  intros [Hnd Hloc] Hp Hg Hx Hr.
  destruct (is_discover c) eqn:Hd.
  - pose proof (discover_run c w st Hd) as Hrun.
    rewrite (discover_placed c p Hd Hp).
    destruct (Discover.rename_filters _) as [q|e] eqn:Hq.
    + rewrite Hrun in Hr. apply list_elem_of_singleton in Hr as ->.
      cbn [r_params r_payload]. split; [|done].
      eapply query_declared_unset;
        [by apply discover_table_ok|exact Hnd| |exact Hq|exact Hp| |exact Hx].
      * intros p' Hp'. by eapply Forall_forall in Hloc.
      * by rewrite Hg.
    + unfold requests_of in Hr. rewrite Hrun in Hr. cbn [snd] in Hr.
      rewrite issued_none in Hr. by apply elem_of_nil in Hr.
  - clear Hnd Hloc Hx. revert r Hr. unfold requests_of.
    change (wp (invoke c) w st (λ _ st',
      ∀ r, r ∈ drop (length (sent st)) (sent st') →
      match placed p with
      | Query =>
          getitem (r_params r) (wire p) = None
          ∧ ∀ b, r_payload r = Some b → getitem b (wire p) = None
      | Body =>
          ∃ b, r_payload r = Some b ∧ getitem b (wire p) = Some PyNone
      end)).
    destruct st as [a l].
    destruct c; try discriminate Hd; clear Hd;
      cbn [optional_parameters] in Hp;
      repeat (apply elem_of_cons in Hp as [->|Hp]);
      try (by apply elem_of_nil in Hp);
      cbn [given] in Hg; subst;
      unfold_method; wp_run; intros r; issued; try done; intros ->;
      cbn [placed wire r_params r_payload];
      first
        [ split; [by rewrite ?getitem_put_if_set|by intros b [= <-]]
        | by eexists ].
Qed.

Lemma unset_parameter_is_not_sent_witness :
  let c := Account_lists PyNone (PyInt 2) in
  let w := answering 200 (Some (PyDict [])) in
  let st := fresh (<["id" := PyInt 1]> (Account.__init__ (PyStr "abc"))) in
  let r := Request GET "account/1/lists" [("page", PyInt 2)] None in
  getitem (r_params r) "language" = None
  ∧ ∀ b, r_payload r = Some b → getitem b "language" = None.
Proof.
  intros c w st r.
  apply (unset_parameter_is_not_sent c w st
           (Param "language" Query "language" PyNone) r).
  - apply (bool_decide_unpack _). by vm_compute.
  - left.
  - reflexivity.
  - apply not_elem_of_nil.
  - vm_compute. left.
Defined.

(** C1, as stated, fails for [Lists.list_create]: with [language] left
    unset the JSON body holds the key ["language"], with the value
    [None]. *)
Lemma list_create_sends_unset_language :
  ¬ (∀ c w st p r,
       p ∈ optional_parameters c → given p = PyNone →
       r ∈ requests_of c w st →
       getitem (r_params r) (wire p) = None
       ∧ ∀ b, r_payload r = Some b → getitem b (wire p) = None).
Proof.
  intros H.
  destruct (H list_create_scenario (answering 200 None)
              (fresh (Lists.__init__ (PyInt 0) (PyStr "abc")))
              (Param "language" Body "language" PyNone)
              (Request POST "list" [("session_id", PyStr "abc")]
                 (Some [("name", PyStr "My List");
                        ("description", PyStr "desc");
                        ("language", PyNone)]))) as [_ Hb].
  - left.
  - reflexivity.
  - vm_compute. left.
  - specialize (Hb _ eq_refl). discriminate Hb.
Qed.

(** ** Comparison suffixes *)

Lemma is_None_false v : v ≠ PyNone ↔ is_None v = false.
Proof. destruct v; split; done. Qed.

Lemma starts_with_init p k :
  starts_with p k = true → k ≠ p → starts_with p (str_init k) = true.
Proof.
  revert k. induction p as [|a p IH]; intros k; [by destruct (str_init k)|].
  destruct k as [|b k]; [done|]. cbn [starts_with].
  intros [Hab Hp]%andb_true_iff Hne. cbn [str_init].
  destruct k as [|b' k].
  - destruct p; [|done]. apply Ascii.eqb_eq in Hab as ->. done.
  - cbn [starts_with]. rewrite Hab. cbn [andb]. apply IH; [done|].
    intros E. apply Hne. apply Ascii.eqb_eq in Hab as ->. by rewrite E.
Qed.

Lemma str_in_init_tail sub c s :
  str_in sub (str_init (String c s)) = false → str_in sub (str_init s) = false.
Proof.
  cbn [str_init]. destruct s as [|b s]; [by destruct sub|].
  cbn [str_in]. by intros [_ ?]%orb_false_iff.
Qed.

Lemma ends_with_tail sub c s :
  ends_with sub (String c s) = true → String c s ≠ sub →
  ends_with sub s = true.
Proof.
  cbn [ends_with]. intros [E|?]%orb_true_iff Hne; [|done].
  apply String.eqb_eq in E. congruence.
Qed.

(** For a name that holds the substrings only as its suffix, rewriting
    every occurrence is rewriting the suffix. *)
Lemma dotted_suffix_only k : suffix_only k = true → dotted k = dot_suffix k.
Proof.
  unfold suffix_only, has_suffix, needs_rename.
  intros [Hs [Hl Hg]%negb_true_iff%orb_false_iff]%andb_true_iff.
  induction k as [|c k IH]; [done|].
  cbn [dot_suffix].
  destruct (String.eqb_spec (String c k) "_lte") as [->|Hnl]; [done|].
  destruct (String.eqb_spec (String c k) "_gte") as [->|Hng]; [done|].
  assert (starts_with "_lte" (String c k) = false) as Hl0.
  { apply not_true_is_false. intros H%starts_with_init; [|done].
    apply str_in_false_here in Hl. congruence. }
  assert (starts_with "_gte" (String c k) = false) as Hg0.
  { apply not_true_is_false. intros H%starts_with_init; [|done].
    apply str_in_false_here in Hg. congruence. }
  assert (dotted (String c k) = String c (dotted k)) as ->.
  { unfold dotted, str_replace. cbn [replace_from]. rewrite Hl0.
    cbn [replace_from].
    destruct (starts_with "_gte" (String c (replace_from "_lte" ".lte" 0 k)))
      eqn:E; [|done].
    exfalso.
    change (Ascii.eqb "_" c
            && starts_with "gte" (replace_from "_lte" ".lte" 0 k) = true) in E.
    apply andb_true_iff in E as [Hc E].
    apply (replace_prefix "lte" "lte" "gte" k eq_refl) in E.
    change (Ascii.eqb "_" c && starts_with "gte" k = false) in Hg0.
    rewrite Hc, E in Hg0. discriminate. }
  f_equal. apply IH.
  - apply orb_true_iff in Hs as [Hs|Hs]; apply orb_true_iff; [left|right];
      by eapply ends_with_tail.
  - by eapply str_in_init_tail.
  - by eapply str_in_init_tail.
Qed.

(** C2, amended. In a call of [Discover.movie] or [Discover.tv] in which
    no extra keyword holds both ["_lte"] and ["_gte"], the query mapping
    holds the value of every supplied declared parameter with a comparison
    suffix under the suffix-dotted name; it holds the value of every extra
    keyword whose name holds the substrings only as its suffix under the
    suffix-dotted name, when no other supplied parameter is sent under
    that name; and no key of the query mapping holds ["_lte"] or
    ["_gte"]. *)
Theorem suffixed_parameters_are_dotted c w st :
  is_discover c = true → keywords_wf c → no_double_keyword c →
  ∃ q,
    requests_of c w st = [Request GET (discover_path c) q None]
    ∧ (∀ p, p ∈ optional_parameters c → given p ≠ PyNone →
         has_suffix (local p) = true →
         getitem q (dot_suffix (local p)) = Some (given p))
    ∧ (∀ k v, getitem (extra_keywords c) k = Some v →
         suffix_only k = true →
         (∀ p, p ∈ optional_parameters c → given p ≠ PyNone →
            wire p ≠ dot_suffix k) →
         (∀ k', k' ∈ keys (extra_keywords c) → k' ≠ k →
            dotted k' ≠ dot_suffix k) →
         getitem q (dot_suffix k) = Some v)
    ∧ (∀ k, k ∈ keys q → str_in "_lte" k = false ∧ str_in "_gte" k = false).
Proof.
  intros Hc [Hnd Hloc] Hdouble.
  pose proof (discover_table_ok c Hc) as Htable.
  pose proof (discover_suffix_table_ok c Hc) as Hsuffix.
  rewrite Forall_forall in Hloc. unfold no_double_keyword in Hdouble.
  rewrite Forall_forall in Hdouble.
  destruct (rename_filters_returns _ _ Htable Hnd Hdouble) as [q Hq].
  pose proof (discover_run c w st Hc) as Hrun. rewrite Hq in Hrun.
  exists q. split; [done|]. split; [|split].
  - intros p Hp Hg%is_None_false Hs.
    unfold suffix_table_ok in Hsuffix. rewrite forallb_forall in Hsuffix.
    pose proof Hp as Hp'%list_elem_of_In. apply Hsuffix in Hp'.
    rewrite Hs in Hp'. apply String.eqb_eq in Hp'. rewrite <- Hp'.
    eapply query_declared_supplied; eassumption.
  - intros k v Hk Hs Hdecl Hextra.
    rewrite <- (dotted_suffix_only k Hs) in *.
    eapply query_extra; try eassumption.
    intros p Hp Hg%is_None_false. by apply Hdecl.
  - intros k Hk.
    assert (needs_rename k = false) as Hn
      by (eapply query_keys_dotted; eassumption).
    by apply orb_false_iff in Hn.
Qed.

Lemma suffixed_parameters_are_dotted_witness :
  let c := tv_with_keywords [("with_release_type_gte", PyInt 2)] in
  let w := answering 200 (Some (PyDict [])) in
  let st := fresh TMDB_init in
  ∃ q,
    requests_of c w st = [Request GET (discover_path c) q None]
    ∧ (∀ p, p ∈ optional_parameters c → given p ≠ PyNone →
         has_suffix (local p) = true →
         getitem q (dot_suffix (local p)) = Some (given p))
    ∧ (∀ k v, getitem (extra_keywords c) k = Some v →
         suffix_only k = true →
         (∀ p, p ∈ optional_parameters c → given p ≠ PyNone →
            wire p ≠ dot_suffix k) →
         (∀ k', k' ∈ keys (extra_keywords c) → k' ≠ k →
            dotted k' ≠ dot_suffix k) →
         getitem q (dot_suffix k) = Some v)
    ∧ (∀ k, k ∈ keys q → str_in "_lte" k = false ∧ str_in "_gte" k = false).
Proof.
  intros c w st.
  apply (suffixed_parameters_are_dotted c w st).
  - reflexivity.
  - apply (bool_decide_unpack _). by vm_compute.
  - apply (bool_decide_unpack _). by vm_compute.
Defined.

(** C2, as stated, fails for an extra keyword that holds the substring
    twice: [Discover.tv(x_gte_gte=1)] sends the value under
    ["x.gte.gte"], and the query mapping has no key ["x_gte.gte"]. *)
Lemma doubled_suffix_is_dotted_twice :
  ¬ (∀ c w st k v,
       is_discover c = true → keywords_wf c →
       getitem (extra_keywords c) k = Some v → has_suffix k = true →
       ∃ r, r ∈ requests_of c w st
            ∧ getitem (r_params r) (dot_suffix k) = Some v).
Proof.
  intros H.
  destruct (H (tv_with_keywords [("x_gte_gte", PyInt 1)])
              (answering 200 None) (fresh TMDB_init)
              "x_gte_gte" (PyInt 1)) as (r & Hr & Hv).
  - reflexivity.
  - apply (bool_decide_unpack _). by vm_compute.
  - reflexivity.
  - reflexivity.
  - vm_compute in Hr. apply list_elem_of_singleton in Hr as ->.
    vm_compute in Hv. discriminate Hv.
Qed.

(** ** Extra keyword arguments *)

(** C10, amended. In a call of [Discover.movie] or [Discover.tv] in which
    no extra keyword holds both ["_lte"] and ["_gte"], one GET is issued,
    and its query mapping holds the value of every extra keyword under the
    name with every ["_lte"] turned into [".lte"] and every ["_gte"] into
    [".gte"], when no other supplied parameter is sent under that name. *)
Theorem extra_keywords_pass_through c w st :
  is_discover c = true → keywords_wf c → no_double_keyword c →
  ∃ q,
    requests_of c w st = [Request GET (discover_path c) q None]
    ∧ ∀ k v, getitem (extra_keywords c) k = Some v →
        (∀ p, p ∈ optional_parameters c → given p ≠ PyNone →
           wire p ≠ dotted k) →
        (∀ k', k' ∈ keys (extra_keywords c) → k' ≠ k →
           dotted k' ≠ dotted k) →
        getitem q (dotted k) = Some v.
Proof.
  intros Hc [Hnd Hloc] Hdouble.
  pose proof (discover_table_ok c Hc) as Htable.
  rewrite Forall_forall in Hloc. unfold no_double_keyword in Hdouble.
  rewrite Forall_forall in Hdouble.
  destruct (rename_filters_returns _ _ Htable Hnd Hdouble) as [q Hq].
  pose proof (discover_run c w st Hc) as Hrun. rewrite Hq in Hrun.
  exists q. split; [done|].
  intros k v Hk Hdecl Hextra.
  eapply query_extra; try eassumption.
  intros p Hp Hg%is_None_false. by apply Hdecl.
Qed.

Lemma extra_keywords_pass_through_witness :
  let c := tv_with_keywords [("with_release_type", PyStr "2|3");
                             ("a_lte_b_lte", PyInt 5)] in
  let w := answering 200 (Some (PyDict [])) in
  let st := fresh TMDB_init in
  ∃ q,
    requests_of c w st = [Request GET (discover_path c) q None]
    ∧ ∀ k v, getitem (extra_keywords c) k = Some v →
        (∀ p, p ∈ optional_parameters c → given p ≠ PyNone →
           wire p ≠ dotted k) →
        (∀ k', k' ∈ keys (extra_keywords c) → k' ≠ k →
           dotted k' ≠ dotted k) →
        getitem q (dotted k) = Some v.
Proof.
  intros c w st.
  apply (extra_keywords_pass_through c w st).
  - reflexivity.
  - apply (bool_decide_unpack _). by vm_compute.
  - apply (bool_decide_unpack _). by vm_compute.
Defined.

(** C10, as stated, fails when two extra keywords are rewritten into the
    same name: [Discover.tv] called with the extra keywords
    [{"a_lte": 1, "a.lte": 2}] sends [{"a.lte": 1}], so that the keyword
    ["a.lte"] is not in the query mapping with its value. *)
Lemma colliding_keywords_lose_a_value :
  ¬ (∀ c w st k v,
       is_discover c = true → keywords_wf c →
       getitem (extra_keywords c) k = Some v →
       ∃ r, r ∈ requests_of c w st
            ∧ getitem (r_params r) (dotted k) = Some v).
Proof.
  intros H.
  destruct (H (tv_with_keywords [("a_lte", PyInt 1); ("a.lte", PyInt 2)])
              (answering 200 None) (fresh TMDB_init)
              "a.lte" (PyInt 2)) as (r & Hr & Hv).
  - reflexivity.
  - apply (bool_decide_unpack _). by vm_compute.
  - reflexivity.
  - vm_compute in Hr. apply list_elem_of_singleton in Hr as ->.
    vm_compute in Hv. discriminate Hv.
Qed.

Lemma first_with_both ks :
  Exists (λ k, has_both k = true) ks →
  ∃ ks1 k ks2,
    ks = ks1 ++ k :: ks2 ∧ has_both k = true
    ∧ Forall (λ k, has_both k = false) ks1.
Proof.
  induction ks as [|k0 ks IH]; intros H; [by apply Exists_nil in H|].
  destruct (has_both k0) eqn:Hb.
  - exists [], k0, ks. by repeat split.
  - apply Exists_cons in H as [H|H]; [congruence|].
    destruct (IH H) as (ks1 & k & ks2 & -> & Hk & Hall).
    exists (k0 :: ks1), k, ks2. split; [done|]. split; [done|].
    by constructor.
Qed.

(** X1. A keyword that holds both substrings stops the call: the second
    [kwargs.pop(param)] of the loop looks for a key the first one has
    taken out.  The call ends in a [KeyError] for the first such keyword,
    and nothing is sent. *)
Lemma keyword_with_both_substrings_raises c w st :
  is_discover c = true → keywords_wf c → ¬ no_double_keyword c →
  ∃ k, k ∈ keys (extra_keywords c) ∧ has_both k = true
       ∧ invoke c w st = (Raised (KeyError k), st).
Proof.
  intros Hc [Hnd Hloc] Hdouble.
  pose proof (discover_table_ok c Hc) as Htable.
  destruct (table_ok_spec _ Htable) as (_ & Hplain & _).
  set (d := assemble (optional_parameters c) (extra_keywords c)).
  assert (Exists (λ k, has_both k = true) (keys d)) as Hex.
  { apply not_Forall_Exists in Hdouble; [|apply _].
    apply Exists_exists in Hdouble as (k & Hk & Hb).
    apply not_false_is_true in Hb.
    apply Exists_exists. exists k. split; [|done].
    apply keys_getitem. apply keys_getitem in Hk as [v Hv].
    exists v. unfold d. rewrite getitem_assemble_other; [done|].
    intros p Hp E. apply Hplain in Hp. rewrite E in Hp.
    unfold needs_rename, has_both in *.
    apply orb_false_iff in Hp as [Hl _]. by rewrite Hl in Hb. }
  destruct (first_with_both _ Hex) as (ks1 & k & ks2 & Hks & Hb & Hall).
  assert (NoDup (keys d)) as Hndd by by apply NoDup_keys_assemble.
  exists k. split; [|split; [done|]].
  - assert (k ∈ keys d) as Hk
      by (rewrite Hks; apply elem_of_app; right; left).
    apply keys_assemble in Hk as [?|(p & Hp & <- & _)]; [done|].
    apply Hplain in Hp. unfold needs_rename, has_both in *.
    apply orb_false_iff in Hp as [Hl _]. by rewrite Hl in Hb.
  - pose proof (discover_run c w st Hc) as Hrun. fold d in Hrun.
    unfold Discover.rename_filters in Hrun. rewrite Hks in Hrun.
    rewrite rename_loop_raises in Hrun; [done| |by rewrite <- Hks|done].
    rewrite Hks in Hndd. apply NoDup_app in Hndd as (Hnd1 & _ & _).
    split; [done|]. split; [|by apply Forall_forall].
    intros k' Hk'. apply keys_getitem. rewrite Hks.
    apply elem_of_app. by left.
Qed.

Example keyword_with_both_substrings w st :
  invoke (tv_with_keywords [("a_lte_gte", PyInt 1)]) w st
  = (Raised (KeyError "a_lte_gte"), st).
Proof. reflexivity. Qed.

(** ** The endpoint names the methods use *)

Lemma format_scan_raises name text field template e :
  format_scan name text field template = Raised e →
  e = ValueError ∨ ∃ k, e = KeyError k.
Proof.
  revert field. induction template as [|c rest IH]; intros field; cbn.
  - destruct field; [|done]. intros [= <-]. by left.
  - destruct field as [acc|].
    + destruct (Ascii.eqb c "}").
      * destruct (String.eqb acc name).
        -- destruct (format_scan name text None rest) eqn:E; cbn; [done|].
           intros [= <-]. eauto.
        -- intros [= <-]. eauto.
      * apply IH.
    + destruct (Ascii.eqb c "{"); [apply IH|].
      destruct (Ascii.eqb c "}"); [intros [= <-]; by left|].
      destruct (format_scan name text None rest) eqn:E; cbn; [done|].
      intros [= <-]. eauto.
Qed.

(** A path builder asked for an endpoint name of the table does not end
    in a configuration error. *)
Lemma wp_get_id_path_known cls key w st (Q : outcome string → state → Prop) :
  is_Some (url_lookup (URLS cls) key) →
  (∀ o, (∀ k, o ≠ Raised (ConfigurationError k)) → Q o st) →
  wp (_get_id_path cls key) w st Q.
Proof.
  intros [t Ht] H. unfold _get_id_path.
  apply wp_bind, wp_get_path. rewrite Ht.
  apply wp_bind, wp_getattr. destruct (attrs st !! "id"); [|by apply H].
  apply wp_bind, wp_py_str. intros text. apply wp_lift, H.
  intros k E. by apply format_scan_raises in E as [?|[? ?]].
Qed.

Lemma wp_get_guest_session_id_path_known key w st
    (Q : outcome string → state → Prop) :
  is_Some (url_lookup (URLS GuestSessions.cls) key) →
  (∀ o, (∀ k, o ≠ Raised (ConfigurationError k)) → Q o st) →
  wp (GuestSessions._get_guest_session_id_path key) w st Q.
Proof.
  intros [t Ht] H. unfold GuestSessions._get_guest_session_id_path.
  apply wp_bind, wp_get_path. rewrite Ht.
  apply wp_bind, wp_getattr. destruct (attrs st !! _); [|by apply H].
  apply wp_bind, wp_py_str. intros text. apply wp_lift, H.
  intros k E. by apply format_scan_raises in E as [?|[? ?]].
Qed.

Lemma rename_step_raises d k e :
  Discover.rename_step d k = Raised e → e = KeyError k.
Proof.
  unfold Discover.rename_step, Discover.pop.
  destruct (str_in "_lte" k); destruct (str_in "_gte" k); cbn;
    repeat (lazymatch goal with
            | |- context [getitem ?x ?y] => destruct (getitem x y); cbn
            end);
    congruence.
Qed.

Lemma rename_loop_raises_key ks d e :
  Discover.rename_loop ks d = Raised e → ∃ k, e = KeyError k.
Proof.
  revert d. induction ks as [|k ks IH]; intros d; [done|].
  cbn [Discover.rename_loop].
  destruct (Discover.rename_step d k) as [d'|e'] eqn:E; cbn.
  - apply IH.
  - intros [= <-]. apply rename_step_raises in E. eauto.
Qed.

Ltac wp_step_known :=
  lazymatch goal with
  | |- wp (_get_id_path _ _) _ _ _ =>
      apply wp_get_id_path_known; [by eexists|intros [?|?] ?]
  | |- wp (GuestSessions._get_guest_session_id_path _) _ _ _ =>
      apply wp_get_guest_session_id_path_known; [by eexists|intros [?|?] ?]
  | _ => wp_step
  end.

(** X2. Every endpoint name a method asks for is in the table of its
    class: no public call ends in a configuration error. *)
Lemma methods_use_known_endpoints c w st key :
  (invoke c w st).1 ≠ Raised (ConfigurationError key).
Proof.
  change (wp (invoke c) w st (λ o _, o ≠ Raised (ConfigurationError key))).
  destruct st as [a l].
  destruct c; unfold_method;
    repeat (first [progress cbv beta iota zeta | progress cbn [attrs sent]
                  | wp_step_known]);
    try done;
    lazymatch goal with
    | H : ∀ k, Raised _ ≠ Raised (ConfigurationError k) |- _ =>
        intros [= ->]; by apply (H key)
    | H : Discover.rename_filters _ = Raised _ |- _ =>
        by apply rename_loop_raises_key in H as [? ->]
    | H : subscript ?p _ = Raised _ |- _ =>
        destruct p; try (by injection H as <-);
        cbn [subscript] in H; destruct (getitem _ _); [done|];
        by injection H as <-
    end.
Qed.

(** * Further properties of the methods *)

(** ** What a request carries *)

(** X3. A parameter with the default [None] that the caller supplies is in
    the request that the call issues, under its wire key and with the value
    the caller gave: in the query mapping, or for [language] of
    [Lists.list_create] in the JSON body. *)
Theorem supplied_parameter_is_sent c w st p r :
  keywords_wf c →
  p ∈ optional_parameters c →
  given p ≠ PyNone →
  r ∈ requests_of c w st →
  sent_in (placed p) r (wire p) = Some (given p).
Proof.
  intros [Hnd Hloc] Hp Hg%is_None_false Hr.
  destruct (is_discover c) eqn:Hd.
  - pose proof (discover_run c w st Hd) as Hrun.
    rewrite (discover_placed c p Hd Hp).
    destruct (Discover.rename_filters _) as [q|e] eqn:Hq.
    + rewrite Hrun in Hr. apply list_elem_of_singleton in Hr as ->.
      cbn [sent_in r_params].
      eapply query_declared_supplied;
        [by apply discover_table_ok|exact Hnd| |exact Hq|exact Hp|exact Hg].
      intros p' Hp'. by eapply Forall_forall in Hloc.
    + unfold requests_of in Hr. rewrite Hrun in Hr. cbn [snd] in Hr.
      rewrite issued_none in Hr. by apply elem_of_nil in Hr.
  - clear Hnd Hloc. revert r Hr. unfold requests_of.
    change (wp (invoke c) w st (λ _ st',
      ∀ r, r ∈ drop (length (sent st)) (sent st') →
      sent_in (placed p) r (wire p) = Some (given p))).
    destruct st as [a l].
    destruct c; try discriminate Hd; clear Hd;
      cbn [optional_parameters] in Hp;
      repeat (apply elem_of_cons in Hp as [->|Hp]);
      try (by apply elem_of_nil in Hp);
      cbn [given] in Hg;
      unfold_method; wp_run; intros r; issued; try done; intros ->;
      cbn [placed wire given sent_in r_params r_payload];
      rewrite ?getitem_put_if_set; cbn [String.eqb Ascii.eqb Bool.eqb andb];
      rewrite ?Hg; reflexivity.
Qed.

Lemma supplied_parameter_is_sent_witness :
  let c := Account_lists PyNone (PyInt 2) in
  let w := answering 200 (Some (PyDict [])) in
  let st := fresh (<["id" := PyInt 1]> (Account.__init__ (PyStr "abc"))) in
  let r := Request GET "account/1/lists" [("page", PyInt 2)] None in
  sent_in Query r "page" = Some (PyInt 2).
Proof.
  intros c w st r.
  apply (supplied_parameter_is_sent c w st
           (Param "page" Query "page" (PyInt 2)) r).
  - apply (bool_decide_unpack _). by vm_compute.
  - right. left.
  - discriminate.
  - vm_compute. left.
Defined.

(** X4. A parameter that the signature declares without a default and
    that the method passes on as it is, is in the request under its key
    with the value the caller gave, whatever that value is: the methods
    test no such parameter against [None]. *)
Theorem required_parameter_is_sent c w st p r :
  p ∈ required_parameters c →
  r ∈ requests_of c w st →
  sent_in (placed p) r (wire p) = Some (given p).
Proof.
  intros Hp. revert r. unfold requests_of.
  change (wp (invoke c) w st (λ _ st',
    ∀ r, r ∈ drop (length (sent st)) (sent st') →
    sent_in (placed p) r (wire p) = Some (given p))).
  destruct st as [a l].
  destruct c; cbn [required_parameters] in Hp;
    try (by apply elem_of_nil in Hp);
    repeat (apply elem_of_cons in Hp as [->|Hp]);
    try (by apply elem_of_nil in Hp);
    unfold_method; wp_run; intros r; issued; try done; intros ->;
    cbn [placed wire given sent_in r_params r_payload];
    rewrite ?getitem_put_if_set; cbn [String.eqb Ascii.eqb Bool.eqb andb];
    reflexivity.
Qed.

Lemma required_parameter_is_sent_witness :
  let c := Search_movie PyNone PyNone PyNone PyNone PyNone PyNone PyNone in
  let w := answering 200 (Some (PyDict [])) in
  let st := fresh TMDB_init in
  let r := Request GET "search/movie" [("query", PyNone)] None in
  sent_in Query r "query" = Some PyNone.
Proof.
  intros c w st r.
  apply (required_parameter_is_sent c w st
           (Param "query" Query "query" PyNone) r).
  - left.
  - vm_compute. left.
Defined.

(** ** One call, one request *)

(** X5. A call issues at most one request.  When it issues none it ends
    in an error and leaves the object and the log as they were; when it
    issues one, the log is the log from before with this request at its
    end. *)
Theorem call_issues_at_most_one_request c w st :
  (requests_of c w st = [] ∧ (invoke c w st).2 = st
   ∧ ∃ e, (invoke c w st).1 = Raised e)
  ∨ (∃ r, requests_of c w st = [r]
          ∧ sent (invoke c w st).2 = sent st ++ [r]).
Proof.
  unfold requests_of.
  change (wp (invoke c) w st (λ o st',
    (drop (length (sent st)) (sent st') = [] ∧ st' = st
     ∧ ∃ e, o = Raised e)
    ∨ (∃ r, drop (length (sent st)) (sent st') = [r]
            ∧ sent st' = sent st ++ [r]))).
  destruct st as [a l].
  destruct c; unfold_method; wp_run; issued; eauto.
Qed.

(** ** Failures *)

(** X6. A call that ends in an error has not changed the attributes of the
    object: every method but [Lists.list_create] touches them only after the
    last step that can fail. *)
Theorem failed_call_keeps_attributes c w st e :
  is_list_create c = false →
  (invoke c w st).1 = Raised e →
  attrs (invoke c w st).2 = attrs st.
Proof.
  intros Hc.
  change (wp (invoke c) w st (λ o st',
    o = Raised e → attrs st' = attrs st)).
  destruct st as [a l].
  destruct c; try discriminate Hc; clear Hc; unfold_method; wp_run; done.
Qed.

Lemma failed_call_keeps_attributes_witness :
  let c := Movies_details PyNone PyNone in
  let w := answering 404 None in
  let st := fresh (Movies.__init__ (PyInt 550)) in
  attrs (invoke c w st).2 = attrs st.
Proof.
  intros c w st.
  apply (failed_call_keeps_attributes c w st (RemoteError 404));
    reflexivity.
Defined.

(** ** The session identifier *)

(** X7. The methods that open their query mapping with
    [{"session_id": self.session_id}] send the session identifier the
    object holds: a request of such a call has it in its query mapping. *)
Theorem session_scoped_call_sends_session c w st r :
  sends_own_session c = true →
  r ∈ requests_of c w st →
  ∃ sid, attrs st !! "session_id" = Some sid
         ∧ getitem (r_params r) "session_id" = Some sid.
Proof.
  intros Hc. revert r. unfold requests_of.
  change (wp (invoke c) w st (λ _ st',
    ∀ r, r ∈ drop (length (sent st)) (sent st') →
    ∃ sid, attrs st !! "session_id" = Some sid
           ∧ getitem (r_params r) "session_id" = Some sid)).
  destruct st as [a l].
  destruct c; try discriminate Hc; clear Hc;
    unfold_method; wp_run; intros r; issued; try done; intros ->;
    cbn [attrs r_params];
    (eexists; split; [reflexivity|]);
    by rewrite ?getitem_put_if_set.
Qed.

Lemma session_scoped_call_sends_session_witness :
  let c := Lists_list_delete in
  let w := answering 200 (Some (PyDict [])) in
  let st := fresh (Lists.__init__ (PyInt 7) (PyStr "abc")) in
  let r := Request DELETE "list/7" [("session_id", PyStr "abc")] None in
  ∃ sid, attrs st !! "session_id" = Some sid
         ∧ getitem (r_params r) "session_id" = Some sid.
Proof.
  intros c w st r.
  apply (session_scoped_call_sends_session c w st r).
  - reflexivity.
  - vm_compute. left.
Defined.

(** X8. [Account.info], [lists], [favorite_movies], [favorite_tv],
    [favorite] and [rated_movies] start from an empty query mapping: the
    session identifier the object was built with is in none of their
    requests. *)
Theorem account_call_without_session c w st r :
  account_without_session c = true →
  r ∈ requests_of c w st →
  getitem (r_params r) "session_id" = None.
Proof.
  intros Hc. revert r. unfold requests_of.
  change (wp (invoke c) w st (λ _ st',
    ∀ r, r ∈ drop (length (sent st)) (sent st') →
    getitem (r_params r) "session_id" = None)).
  destruct st as [a l].
  destruct c; try discriminate Hc; clear Hc;
    unfold_method; wp_run; intros r; issued; try done; intros ->;
    cbn [r_params]; by rewrite ?getitem_put_if_set.
Qed.

Lemma account_call_without_session_witness :
  let c := Account_favorite_movies PyNone PyNone PyNone in
  let w := answering 200 (Some (PyDict [])) in
  let st :=
    fresh (<["id" := PyInt 1]> (Account.__init__ (PyStr "abc"))) in
  let r := Request GET "account/1/favorite/movies" [] None in
  getitem (r_params r) "session_id" = None.
Proof.
  intros c w st r.
  apply (account_call_without_session c w st r).
  - reflexivity.
  - vm_compute. left.
Defined.

(** ** The renaming loop, as a function of the mapping *)

Lemma NoDup_keys_delitem d k : NoDup (keys d) → NoDup (keys (delitem d k)).
Proof.
  unfold keys. induction d as [|[k0 v0] d IH]; simpl; intros Hd; [done|].
  apply NoDup_cons in Hd as [Hk0 Hd].
  destruct (String.eqb_spec k0 k) as [->|Hne]; simpl; [auto|].
  apply NoDup_cons. split; [|auto].
  intros Hin. apply (keys_delitem d k k0) in Hin as [_ ?]. done.
Qed.

Lemma length_setitem d k v : (length (setitem d k v) ≤ S (length d))%nat.
Proof.
  induction d as [|[k0 v0] d IH]; simpl; [done|].
  destruct (String.eqb k0 k); simpl; lia.
Qed.

Lemma length_delitem d k : (length (delitem d k) ≤ length d)%nat.
Proof.
  induction d as [|[k0 v0] d IH]; simpl; [done|].
  destruct (String.eqb k0 k); simpl; lia.
Qed.

Lemma length_delitem_found d k :
  is_Some (getitem d k) → (S (length (delitem d k)) ≤ length d)%nat.
Proof.
  induction d as [|[k0 v0] d IH]; simpl; [by intros [? ?]|].
  destruct (String.eqb k0 k); simpl.
  - intros _. pose proof (length_delitem d k). lia.
  - intros H. apply IH in H. lia.
Qed.

Lemma dotted_idempotent k : dotted (dotted k) = dotted k.
Proof. apply dotted_plain, dotted_needs_nothing. Qed.

(** A key with neither substring is passed over. *)
Lemma rename_step_plain d k :
  needs_rename k = false → Discover.rename_step d k = Returned d.
Proof.
  intros [Hl Hg]%orb_false_iff. unfold Discover.rename_step.
  by rewrite Hl, Hg.
Qed.

Lemma rename_loop_plain ks d :
  (∀ k, k ∈ ks → needs_rename k = false) →
  Discover.rename_loop ks d = Returned d.
Proof.
  revert d. induction ks as [|k ks IH]; intros d H; [done|].
  cbn [Discover.rename_loop]. rewrite rename_step_plain by (apply H; left).
  cbn. apply IH. intros k' ?. apply H. by right.
Qed.

(** One turn of the loop, for a snapshot the loop can get through. *)
Ltac loop_turn Hr Hrun k v Hv :=
  let Hin := fresh "Hin" in
  let Hb := fresh "Hb" in
  pose proof Hr as (_ & Hin & Hb);
  destruct (Hin k) as [v Hv]; [left|];
  cbn [Discover.rename_loop] in Hrun;
  rewrite (rename_step_one _ k v) in Hrun
    by first [eassumption | apply Hb; left];
  cbn in Hrun;
  clear Hin Hb.

Lemma rename_loop_NoDup ks d d' :
  loop_ready ks d → Discover.rename_loop ks d = Returned d' →
  NoDup (keys d) → NoDup (keys d').
Proof.
  revert d. induction ks as [|k ks IH]; intros d Hr Hrun Hd.
  - cbn in Hrun. by injection Hrun as <-.
  - loop_turn Hr Hrun k v Hv.
    eapply IH; [by eapply loop_ready_step|exact Hrun|].
    destruct (needs_rename k); [|done].
    by apply NoDup_keys_setitem, NoDup_keys_delitem.
Qed.

Lemma rename_loop_length ks d d' :
  loop_ready ks d → Discover.rename_loop ks d = Returned d' →
  (length d' ≤ length d)%nat.
Proof.
  revert d. induction ks as [|k ks IH]; intros d Hr Hrun.
  - cbn in Hrun. by injection Hrun as <-.
  - loop_turn Hr Hrun k v Hv.
    etrans; [eapply IH; [by eapply loop_ready_step|exact Hrun]|].
    destruct (needs_rename k); [|done].
    pose proof (length_setitem (delitem d k) (dotted k) v) as H1.
    assert (is_Some (getitem d k)) as H2%length_delitem_found by eauto.
    lia.
Qed.

(** Every entry the loop leaves was an entry before, under the same key or
    under a key of the snapshot that is rewritten into it. *)
Lemma rename_loop_source ks d d' x v :
  loop_ready ks d → Discover.rename_loop ks d = Returned d' →
  getitem d' x = Some v →
  ∃ k, getitem d k = Some v
       ∧ (k = x ∨ (k ∈ ks ∧ needs_rename k = true ∧ dotted k = x)).
Proof.
  revert d. induction ks as [|k0 ks IH]; intros d Hr Hrun Hx.
  - cbn in Hrun. injection Hrun as <-. eauto.
  - loop_turn Hr Hrun k0 v0 Hv0.
    destruct (IH _ (loop_ready_step _ _ _ _ Hr Hv0) Hrun Hx)
      as (k & Hk & Hor).
    rewrite getitem_rename_step in Hk.
    destruct (needs_rename k0) eqn:Hn0.
    + destruct (String.eqb_spec (dotted k0) k) as [E|_].
      * injection Hk as <-. exists k0. split; [done|]. right.
        destruct Hor as [<-|(_ & Hn & _)].
        -- split; [left|done].
        -- pose proof (dotted_needs_nothing k0) as H. rewrite E in H.
           congruence.
      * destruct (String.eqb_spec k0 k) as [_|_]; [done|].
        exists k. split; [done|].
        destruct Hor as [?|(? & ? & ?)]; [by left|right].
        split; [by right|done].
    + exists k. split; [done|].
      destruct Hor as [?|(? & ? & ?)]; [by left|right].
      split; [by right|done].
Qed.

(** Every key the mapping had is there under its rewritten name when the
    loop is over. *)
Lemma rename_loop_target ks d d' k :
  loop_ready ks d → Discover.rename_loop ks d = Returned d' →
  k ∈ keys d → (needs_rename k = true → k ∈ ks) →
  dotted k ∈ keys d'.
Proof.
  revert d k. induction ks as [|k0 ks IH]; intros d k Hr Hrun Hk Hcover.
  - cbn in Hrun. injection Hrun as <-.
    destruct (needs_rename k) eqn:Hn.
    + specialize (Hcover eq_refl). by apply elem_of_nil in Hcover.
    + by rewrite dotted_plain.
  - pose proof Hr as (Hnd & _ & _). apply NoDup_cons in Hnd as [Hk0 _].
    loop_turn Hr Hrun k0 v0 Hv0.
    pose proof (loop_ready_step _ _ _ _ Hr Hv0) as Hr'.
    destruct (decide (k = k0)) as [->|Hne].
    + destruct (needs_rename k0) eqn:Hn0.
      * rewrite <- dotted_idempotent.
        eapply IH; [exact Hr'|exact Hrun| |].
        -- apply keys_setitem. by left.
        -- rewrite dotted_needs_nothing. discriminate.
      * rewrite dotted_plain by done.
        rewrite <- (dotted_plain k0) by done.
        eapply IH; [exact Hr'|exact Hrun|done|]. congruence.
    + eapply IH; [exact Hr'|exact Hrun| |].
      * apply keys_getitem. rewrite getitem_rename_step.
        apply keys_getitem in Hk.
        destruct (needs_rename k0); [|done].
        destruct (String.eqb (dotted k0) k); [eauto|].
        by destruct (String.eqb_spec k0 k).
      * intros Hn. apply Hcover in Hn.
        apply elem_of_cons in Hn as [?|?]; done.
Qed.

(** A mapping with distinct keys whose loop comes to its end. *)
Lemma rename_filters_ready d q :
  NoDup (keys d) → Discover.rename_filters d = Returned q →
  loop_ready (keys d) d.
Proof.
  intros Hnd Hrun.
  assert (∀ k, k ∈ keys d → is_Some (getitem d k)) as Hin
    by (intros k; by rewrite keys_getitem).
  split; [done|]. split; [done|].
  by apply (rename_loop_returned _ d q).
Qed.

(** X9. What the loop leaves needs no second pass: run on its own result,
    the loop returns this result as it is. *)
Theorem rename_filters_idempotent d q :
  NoDup (keys d) →
  Discover.rename_filters d = Returned q →
  Discover.rename_filters q = Returned q.
Proof.
  intros Hnd Hrun. apply rename_loop_plain. intros k Hk.
  eapply rename_loop_keys;
    [by eapply rename_filters_ready|exact Hrun|done|exact Hk].
Qed.

Lemma rename_filters_idempotent_witness :
  let d := [("a_lte", PyInt 1); ("b", PyInt 2); ("c_gte", PyInt 3)] in
  let q := [("b", PyInt 2); ("a.lte", PyInt 1); ("c.gte", PyInt 3)] in
  Discover.rename_filters q = Returned q.
Proof.
  intros d q. apply (rename_filters_idempotent d q).
  - apply (bool_decide_unpack _). by vm_compute.
  - reflexivity.
Defined.

(** X10. The keys the loop leaves are the keys it found with every
    ["_lte"] turned into [".lte"] and every ["_gte"] into [".gte"], no more
    and no less, each once; two keys with the same rewritten name fall
    into one, so the mapping never grows. *)
Theorem rename_filters_keys d q :
  NoDup (keys d) →
  Discover.rename_filters d = Returned q →
  NoDup (keys q)
  ∧ (∀ x, x ∈ keys q ↔ ∃ k, k ∈ keys d ∧ dotted k = x)
  ∧ (length q ≤ length d)%nat.
Proof.
  intros Hnd Hrun.
  pose proof (rename_filters_ready d q Hnd Hrun) as Hr.
  split; [by eapply rename_loop_NoDup|]. split; [|by eapply rename_loop_length].
  intros x. split.
  - intros [v Hv]%keys_getitem.
    destruct (rename_loop_source _ _ _ _ _ Hr Hrun Hv) as (k & Hk & Hor).
    exists k. split; [by eapply getitem_Some_keys|].
    destruct Hor as [->|(_ & _ & ?)]; [|done].
    apply dotted_plain. eapply rename_loop_keys; [exact Hr|exact Hrun|done|].
    by eapply getitem_Some_keys.
  - intros (k & Hk & <-). by eapply rename_loop_target.
Qed.

Lemma rename_filters_keys_witness :
  let d := [("a_lte", PyInt 1); ("a.lte", PyInt 2); ("c_gte", PyInt 3)] in
  let q := [("a.lte", PyInt 1); ("c.gte", PyInt 3)] in
  NoDup (keys q)
  ∧ (∀ x, x ∈ keys q ↔ ∃ k, k ∈ keys d ∧ dotted k = x)
  ∧ (length q ≤ length d)%nat.
Proof.
  intros d q. apply (rename_filters_keys d q).
  - apply (bool_decide_unpack _). by vm_compute.
  - reflexivity.
Defined.

(** X11. The loop invents no value: every entry it leaves holds the value
    that the mapping had under a key that is rewritten into the key of the
    entry. *)
Theorem rename_filters_values d q x v :
  NoDup (keys d) →
  Discover.rename_filters d = Returned q →
  getitem q x = Some v →
  ∃ k, getitem d k = Some v ∧ dotted k = x.
Proof.
  intros Hnd Hrun Hv.
  pose proof (rename_filters_ready d q Hnd Hrun) as Hr.
  destruct (rename_loop_source _ _ _ _ _ Hr Hrun Hv) as (k & Hk & Hor).
  exists k. split; [done|].
  destruct Hor as [->|(_ & _ & ?)]; [|done].
  apply dotted_plain. eapply rename_loop_keys; [exact Hr|exact Hrun|done|].
  by eapply getitem_Some_keys.
Qed.

Lemma rename_filters_values_witness :
  let d := [("a_lte", PyInt 1); ("b", PyInt 2)] in
  let q := [("b", PyInt 2); ("a.lte", PyInt 1)] in
  ∃ k, getitem d k = Some (PyInt 1) ∧ dotted k = "a.lte".
Proof.
  intros d q. apply (rename_filters_values d q "a.lte" (PyInt 1)).
  - apply (bool_decide_unpack _). by vm_compute.
  - reflexivity.
  - reflexivity.
Defined.

(** ** Nothing but what the caller gave *)

Lemma getitem_elem_of d k v : getitem d k = Some v → (k, v) ∈ d.
Proof.
  induction d as [|[k0 v0] d IH]; simpl; [done|].
  destruct (String.eqb_spec k0 k) as [->|_].
  - intros [= ->]. left.
  - intros H. right. by apply IH.
Qed.

Lemma elem_of_setitem d k v e : e ∈ setitem d k v → e = (k, v) ∨ e ∈ d.
Proof.
  induction d as [|[k0 v0] d IH]; simpl.
  - intros ->%list_elem_of_singleton. by left.
  - destruct (String.eqb_spec k0 k) as [->|_].
    + intros [->|?]%elem_of_cons; [by left|]. right. by right.
    + intros [->|[?|?]%IH]%elem_of_cons; [right; left|by left|].
      right. by right.
Qed.

Lemma elem_of_put_if_set d k v e :
  e ∈ put_if_set k v d → e = (k, v) ∨ e ∈ d.
Proof.
  unfold put_if_set. destruct (is_None v); [by right|].
  apply elem_of_setitem.
Qed.

Lemma elem_of_entries pl ps p :
  p ∈ ps → placed p = pl → (wire p, given p) ∈ entries pl ps.
Proof.
  intros Hp <-. unfold entries. apply list_elem_of_omap.
  exists p. split; [done|]. by destruct (placed p).
Qed.

(** Every entry of the assembled mapping was in the mapping the assembly
    started from, or is a supplied parameter. *)
Lemma getitem_assemble_source ps d k v :
  getitem (assemble ps d) k = Some v →
  getitem d k = Some v ∨ ∃ p, p ∈ ps ∧ wire p = k ∧ given p = v.
Proof.
  unfold assemble. revert d. induction ps as [|p ps IH]; intros d; [by left|].
  cbn [foldl]. intros [H|(p' & ? & ? & ?)]%IH.
  - rewrite getitem_put_if_set in H.
    destruct (String.eqb_spec (wire p) k) as [E|_]; cbn in H.
    + destruct (is_None (given p)); cbn in H; [by left|].
      right. exists p. split; [left|]. split; congruence.
    + by left.
  - right. exists p'. split; [by right|done].
Qed.

(** Find an entry in a list written out. *)
Ltac pick_entry :=
  solve [repeat first [apply list_elem_of_here | apply list_elem_of_further]].

(** X12. A request carries nothing the call was not given.  Every entry of
    the query mapping is the session identifier or the confirmation that
    the method puts there itself, or a declared parameter of the query with
    the value the caller gave, or the value of an extra keyword under the
    rewritten name of this keyword; every entry of the JSON body is a
    declared parameter of the body with the value the caller gave. *)
Theorem nothing_else_is_sent c w st r k v :
  keywords_wf c →
  r ∈ requests_of c w st →
  (getitem (r_params r) k = Some v →
     k ∈ own_keys c
     ∨ (k, v) ∈ declared_entries Query c
     ∨ ∃ k0, getitem (extra_keywords c) k0 = Some v ∧ dotted k0 = k)
  ∧ (∀ b, r_payload r = Some b → getitem b k = Some v →
       (k, v) ∈ declared_entries Body c).
Proof.
  intros [Hnd Hloc] Hr.
  destruct (is_discover c) eqn:Hd.
  - pose proof (discover_run c w st Hd) as Hrun.
    pose proof (discover_table_ok c Hd) as Htable.
    destruct (table_ok_spec _ Htable) as (_ & Hplain & _).
    destruct (Discover.rename_filters _) as [q|e] eqn:Hq.
    + rewrite Hrun in Hr. apply list_elem_of_singleton in Hr as ->.
      cbn [r_params r_payload]. split; [|done].
      intros Hv. right.
      assert (loop_ready
                (keys (assemble (optional_parameters c) (extra_keywords c)))
                (assemble (optional_parameters c) (extra_keywords c))) as Hr
        by (eapply rename_filters_ready; [by apply NoDup_keys_assemble|done]).
      assert (dotted k = k) as Hk.
      { apply dotted_plain.
        eapply rename_loop_keys; [exact Hr|exact Hq|done|].
        by eapply getitem_Some_keys. }
      destruct (rename_loop_source _ _ _ _ _ Hr Hq Hv) as (k1 & Hk1 & Hor).
      assert (dotted k1 = k) as <-
        by (destruct Hor as [->|(_ & _ & ?)]; done).
      clear Hor Hk.
      apply getitem_assemble_source in Hk1 as [?|(p & Hp & <- & <-)];
        [right; eauto|left].
      rewrite dotted_plain by by apply Hplain.
      apply elem_of_entries.
      * apply elem_of_app. by right.
      * by apply (discover_placed c).
    + unfold requests_of in Hr. rewrite Hrun in Hr. cbn [snd] in Hr.
      rewrite issued_none in Hr. by apply elem_of_nil in Hr.
  - clear Hnd Hloc. revert r Hr. unfold requests_of.
    change (wp (invoke c) w st (λ _ st',
      ∀ r, r ∈ drop (length (sent st)) (sent st') →
      (getitem (r_params r) k = Some v →
         k ∈ own_keys c
         ∨ (k, v) ∈ declared_entries Query c
         ∨ ∃ k0, getitem (extra_keywords c) k0 = Some v ∧ dotted k0 = k)
      ∧ (∀ b, r_payload r = Some b → getitem b k = Some v →
           (k, v) ∈ declared_entries Body c))).
    destruct st as [a l].
    destruct c; try discriminate Hd; clear Hd;
      unfold_method; wp_run; intros r; issued; try done; intros ->;
      cbn [r_params r_payload];
      (split; [intros H|intros b Hb H; try discriminate Hb;
                        injection Hb as <-]);
      apply getitem_elem_of in H;
      repeat (apply elem_of_put_if_set in H as [H|H];
              [injection H as -> ->|]);
      repeat (apply elem_of_cons in H as [H|H]; [injection H as -> ->|]);
      try (by apply elem_of_nil in H);
      cbn [own_keys sends_own_session is_list_clear declared_entries
           required_parameters optional_parameters entries omap list_omap
           app wire given placed];
      first [pick_entry | left; pick_entry | right; left; pick_entry].
Qed.

Lemma nothing_else_is_sent_witness :
  let c := Lists_list_create (PyStr "n") (PyStr "d") PyNone in
  let w := answering 200 (Some (PyDict [])) in
  let st := fresh (Lists.__init__ (PyInt 0) (PyStr "abc")) in
  let r := Request POST "list" [("session_id", PyStr "abc")]
             (Some [("name", PyStr "n"); ("description", PyStr "d");
                    ("language", PyNone)]) in
  (getitem (r_params r) "name" = Some (PyStr "n") →
     "name" ∈ own_keys c
     ∨ ("name", PyStr "n") ∈ declared_entries Query c
     ∨ ∃ k0, getitem (extra_keywords c) k0 = Some (PyStr "n")
             ∧ dotted k0 = "name")
  ∧ (∀ b, r_payload r = Some b → getitem b "name" = Some (PyStr "n") →
       ("name", PyStr "n") ∈ declared_entries Body c).
Proof.
  intros c w st r.
  apply (nothing_else_is_sent c w st r "name" (PyStr "n")).
  - apply (bool_decide_unpack _). by vm_compute.
  - vm_compute. left.
Defined.

(** ** A [Discover] call with declared parameters only *)

Lemma setitem_fresh d k v : k ∉ keys d → setitem d k v = d ++ [(k, v)].
Proof.
  unfold keys. induction d as [|[k0 v0] d IH]; simpl; [done|].
  intros [Hne Hk]%not_elem_of_cons.
  destruct (String.eqb_spec k0 k) as [->|_]; [done|]. by rewrite IH.
Qed.

Lemma keys_supplied ps k :
  k ∈ keys (supplied ps) → k ∈ wire <$> ps.
Proof.
  unfold keys, supplied. rewrite <- list_fmap_compose.
  intros (p & -> & Hp)%list_elem_of_fmap.
  apply list_elem_of_filter in Hp as [_ Hp]. by apply list_elem_of_fmap_2.
Qed.

Lemma supplied_cons p ps :
  supplied (p :: ps)
  = (if is_None (given p) then [] else [(wire p, given p)]) ++ supplied ps.
Proof.
  unfold supplied. rewrite filter_cons.
  destruct (decide (is_None (given p) = false)) as [->|H]; [done|].
  by apply not_false_is_true in H as ->.
Qed.

(** With distinct keys, the assembly is the list of the supplied
    parameters, in the order in which the method adds them. *)
Lemma assemble_supplied ps d :
  NoDup (keys d ++ (wire <$> ps)) → assemble ps d = d ++ supplied ps.
Proof.
  unfold assemble. revert d. induction ps as [|p ps IH]; intros d Hnd.
  - by rewrite app_nil_r.
  - cbn [foldl]. rewrite supplied_cons. cbn [fmap list_fmap] in Hnd.
    apply NoDup_app in Hnd as (Hd & Hdis & Hps).
    apply NoDup_cons in Hps as [Hp Hps].
    unfold put_if_set at 2. destruct (is_None (given p)).
    + apply IH. apply NoDup_app. split; [done|]. split; [|done].
      intros k Hk Hk'. apply (Hdis k Hk). by right.
    + rewrite setitem_fresh by (intros Hk; apply (Hdis _ Hk); left).
      rewrite IH; [by rewrite <- app_assoc|].
      unfold keys. rewrite fmap_app. cbn [fmap list_fmap fst].
      rewrite <- app_assoc. cbn [app].
      apply NoDup_app. split; [done|]. split.
      * intros k Hk Hk'. by apply (Hdis k Hk).
      * by apply NoDup_cons.
Qed.

(** X13. [Discover.movie] and [Discover.tv] called with declared parameters
    only issue one GET whose query mapping is exactly the supplied
    parameters, in the order in which the method adds them, each under its
    key with the dots: the loop finds nothing to rewrite. *)
Theorem discover_declared_only_query c w st :
  is_discover c = true →
  extra_keywords c = [] →
  requests_of c w st
  = [Request GET (discover_path c) (supplied (optional_parameters c)) None].
Proof.
  intros Hc Hx.
  pose proof (discover_run c w st Hc) as Hrun.
  pose proof (discover_table_ok c Hc) as Htable.
  destruct (table_ok_spec _ Htable) as (Hnd & Hplain & _).
  rewrite Hx, assemble_supplied in Hrun by done. cbn [app] in Hrun.
  unfold Discover.rename_filters in Hrun.
  rewrite rename_loop_plain in Hrun; [done|].
  intros k (p & -> & Hp)%keys_supplied%list_elem_of_fmap. by apply Hplain.
Qed.

Lemma discover_declared_only_query_witness :
  let c := discover_scenario in
  let w := answering 200 (Some (PyDict [])) in
  let st := fresh TMDB_init in
  requests_of c w st
  = [Request GET (discover_path c) (supplied (optional_parameters c)) None].
Proof.
  intros c w st.
  apply (discover_declared_only_query c w st); reflexivity.
Defined.

(** ** Paths *)

Lemma wp_py_str_of v w st (Q : outcome string → state → Prop) :
  Q (Returned (str_of w v)) st → wp (py_str v) w st Q.
Proof. done. Qed.

(** The path builders, with the text they put into the template. *)
Lemma wp_get_id_path_text cls key w st (Q : outcome string → state → Prop) :
  match url_lookup (URLS cls) key with
  | Some t =>
      match attrs st !! "id" with
      | Some v => Q (str_format (BASE_PATH cls +:+ t) "id" (str_of w v)) st
      | None => Q (Raised (AttributeError "id")) st
      end
  | None => Q (Raised (ConfigurationError key)) st
  end →
  wp (_get_id_path cls key) w st Q.
Proof.
  intros H. unfold _get_id_path.
  apply wp_bind, wp_get_path. destruct (url_lookup _ _); [|done].
  apply wp_bind, wp_getattr. destruct (attrs st !! "id"); [|done].
  apply wp_bind, wp_py_str_of. by apply wp_lift.
Qed.

Lemma wp_get_guest_session_id_path_text key w st
    (Q : outcome string → state → Prop) :
  match url_lookup (URLS GuestSessions.cls) key with
  | Some t =>
      match attrs st !! "guest_session_id" with
      | Some v =>
          Q (str_format (BASE_PATH GuestSessions.cls +:+ t)
               "guest_session_id" (str_of w v)) st
      | None => Q (Raised (AttributeError "guest_session_id")) st
      end
  | None => Q (Raised (ConfigurationError key)) st
  end →
  wp (GuestSessions._get_guest_session_id_path key) w st Q.
Proof.
  intros H. unfold GuestSessions._get_guest_session_id_path.
  apply wp_bind, wp_get_path. destruct (url_lookup _ _); [|done].
  apply wp_bind, wp_getattr. destruct (attrs st !! _); [|done].
  apply wp_bind, wp_py_str_of. by apply wp_lift.
Qed.

Ltac wp_step_text :=
  lazymatch goal with
  | |- wp (_get_id_path ?cls ?key) _ _ _ =>
      apply wp_get_id_path_text;
      let t := eval vm_compute in (url_lookup (URLS cls) key) in
      change (url_lookup (URLS cls) key) with t;
      cbv beta iota
  | |- wp (GuestSessions._get_guest_session_id_path ?key) _ _ _ =>
      apply wp_get_guest_session_id_path_text;
      let t := eval vm_compute in (url_lookup (URLS GuestSessions.cls) key) in
      change (url_lookup (URLS GuestSessions.cls) key) with t;
      cbv beta iota
  | |- wp (py_str _) _ _ _ => apply wp_py_str_of
  | _ => wp_step
  end.

Ltac wp_run_text :=
  repeat (first [ progress cbv beta iota zeta
                | progress cbn [attrs sent]
                | wp_step_text ]).

(** Work out a built path, for any text of the identifier. *)
Ltac path_text :=
  lazymatch goal with
  | H : str_format _ _ (str_of ?w ?v) = _ |- _ =>
      revert H; generalize (str_of w v); intros text H;
      vm_compute in H;
      repeat match type of H with
             | context [?f text ?s] =>
                 progress change (f text s) with (text +:+ s) in H
             end;
      first [discriminate H | injection H as <-]
  end.

Lemma brace_free_app s1 s2 :
  brace_free (s1 +:+ s2) = brace_free s1 && brace_free s2.
Proof.
  induction s1 as [|c s1 IH]; [done|].
  change (brace_free (String c (s1 +:+ s2))
          = brace_free (String c s1) && brace_free s2).
  cbn [brace_free]. rewrite IH. by rewrite andb_assoc.
Qed.

Lemma format_scan_brace_free name text field template out :
  format_scan name text field template = Returned out →
  brace_free text = true → brace_free out = true.
Proof.
  intros Hrun Htext. revert field out Hrun.
  induction template as [|c rest IH]; intros field out; cbn.
  - destruct field; [done|]. by intros [= <-].
  - destruct field as [acc|].
    + destruct (Ascii.eqb c "}"); [|apply IH].
      destruct (String.eqb acc name); [|done].
      destruct (format_scan name text None rest) as [o|] eqn:E; cbn; [|done].
      intros [= <-]. rewrite brace_free_app, Htext. by eapply IH.
    + destruct (Ascii.eqb c "{") eqn:E1; [apply IH|].
      destruct (Ascii.eqb c "}") eqn:E2; [done|].
      destruct (format_scan name text None rest) as [o|] eqn:E; cbn; [|done].
      intros [= <-]. cbn. rewrite E1, E2. by eapply IH.
Qed.

(** X14. Every placeholder of a template is filled in: when the texts of
    the identifiers of the object hold no brace, the path of a request
    holds none. *)
Theorem request_path_has_no_brace c w st r :
  identifiers_brace_free w st →
  r ∈ requests_of c w st →
  brace_free (r_path r) = true.
Proof.
  intros Hid. revert r. unfold requests_of.
  change (wp (invoke c) w st (λ _ st',
    ∀ r, r ∈ drop (length (sent st)) (sent st') →
    brace_free (r_path r) = true)).
  destruct st as [a l]. unfold identifiers_brace_free in Hid.
  cbn [attrs] in Hid.
  destruct c; unfold_method; wp_run_text; intros r; issued; try done;
    intros ->; cbn [r_path]; try reflexivity;
    lazymatch goal with
    | H : str_format _ ?name (str_of _ ?v) = Returned _ |- _ =>
        apply format_scan_brace_free in H; [done|];
        apply (Hid name v); [auto|done]
    end.
Qed.

Lemma request_path_has_no_brace_witness :
  let c := Movies_credits in
  let w := answering 200 (Some (PyDict [])) in
  let st := fresh (Movies.__init__ (PyInt 550)) in
  let r := Request GET "movie/550/credits" [] None in
  brace_free (r_path r) = true.
Proof.
  intros c w st r.
  apply (request_path_has_no_brace c w st r).
  - intros name v [->| ->] H; vm_compute in H; [|discriminate H].
    injection H as <-. reflexivity.
  - vm_compute. left.
Defined.

(** X15. The request of a call goes to the path of its endpoint: the base
    path of the class and the template that the table of the class holds
    under the name of the method, with the placeholder of the template
    replaced by the text of the identifier that the object holds.  Every
    method uses the path builder that fits its template. *)
Theorem request_goes_to_its_endpoint c w st r :
  r ∈ requests_of c w st →
  ∃ t, url_lookup (URLS (endpoint c).1) (endpoint c).2 = Some t
       ∧ filled_path w st (endpoint c).1 t = Some (r_path r).
Proof.
  revert r. unfold requests_of.
  change (wp (invoke c) w st (λ _ st',
    ∀ r, r ∈ drop (length (sent st)) (sent st') →
    ∃ t, url_lookup (URLS (endpoint c).1) (endpoint c).2 = Some t
         ∧ filled_path w st (endpoint c).1 t = Some (r_path r))).
  destruct st as [a l].
  destruct c; unfold_method; wp_run_text; intros r; issued; try done;
    intros ->; cbn [r_path endpoint fst snd];
    (eexists; split; [reflexivity|]);
    unfold filled_path; cbn [attrs];
    lazymatch goal with
    | H : str_format _ _ (str_of ?w ?v) = Returned _,
      Hv : _ !! _ = Some ?v |- _ =>
        rewrite Hv; revert H; generalize (str_of w v); intros text H;
        vm_compute in H; injection H as <-; vm_compute; reflexivity
    | _ => vm_compute; reflexivity
    end.
Qed.

Lemma request_goes_to_its_endpoint_witness :
  let c := GuestSessions_rated_tv PyNone PyNone in
  let w := answering 200 (Some (PyDict [])) in
  let st := fresh (GuestSessions.__init__ (PyStr "g1")) in
  let r := Request GET "guest_session/g1/rated/tv" [] None in
  ∃ t, url_lookup (URLS (endpoint c).1) (endpoint c).2 = Some t
       ∧ filled_path w st (endpoint c).1 t = Some (r_path r).
Proof.
  intros c w st r.
  apply (request_goes_to_its_endpoint c w st r).
  vm_compute. left.
Defined.

(** ** What a call returns *)

(** X16. A call that returns has issued one request, the service has
    answered it with a success status and a decoded body, and the call
    returns this body as it is. *)
Theorem returned_value_is_the_reply c w st v :
  (invoke c w st).1 = Returned v →
  ∃ r s, requests_of c w st = [r]
         ∧ service w r = Replied s (Some v)
         ∧ is_success s = true.
Proof.
  unfold requests_of.
  change (wp (invoke c) w st (λ o st',
    o = Returned v →
    ∃ r s, drop (length (sent st)) (sent st') = [r]
           ∧ service w r = Replied s (Some v)
           ∧ is_success s = true)).
  destruct st as [a l].
  destruct c; unfold_method; wp_run; try done;
    intros [= ->]; issued; eauto.
Qed.

Lemma returned_value_is_the_reply_witness :
  let c := Genres_movie_list PyNone in
  let w := answering 200 (Some (PyDict [("genres", PyList [])])) in
  let st := fresh TMDB_init in
  ∃ r s, requests_of c w st = [r]
         ∧ service w r = Replied s (Some (PyDict [("genres", PyList [])]))
         ∧ is_success s = true.
Proof.
  intros c w st.
  apply (returned_value_is_the_reply c w st). reflexivity.
Defined.

(** ** The confirmation of [Lists.list_clear] *)



(** ** One call after another *)

Lemma append_String c a b : String c a +:+ b = String c (a +:+ b).
Proof. done. Qed.

Lemma append_Empty b : "" +:+ b = b.
Proof. done. Qed.

Lemma starts_with_self t s : starts_with t (t +:+ s) = true.
Proof.
  induction t as [|c t IH]; [done|].
  rewrite append_String. cbn [starts_with]. by rewrite Ascii.eqb_refl.
Qed.

Lemma starts_with_append t p s :
  starts_with (t +:+ p) (t +:+ s) = starts_with p s.
Proof.
  induction t as [|c t IH]; [done|].
  rewrite !append_String. cbn [starts_with]. by rewrite Ascii.eqb_refl.
Qed.

(** What a successful [Account.info] leaves on the object. *)
Lemma info_returned w st resp :
  (invoke Account_info w st).1 = Returned resp →
  ∃ v, subscript resp "id" = Returned v
       ∧ attrs (invoke Account_info w st).2 !! "id" = Some v
       ∧ ∀ name, is_Some (attrs st !! name) →
           is_Some (attrs (invoke Account_info w st).2 !! name).
Proof.
  change (wp (invoke Account_info) w st (λ o st',
    o = Returned resp →
    ∃ v, subscript resp "id" = Returned v
         ∧ attrs st' !! "id" = Some v
         ∧ ∀ name, is_Some (attrs st !! name) →
             is_Some (attrs st' !! name))).
  destruct st as [a l]. unfold_method; wp_run; try done.
  intros [= ->]. eexists. split; [eassumption|].
  destruct resp as [| | | | | |d]; try discriminate.
  cbn [subscript] in *. cbn [mirrored].
  destruct (getitem d "id") as [v|] eqn:E; [|discriminate].
  match goal with H : Returned _ = Returned _ |- _ => injection H as <- end.
  split.
  - by rewrite mirror_lookup, E.
  - intros name Hn. rewrite mirror_lookup.
    destruct (getitem d name); [eauto|].
    destruct (decide (name = "id")) as [->|Hne].
    + rewrite lookup_insert_eq. eauto.
    + by rewrite lookup_insert_ne.
Qed.

(** A method of [Account] with the identifier in its path, on an object
    that holds the identifier and the session identifier. *)
Lemma account_call_with_id c w st v :
  needs_account_id c = true →
  attrs st !! "id" = Some v →
  is_Some (attrs st !! "session_id") →
  ∃ r, requests_of c w st = [r]
       ∧ starts_with ("account/" +:+ str_of w v +:+ "/") (r_path r) = true.
Proof.
  intros Hc Hid [sid Hsid]. unfold requests_of.
  change (wp (invoke c) w st (λ _ st',
    ∃ r, drop (length (sent st)) (sent st') = [r]
         ∧ starts_with ("account/" +:+ str_of w v +:+ "/") (r_path r)
           = true)).
  destruct st as [a l]. cbn [attrs] in Hid, Hsid.
  destruct c; try discriminate Hc; clear Hc;
    unfold_method; wp_run_text; try congruence;
    injection Hid as ->; path_text;
    issued;
    (eexists; split; [reflexivity|]); cbn [r_path];
    rewrite !append_String, append_Empty;
    cbn [starts_with Ascii.eqb Bool.eqb andb];
    by rewrite starts_with_append.
Qed.

(** X18. Once [Account.info] has returned, the methods of [Account] that
    need the identifier of the account work: called next on the same
    object, built with a session identifier, such a method issues one
    request, to a path under [account/] followed by the text of the
    value that the response of [info] holds under ["id"]. *)
Theorem info_then_account_call c w st resp :
  (invoke Account_info w st).1 = Returned resp →
  is_Some (attrs st !! "session_id") →
  needs_account_id c = true →
  ∃ v r, subscript resp "id" = Returned v
         ∧ requests_of c w (invoke Account_info w st).2 = [r]
         ∧ starts_with ("account/" +:+ str_of w v +:+ "/") (r_path r)
           = true.
Proof.
  intros Hinfo Hsid Hc.
  destruct (info_returned w st resp Hinfo) as (v & Hv & Hid & Hkeep).
  destruct (account_call_with_id c w _ v Hc Hid (Hkeep _ Hsid))
    as (r & Hr & Hp).
  by exists v, r.
Qed.

Lemma info_then_account_call_witness :
  let w := answering 200 (Some (PyDict [("id", PyInt 42)])) in
  let st := fresh (Account.__init__ (PyStr "abc")) in
  let c := Account_watchlist_tv PyNone PyNone PyNone in
  ∃ v r, subscript (PyDict [("id", PyInt 42)]) "id" = Returned v
         ∧ requests_of c w (invoke Account_info w st).2 = [r]
         ∧ starts_with ("account/" +:+ str_of w v +:+ "/") (r_path r)
           = true.
Proof.
  intros w st c.
  apply (info_then_account_call c w st (PyDict [("id", PyInt 42)])).
  - reflexivity.
  - by eexists.
  - reflexivity.
Defined.

(** What a successful [Lists.list_create] leaves on the object. *)
Lemma list_create_returned name description language w st resp :
  (invoke (Lists_list_create name description language) w st).1
  = Returned resp →
  let st' := (invoke (Lists_list_create name description language) w st).2 in
  ∃ v, attrs st' !! "id" = Some v
       ∧ mirrored resp (attrs st) !! "list_id" = Some v
       ∧ is_Some (attrs st' !! "session_id").
Proof.
  cbv zeta.
  change (wp (invoke (Lists_list_create name description language)) w st
    (λ o st',
      o = Returned resp →
      ∃ v, attrs st' !! "id" = Some v
           ∧ mirrored resp (attrs st) !! "list_id" = Some v
           ∧ is_Some (attrs st' !! "session_id"))).
  destruct st as [a l]. unfold_method; wp_run; try done.
  intros [= ->]. eexists. split; [by rewrite lookup_insert_eq|].
  split; [eassumption|].
  rewrite lookup_insert_ne by done.
  destruct resp as [| | | | | |d]; cbn [mirrored]; [eauto..|].
  rewrite mirror_lookup. destruct (getitem d "session_id"); eauto.
Qed.

(** A method of [Lists] with the identifier in its path, on an object
    that holds the identifier and the session identifier. *)
Lemma list_call_with_id c w st v :
  needs_list_id c = true →
  attrs st !! "id" = Some v →
  is_Some (attrs st !! "session_id") →
  ∃ r, requests_of c w st = [r]
       ∧ starts_with ("list/" +:+ str_of w v) (r_path r) = true.
Proof.
  intros Hc Hid [sid Hsid]. unfold requests_of.
  change (wp (invoke c) w st (λ _ st',
    ∃ r, drop (length (sent st)) (sent st') = [r]
         ∧ starts_with ("list/" +:+ str_of w v) (r_path r) = true)).
  destruct st as [a l]. cbn [attrs] in Hid, Hsid.
  destruct c; try discriminate Hc; clear Hc;
    unfold_method; wp_run_text; try congruence;
    injection Hid as ->; path_text;
    issued;
    (eexists; split; [reflexivity|]); cbn [r_path];
    rewrite !append_String, append_Empty;
    cbn [starts_with Ascii.eqb Bool.eqb andb];
    apply starts_with_self.
Qed.

(** X19. The list that [Lists.list_create] has made is the list that the
    next calls address: once it has returned, a method of [Lists] with the
    identifier in its path, called next on the same object, issues one
    request, to a path that starts with [list/] and the text of the
    attribute [list_id], which the response has set when it holds this
    key. *)
Theorem list_create_then_list_call name description language c w st resp :
  (invoke (Lists_list_create name description language) w st).1
  = Returned resp →
  needs_list_id c = true →
  let st' := (invoke (Lists_list_create name description language) w st).2 in
  ∃ v r, mirrored resp (attrs st) !! "list_id" = Some v
         ∧ requests_of c w st' = [r]
         ∧ starts_with ("list/" +:+ str_of w v) (r_path r) = true.
Proof.
  intros Hrun Hc st'.
  destruct (list_create_returned _ _ _ w st resp Hrun) as (v & Hid & Hv & Hs).
  destruct (list_call_with_id c w st' v Hc Hid Hs) as (r & Hr & Hp).
  by exists v, r.
Qed.

Lemma list_create_then_list_call_witness :
  let w := answering 201 (Some (PyDict [("list_id", PyInt 9)])) in
  let st := fresh (Lists.__init__ (PyInt 0) (PyStr "abc")) in
  let c := Lists_add_item (PyInt 550) in
  let st' :=
    (invoke (Lists_list_create (PyStr "n") (PyStr "d") PyNone) w st).2 in
  ∃ v r,
    mirrored (PyDict [("list_id", PyInt 9)]) (attrs st) !! "list_id" = Some v
    ∧ requests_of c w st' = [r]
    ∧ starts_with ("list/" +:+ str_of w v) (r_path r) = true.
Proof.
  intros w st c.
  apply (list_create_then_list_call (PyStr "n") (PyStr "d") PyNone c w st
           (PyDict [("list_id", PyInt 9)])); reflexivity.
Defined.

(** ** Failing before and after the request *)

(** A loop that stops has met a snapshot key with both substrings. *)
Lemma rename_loop_raised ks d e :
  NoDup ks → (∀ k, k ∈ ks → is_Some (getitem d k)) →
  Discover.rename_loop ks d = Raised e →
  ∃ k, e = KeyError k ∧ k ∈ ks ∧ has_both k = true.
Proof.
  revert d. induction ks as [|k0 ks IH]; intros d Hnd Hin Hrun; [done|].
  destruct (has_both k0) eqn:Hb0.
  { cbn [Discover.rename_loop] in Hrun.
    rewrite rename_step_both in Hrun by done. injection Hrun as <-.
    exists k0. split; [done|]. split; [left|done]. }
  destruct (Hin k0) as [v Hv]; [left|].
  cbn [Discover.rename_loop] in Hrun.
  rewrite (rename_step_one d k0 v) in Hrun by done. cbn in Hrun.
  pose proof Hnd as [Hk0 Hnd']%NoDup_cons.
  apply IH in Hrun as (k & -> & Hk & Hb); [|done|].
  - exists k. split; [done|]. split; [by right|done].
  - intros k' Hk'. rewrite getitem_rename_step.
    destruct (needs_rename k0); [|by apply Hin; right].
    destruct (String.eqb (dotted k0) k'); [eauto|].
    destruct (String.eqb_spec k0 k') as [->|_]; [done|]. apply Hin. by right.
Qed.

(** X20. A call that ends in an error without a request has found an
    attribute missing on the object, the identifier, the guest session
    identifier or the session identifier that its path or its query
    needs; or it is a call of [Discover] with an extra keyword that holds
    both ["_lte"] and ["_gte"].  The templates themselves never make the
    path builders fail. *)
Theorem failure_before_request c w st e :
  keywords_wf c →
  (invoke c w st).1 = Raised e →
  requests_of c w st = [] →
  (∃ name, e = AttributeError name ∧ attrs st !! name = None)
  ∨ (∃ k, e = KeyError k ∧ k ∈ keys (extra_keywords c) ∧ has_both k = true).
Proof.
  intros [Hnd Hloc].
  destruct (is_discover c) eqn:Hd.
  - pose proof (discover_run c w st Hd) as Hrun.
    pose proof (discover_table_ok c Hd) as Htable.
    destruct (table_ok_spec _ Htable) as (_ & Hplain & _).
    destruct (Discover.rename_filters _) as [q|e0] eqn:Hq.
    { intros _ Hr. rewrite Hrun in Hr. discriminate Hr. }
    rewrite Hrun. cbn [fst]. intros [= ->] _. right.
    apply rename_loop_raised in Hq as (k & -> & Hk & Hb).
    + exists k. split; [done|]. split; [|done].
      apply keys_assemble in Hk as [?|(p & Hp & <- & _)]; [done|].
      apply Hplain in Hp. unfold needs_rename, has_both in *.
      apply orb_false_iff in Hp as [Hl _]. by rewrite Hl in Hb.
    + by apply NoDup_keys_assemble.
    + intros k. by rewrite keys_getitem.
  - clear Hnd Hloc. unfold requests_of.
    change (wp (invoke c) w st (λ o st',
      o = Raised e → drop (length (sent st)) (sent st') = [] →
      (∃ name, e = AttributeError name ∧ attrs st !! name = None)
      ∨ (∃ k, e = KeyError k ∧ k ∈ keys (extra_keywords c)
              ∧ has_both k = true))).
    destruct st as [a l].
    destruct c; try discriminate Hd; clear Hd;
      unfold_method; wp_run_text; try done; issued; try done;
      cbn [attrs];
      first [ intros [= <-] _; left; eexists; split; [reflexivity|done]
            | path_text ].
Qed.

Lemma failure_before_request_witness :
  let c := Movies_credits in
  let w := answering 200 (Some (PyDict [])) in
  let st := fresh TMDB_init in
  (∃ name, AttributeError "id" = AttributeError name
           ∧ attrs st !! name = None)
  ∨ (∃ k, AttributeError "id" = KeyError k
          ∧ k ∈ keys (extra_keywords c) ∧ has_both k = true).
Proof.
  intros c w st.
  apply (failure_before_request c w st (AttributeError "id")).
  - apply (bool_decide_unpack _). by vm_compute.
  - reflexivity.
  - reflexivity.
Defined.

(** X21. Once the service has answered the request of a call with a
    success status and a decoded body, the call returns this body: but for
    [Account.info] and [Lists.list_create], which read the response, no
    method can fail after a good answer. *)
Theorem good_reply_is_returned c w st r s v :
  c ≠ Account_info →
  is_list_create c = false →
  r ∈ requests_of c w st →
  service w r = Replied s (Some v) →
  is_success s = true →
  (invoke c w st).1 = Returned v.
Proof.
  intros Hinfo Hcreate. unfold requests_of.
  change (wp (invoke c) w st (λ o st',
    r ∈ drop (length (sent st)) (sent st') →
    service w r = Replied s (Some v) → is_success s = true →
    o = Returned v)).
  destruct st as [a l].
  destruct c; try done; try discriminate Hcreate; clear Hinfo Hcreate;
    unfold_method; wp_run; issued; try done;
    intros -> Hs Hok; congruence.
Qed.

Lemma good_reply_is_returned_witness :
  let c := Search_keyword (PyStr "noir") PyNone in
  let w := answering 200 (Some (PyDict [("page", PyInt 1)])) in
  let st := fresh TMDB_init in
  (invoke c w st).1 = Returned (PyDict [("page", PyInt 1)]).
Proof.
  intros c w st.
  apply (good_reply_is_returned c w st
           (Request GET "search/keyword" [("query", PyStr "noir")] None)
           200 (PyDict [("page", PyInt 1)])).
  - discriminate.
  - reflexivity.
  - vm_compute. left.
  - reflexivity.
  - reflexivity.
Defined.

(** ** A keyword with both substrings *)

(** [Discover.tv(a_lte_gte=1)] ends in a [KeyError] for ["a_lte_gte"]. *)
Lemma keyword_with_both_substrings_raises_witness :
  let c := tv_with_keywords [("a_lte_gte", PyInt 1)] in
  let w := answering 200 None in
  let st := fresh TMDB_init in
  ∃ k, k ∈ keys (extra_keywords c) ∧ has_both k = true
       ∧ invoke c w st = (Raised (KeyError k), st).
Proof.
  intros c w st.
  apply (keyword_with_both_substrings_raises c w st).
  - reflexivity.
  - apply (bool_decide_unpack _). by vm_compute.
  - apply (bool_decide_unpack _). by vm_compute.
Defined.
